(** * Dialer: a shallow embedding of the dialer engine, the AMI session and
      the call reconciler

    Sources embedded here:
    - [src/dialer_service.py]  (DialerService, PredictiveDialer)
    - [src/sip_service.py]     (AsteriskAMIClient, SipService)
    - [src/dialer.py]          (the HTTP facade over the dialer service)
    - [src/call.py], [src/lead.py], [src/campaign.py], [src/sip.py] (rows)

    Conventions.
    - A Python [datetime] is an integer number of microseconds (naive UTC);
      a [timedelta] is a difference of two of them.
    - A Python [float] is an exact rational ([Q]).  Division by a zero float
      raises [ZeroDivisionError] in Python and does so here.
    - A [dict] used as a keyed table is a [gmap]; a [dict] whose iteration
      order is observed is an insertion-ordered association list.
    - Each operation reads the clock through its [now] argument: every
      [datetime.utcnow()] inside one call returns that instant.
    - The threads of the dialers are not modelled; an operation is one
      atomic step on the state. *)

From Stdlib Require Import ZArith QArith Qround.
From stdpp Require Import gmap strings list fin_maps pretty.

Local Open Scope string_scope.
Local Open Scope Z_scope.

(** ** Python values *)

Definition datetime := Z.

Definition microseconds_per_second : Z := 1000000.

(** [timedelta(minutes=m)] *)
Definition timedelta_minutes (m : Z) : Z := m * 60 * microseconds_per_second.

(** [delta.total_seconds()] *)
Definition total_seconds (delta : Z) : Q := Qmake delta 1000000.

(** [int(x)] on a float: truncation towards zero. *)
Definition py_int (x : Q) : Z := Z.quot (Qnum x) (Zpos (Qden x)).

(** Truth value of an [Optional[int]]: [None] and [0] are falsy. *)
Definition truthy_int (x : option Z) : bool :=
  match x with
  | Some v => negb (v =? 0)
  | None => false
  end.

(** Truth value of an [Optional[str]]: [None] and the empty string are falsy. *)
Definition truthy_str (x : option string) : bool :=
  match x with
  | Some v => negb (bool_decide (v = ""))
  | None => false
  end.

Inductive exn : Type :=
  | ZeroDivisionError
  | TypeError
  | NotAuthenticated
  | SocketError.

Inductive result (A : Type) : Type :=
  | Ok (a : A)
  | Raise (e : exn).
Arguments Ok {A} a.
Arguments Raise {A} e.

(** [d[k] = v] on an insertion-ordered dict: an existing key keeps its
    position, a new key goes last. *)
Fixpoint dict_set {K V : Type} `{EqDecision K}
    (k : K) (v : V) (d : list (K * V)) : list (K * V) :=
  match d with
  | [] => [(k, v)]
  | (k', v') :: rest =>
      if decide (k' = k) then (k, v) :: rest else (k', v') :: dict_set k v rest
  end.

(** [del d[k]] *)
Fixpoint dict_del {K V : Type} `{EqDecision K}
    (k : K) (d : list (K * V)) : list (K * V) :=
  match d with
  | [] => []
  | (k', v') :: rest =>
      if decide (k' = k) then rest else (k', v') :: dict_del k rest
  end.

(** [d.get(k)] *)
Fixpoint dict_get {K V : Type} `{EqDecision K}
    (k : K) (d : list (K * V)) : option V :=
  match d with
  | [] => None
  | (k', v') :: rest => if decide (k' = k) then Some v' else dict_get k rest
  end.

(** ** Rows of the persistent store ([src/lead.py], [src/campaign.py],
       [src/call.py], [src/sip.py]) *)

Module Lead.
Record t : Type := mk {
  id : Z;
  campaign_id : Z;
  phone_number : option string;
  status : string;
  priority : Z;
  last_contacted : option datetime;
  next_contact_date : option datetime
}.

Definition set_last_contacted (v : option datetime) (l : t) : t :=
  mk (id l) (campaign_id l) (phone_number l) (status l) (priority l)
     v (next_contact_date l).
End Lead.

Module Campaign.
Record t : Type := mk {
  id : Z;
  status : string;
  dialer_mode : string;
  max_attempts : Z;
  retry_delay_minutes : Z;
  predictive_ratio : option Q;
  turbo_delay_seconds : option Z
}.
End Campaign.

Module CampaignAssignment.
Record t : Type := mk {
  campaign_id : Z;
  user_id : Z
}.
End CampaignAssignment.

Module Call.
Record t : Type := mk {
  id : Z;
  lead_id : Z;
  campaign_id : Z;
  agent_id : option Z;
  phone_number : string;
  call_direction : string;
  call_status : string;
  started_at : option datetime;
  answered_at : option datetime;
  ended_at : option datetime;
  duration_seconds : option Z
}.

Definition set_call_status (v : string) (c : t) : t :=
  mk (id c) (lead_id c) (campaign_id c) (agent_id c) (phone_number c)
     (call_direction c) v (started_at c) (answered_at c) (ended_at c)
     (duration_seconds c).

Definition set_ended_at (v : option datetime) (c : t) : t :=
  mk (id c) (lead_id c) (campaign_id c) (agent_id c) (phone_number c)
     (call_direction c) (call_status c) (started_at c) (answered_at c) v
     (duration_seconds c).

Definition set_duration_seconds (v : option Z) (c : t) : t :=
  mk (id c) (lead_id c) (campaign_id c) (agent_id c) (phone_number c)
     (call_direction c) (call_status c) (started_at c) (answered_at c)
     (ended_at c) v.

Definition set_answered_at (v : option datetime) (c : t) : t :=
mk (id c) (lead_id c) (campaign_id c) (agent_id c) (phone_number c)
   (call_direction c) (call_status c) (started_at c) v (ended_at c)
   (duration_seconds c).

(** [Call.calculate_duration]: only when both timestamps are present. *)
Definition calculate_duration (c : t) : t :=
  match started_at c, ended_at c with
  | Some s, Some e => set_duration_seconds (Some (py_int (total_seconds (e - s)))) c
  | _, _ => c
  end.
End Call.

Module CallEvent.
Record t : Type := mk {
  call_id : Z;
  event_type : string;
  (** the JSON text of a key/value bag, or NULL *)
  event_data : option (gmap string string);
  timestamp : datetime
}.

(** [CallEvent.set_event_data]: an empty bag is stored as NULL. *)
Definition set_event_data (data_dict : gmap string string) (e : t) : t :=
  mk (call_id e) (event_type e)
     (if bool_decide (data_dict = ∅) then None else Some data_dict)
     (timestamp e).
End CallEvent.

Module SipConfiguration.
Record t : Type := mk {
  id : Z;
  username : string;
  is_active : bool
}.
End SipConfiguration.

(** The tables the core reads and writes.  Rows are kept in table order,
    which is the order a query without [ORDER BY] returns them in. *)
Module Db.
Record t : Type := mk {
  campaigns : list Campaign.t;
  leads : list Lead.t;
  calls : list Call.t;
  call_events : list CallEvent.t;
  assignments : list CampaignAssignment.t;
  sip_configurations : list SipConfiguration.t
}.

Definition set_calls (v : list Call.t) (d : t) : t :=
  mk (campaigns d) (leads d) v (call_events d) (assignments d)
     (sip_configurations d).

Definition set_leads (v : list Lead.t) (d : t) : t :=
  mk (campaigns d) v (calls d) (call_events d) (assignments d)
     (sip_configurations d).

Definition set_call_events (v : list CallEvent.t) (d : t) : t :=
  mk (campaigns d) (leads d) (calls d) v (assignments d)
     (sip_configurations d).

(** [Campaign.query.get(campaign_id)] *)
Definition campaign_get (cid : Z) (d : t) : option Campaign.t :=
  find (fun c => bool_decide (Campaign.id c = cid)) (campaigns d).

(** [Lead.query.get(lead_id)] *)
Definition lead_get (lid : Z) (d : t) : option Lead.t :=
  find (fun l => bool_decide (Lead.id l = lid)) (leads d).

(** [Call.query.get(call_id)] *)
Definition call_get (cid : Z) (d : t) : option Call.t :=
  find (fun c => bool_decide (Call.id c = cid)) (calls d).

(** [Call.query.filter_by(lead_id=lid)] *)
Definition calls_of_lead (lid : Z) (d : t) : list Call.t :=
  List.filter (fun c => bool_decide (Call.lead_id c = lid)) (calls d).

(** [CampaignAssignment.query.filter_by(campaign_id=cid).all()], projected
    on [user_id]. *)
Definition assigned_agent_ids (cid : Z) (d : t) : list Z :=
  List.map CampaignAssignment.user_id
    (List.filter (fun a => bool_decide (CampaignAssignment.campaign_id a = cid))
       (assignments d)).

(** The key an autoincrement column gives the next inserted call. *)
Definition next_call_id (d : t) : Z :=
  1 + fold_right Z.max 0 (List.map Call.id (calls d)).

(** Write back a mutated row, found by its primary key. *)
Definition update_call (c : Call.t) (d : t) : t :=
  set_calls
    (List.map (fun c' => if bool_decide (Call.id c' = Call.id c) then c else c')
       (calls d)) d.

Definition update_lead (l : Lead.t) (d : t) : t :=
  set_leads
    (List.map (fun l' => if bool_decide (Lead.id l' = Lead.id l) then l else l')
       (leads d)) d.

(** [SipConfiguration.query.filter_by(is_active=True).first()] *)
Definition active_configuration (d : t) : option SipConfiguration.t :=
  find SipConfiguration.is_active (sip_configurations d).
End Db.

(** ** Agent registry ([DialerService.agent_statuses]) *)

Module AgentStatus.
Record t : Type := mk {
  agent_id : Z;
  status : string;
  current_call_id : option Z;
  last_call_end : option datetime;
  calls_today : Z;
  talk_time_today : Z
}.

(** [AgentStatus(agent_id=agent_id, status=status)]: the dataclass
    defaults fill the other fields. *)
Definition new (agent_id : Z) (status : string) : t :=
  mk agent_id status None None 0 0.

Definition set_status (v : string) (a : t) : t :=
  mk (agent_id a) v (current_call_id a) (last_call_end a) (calls_today a)
     (talk_time_today a).

Definition set_current_call_id (v : option Z) (a : t) : t :=
  mk (agent_id a) (status a) v (last_call_end a) (calls_today a)
     (talk_time_today a).

Definition set_last_call_end (v : option datetime) (a : t) : t :=
  mk (agent_id a) (status a) (current_call_id a) v (calls_today a)
     (talk_time_today a).
End AgentStatus.

Module DialerStats.
Record t : Type := mk {
  total_calls : Z;
  answered_calls : Z;
  busy_calls : Z;
  no_answer_calls : Z;
  failed_calls : Z;
  average_call_duration : Q;
  answer_rate : Q;
  agent_utilization : Q
}.

Definition default : t := mk 0 0 0 0 0 0%Q 0%Q 0%Q.

Definition incr_total_calls (s : t) : t :=
  mk (total_calls s + 1) (answered_calls s) (busy_calls s) (no_answer_calls s)
     (failed_calls s) (average_call_duration s) (answer_rate s)
     (agent_utilization s).
End DialerStats.

(** ** AMI session ([AsteriskAMIClient] in [src/sip_service.py]) *)

Definition CRLF : string :=
  String (Ascii.ascii_of_nat 13) (String (Ascii.ascii_of_nat 10) EmptyString).

(** A parsed AMI message: the dict built by [_parse_message]. *)
Abbreviation message := (gmap string string).

Module AsteriskAMIClient.
Section Client.
(** The callables registered as handlers. *)
Variable H : Type.

Record t : Type := mk {
  username : string;
  connected : bool;
  authenticated : bool;
  event_handlers : gmap string (list H);
  response_handlers : gmap string H;
  action_id_counter : Z;
  (** what has been written to the socket, oldest first *)
  sent : list string
}.

Definition set_response_handlers (v : gmap string H) (c : t) : t :=
  mk (username c) (connected c) (authenticated c) (event_handlers c) v
     (action_id_counter c) (sent c).

Definition set_event_handlers (v : gmap string (list H)) (c : t) : t :=
  mk (username c) (connected c) (authenticated c) v (response_handlers c)
     (action_id_counter c) (sent c).

Definition set_action_id_counter (v : Z) (c : t) : t :=
  mk (username c) (connected c) (authenticated c) (event_handlers c)
     (response_handlers c) v (sent c).

Definition set_sent (v : list string) (c : t) : t :=
  mk (username c) (connected c) (authenticated c) (event_handlers c)
     (response_handlers c) (action_id_counter c) v.

(** One call [handler(message)]. *)
Record invocation : Type := Invoke {
  handler : H;
  argument : message
}.

(** [_handle_message]: the handlers invoked, in order, and the client
    afterwards.  The [if 'Event' in message] branch comes first and the
    [ActionID] branch is its [elif]. *)
Definition _handle_message (msg : message) (c : t) : t * list invocation :=
  match msg !! "Event" with
  | Some event_type =>
      match event_handlers c !! event_type with
      | Some handlers => (c, List.map (fun h => Invoke h msg) handlers)
      | None => (c, [])
      end
  | None =>
      match msg !! "ActionID" with
      | Some action_id =>
          match response_handlers c !! action_id with
          | Some h =>
              (set_response_handlers (delete action_id (response_handlers c)) c,
               [Invoke h msg])
          | None => (c, [])
          end
      | None => (c, [])
      end
  end.

(** [_get_action_id] *)
Definition _get_action_id (now : datetime) (c : t) : t * string :=
  let n := action_id_counter c + 1 in
  (set_action_id_counter n c,
   "action_" +:+ pretty n +:+ "_" +:+ pretty (py_int (total_seconds now))).

(** [register_event_handler] *)
Definition register_event_handler (event_type : string) (h : H) (c : t) : t :=
  match event_handlers c !! event_type with
  | None => set_event_handlers (<[event_type := [h]]> (event_handlers c)) c
  | Some hs => set_event_handlers (<[event_type := app hs [h]]> (event_handlers c)) c
  end.

Definition render_parameters (parameters : list (string * string)) : string :=
  fold_left (fun acc kv => acc +:+ fst kv +:+ ": " +:+ snd kv +:+ CRLF)
    parameters "".

(** [send_action].  [send_ok] says whether [socket.send] succeeds. *)
Definition send_action (now : datetime) (send_ok : bool) (action : string)
    (parameters : list (string * string)) (callback : option H) (c : t)
    : t * result string :=
  if negb (authenticated c) then (c, Raise NotAuthenticated)
  else
    let '(c1, action_id) := _get_action_id now c in
    let text :=
      "Action: " +:+ action +:+ CRLF +:+ "ActionID: " +:+ action_id +:+ CRLF
      +:+ render_parameters parameters +:+ CRLF in
    let c2 :=
      match callback with
      | Some h => set_response_handlers (<[action_id := h]> (response_handlers c1)) c1
      | None => c1
      end in
    if send_ok then (set_sent (app (sent c2) [text]) c2, Ok action_id)
    else (c2, Raise SocketError).

(** [originate_call]: every variable is stored under the one key
    [Variable], so a later one replaces an earlier one. *)
Definition originate_call (now : datetime) (send_ok : bool)
    (channel context extension : string) (priority : Z)
    (caller_id : option string) (variables : list (string * string))
    (callback : option H) (c : t) : t * result string :=
  let parameters :=
    [("Channel", channel); ("Context", context); ("Exten", extension);
     ("Priority", pretty priority)] in
  let parameters :=
    if truthy_str caller_id
    then dict_set "CallerID" (default "" caller_id) parameters
    else parameters in
  let parameters :=
    fold_left (fun ps kv => dict_set "Variable" (fst kv +:+ "=" +:+ snd kv) ps)
      variables parameters in
  send_action now send_ok "Originate" parameters callback c.

(** The parameter dict [originate_call] builds before it sends. *)
Definition originate_parameters (channel context extension : string)
    (priority : Z) (caller_id : option string)
    (variables : list (string * string)) : list (string * string) :=
  let parameters :=
    [("Channel", channel); ("Context", context); ("Exten", extension);
     ("Priority", pretty priority)] in
  let parameters :=
    if truthy_str caller_id
    then dict_set "CallerID" (default "" caller_id) parameters
    else parameters in
  fold_left (fun ps kv => dict_set "Variable" (fst kv +:+ "=" +:+ snd kv) ps)
    variables parameters.

(** [hangup_call] *)
Definition hangup_call (now : datetime) (send_ok : bool) (channel : string)
    (callback : option H) (c : t) : t * result string :=
  send_action now send_ok "Hangup" [("Channel", channel)] callback c.

(** [get_channel_status] *)
Definition get_channel_status (now : datetime) (send_ok : bool) (channel : string)
    (callback : option H) (c : t) : t * result string :=
  send_action now send_ok "Status" [("Channel", channel)] callback c.

(** [disconnect] *)
Definition disconnect (c : t) : t :=
  mk (username c) false false (event_handlers c) (response_handlers c)
     (action_id_counter c) (sent c).
End Client.

Arguments mk {H}.
Arguments username {H}.
Arguments connected {H}.
Arguments authenticated {H}.
Arguments event_handlers {H}.
Arguments response_handlers {H}.
Arguments action_id_counter {H}.
Arguments sent {H}.
Arguments Invoke {H}.
Arguments handler {H}.
Arguments argument {H}.
Arguments _handle_message {H}.
Arguments register_event_handler {H}.
Arguments send_action {H}.
Arguments originate_call {H}.
Arguments set_response_handlers {H}.
Arguments set_event_handlers {H}.
Arguments set_action_id_counter {H}.
Arguments set_sent {H}.
Arguments _get_action_id {H}.
Arguments hangup_call {H}.
Arguments get_channel_status {H}.
Arguments disconnect {H}.

(** [str.isspace] on an ASCII character: tab to carriage return, the four
    separators and the space.  The strings of this model stand for ASCII
    text; the Unicode spaces that [str.strip] also removes (U+0085, U+00A0
    and beyond) have no character here, and what is proved of [strip] and
    [_parse_message] is stated for ASCII text. *)
Definition is_space (c : Ascii.ascii) : bool :=
  let n := Ascii.nat_of_ascii c in
  ((9 <=? n)%nat && (n <=? 13)%nat) || ((28 <=? n)%nat && (n <=? 32)%nat).

(** [str.lstrip()] *)
Fixpoint lstrip (s : string) : string :=
  match s with
  | EmptyString => EmptyString
  | String c rest => if is_space c then lstrip rest else s
  end.

(** [str.rstrip()] *)
Fixpoint rstrip (s : string) : string :=
  match s with
  | EmptyString => EmptyString
  | String c rest =>
      match rstrip rest with
      | EmptyString => if is_space c then EmptyString else String c EmptyString
      | rest' => String c rest'
      end
  end.

(** [str.strip()] *)
Definition strip (s : string) : string := rstrip (lstrip s).

(** [line.split(':', 1)] when [':' in line]: the text before the first
    colon and the text after it. *)
Fixpoint split_colon (line : string) : option (string * string) :=
  match line with
  | EmptyString => None
  | String c rest =>
      if Ascii.eqb c (Ascii.ascii_of_nat 58) then Some (EmptyString, rest)
      else
        match split_colon rest with
        | Some (key, value) => Some (String c key, value)
        | None => None
        end
  end.

(** [text.split('\r\n')]: [cur] is the piece being read. *)
Fixpoint split_crlf_go (text : string) (cur : string) : list string :=
  match text with
  | EmptyString => [cur]
  | String c rest =>
      match rest with
      | String c' rest' =>
          if Ascii.eqb c (Ascii.ascii_of_nat 13) && Ascii.eqb c' (Ascii.ascii_of_nat 10)
          then cur :: split_crlf_go rest' EmptyString
          else split_crlf_go rest (cur +:+ String c EmptyString)
      | EmptyString => [cur +:+ String c EmptyString]
      end
  end.

Definition split_crlf (text : string) : list string := split_crlf_go text EmptyString.

(** [_parse_message]: a line without a colon is skipped, a repeated key
    keeps its last value. *)
Definition _parse_message (message_text : string) : message :=
  fold_left
    (fun msg line =>
       match split_colon line with
       | Some (key, value) => <[strip key := strip value]> msg
       | None => msg
       end)
    (split_crlf message_text) ∅.
End AsteriskAMIClient.

(** ** Telephony service ([SipService] in [src/sip_service.py]) *)

Module SipService.

(** The callables the service hands to its AMI clients: its own bound
    methods for events, and one closure per call for action responses. *)
Inductive callback : Type :=
  | cb_handle_new_channel
  | cb_handle_hangup
  | cb_handle_bridge
  | cb_handle_dial_begin
  | cb_handle_dial_end
  | cb_handle_originate_response (call_id : Z)
  | cb_handle_hangup_response (call_id : Z).

(** The value stored in [active_calls] for a call id. *)
Record call_info : Type := mk_call_info {
  channel : string;
  phone_number : string;
  agent_channel : string;
  action_id : string;
  started_at : datetime
}.

(** One call [callback(event_type, data)] made by
    [_notify_event_callbacks]; [data] is [{'call_id': .., 'event': ..}]. *)
Record notification : Type := mk_notification {
  receiver : nat;
  event_type : string;
  data_call_id : Z;
  data_event : message
}.

Record t : Type := mk {
  ami_clients : gmap Z (AsteriskAMIClient.t callback);
  (** [active_calls], in insertion order *)
  active_calls : list (Z * call_info);
  (** the registered event callbacks, in registration order *)
  event_callbacks : list nat;
  (** every callback invocation made so far, oldest first *)
  delivered : list notification
}.

Definition set_ami_clients (v : gmap Z (AsteriskAMIClient.t callback)) (s : t) : t :=
  mk v (active_calls s) (event_callbacks s) (delivered s).

Definition set_active_calls (v : list (Z * call_info)) (s : t) : t :=
  mk (ami_clients s) v (event_callbacks s) (delivered s).

Definition set_delivered (v : list notification) (s : t) : t :=
  mk (ami_clients s) (active_calls s) (event_callbacks s) v.

(** [register_event_callback] *)
Definition register_event_callback (cb : nat) (s : t) : t :=
  mk (ami_clients s) (active_calls s) (app (event_callbacks s) [cb]) (delivered s).

(** [_notify_event_callbacks]: every registered callback is called once,
    in registration order; an exception in one is logged and skipped. *)
Definition _notify_event_callbacks (event_type : string) (call_id : Z)
    (event : message) (s : t) : t :=
  set_delivered
    (app (delivered s)
       (List.map (fun cb => mk_notification cb event_type call_id event)
          (event_callbacks s))) s.

(** [originate_call].  Returns [False] when there is no active
    configuration, no client for it, or the client raises. *)
Definition originate_call (now : datetime) (send_ok : bool)
    (phone_number agent_channel : string) (call_id : Z)
    (db : Db.t) (s : t) : t * bool :=
  match Db.active_configuration db with
  | None => (s, false)
  | Some active_config =>
      match ami_clients s !! SipConfiguration.id active_config with
      | None => (s, false)
      | Some ami_client =>
          let channel :=
            "SIP/" +:+ SipConfiguration.username active_config +:+ "/" +:+ phone_number in
          let variables :=
            [("CALL_ID", pretty call_id); ("AGENT_CHANNEL", agent_channel);
             ("PHONE_NUMBER", phone_number)] in
          let '(ami_client', r) :=
            AsteriskAMIClient.originate_call now send_ok channel "default"
              phone_number 1 (Some ("<" +:+ phone_number +:+ ">")) variables
              (Some (cb_handle_originate_response call_id)) ami_client in
          let s1 :=
            set_ami_clients
              (<[SipConfiguration.id active_config := ami_client']> (ami_clients s)) s in
          match r with
          | Ok action_id =>
              (set_active_calls
                 (dict_set call_id
                    (mk_call_info channel phone_number agent_channel action_id now)
                    (active_calls s1)) s1,
               true)
          | Raise _ => (s1, false)
          end
      end
  end.

(** The first entry of [active_calls], in iteration order, whose channel is
    the given one: where the [for] loop of a handler stops. *)
Fixpoint find_by_channel (ch : string) (calls : list (Z * call_info))
    : option (Z * call_info) :=
  match calls with
  | [] => None
  | (call_id, info) :: rest =>
      if bool_decide (channel info = ch) then Some (call_id, info)
      else find_by_channel ch rest
  end.

(** [_handle_hangup] *)
Definition _handle_hangup (now : datetime) (event : message)
    (db : Db.t) (s : t) : Db.t * t :=
  if truthy_str (event !! "Channel") then
    match find_by_channel (default "" (event !! "Channel")) (active_calls s) with
    | Some (call_id, _) =>
        match Db.call_get call_id db with
        | Some call =>
            let call1 := Call.set_call_status "completed" call in
            let call2 := Call.set_ended_at (Some now) call1 in
            let call3 := Call.calculate_duration call2 in
            let call_event :=
              CallEvent.set_event_data event (CallEvent.mk call_id "hangup" None now) in
            let db1 :=
              Db.set_call_events (app (Db.call_events db) [call_event])
                (Db.update_call call3 db) in
            let s1 := set_active_calls (dict_del call_id (active_calls s)) s in
            (db1, _notify_event_callbacks "call_ended" call_id event s1)
        | None => (db, s)
        end
    | None => (db, s)
    end
  else (db, s).

(** [hangup_call]: asks the switch to hang up a call that is in flight. *)
Definition hangup_call (now : datetime) (send_ok : bool) (call_id : Z)
    (db : Db.t) (s : t) : t * bool :=
  match dict_get call_id (active_calls s) with
  | None => (s, false)
  | Some info =>
      match Db.active_configuration db with
      | None => (s, false)
      | Some active_config =>
          match ami_clients s !! SipConfiguration.id active_config with
          | None => (s, false)
          | Some ami_client =>
              let '(ami_client', r) :=
                AsteriskAMIClient.hangup_call now send_ok (channel info)
                  (Some (cb_handle_hangup_response call_id)) ami_client in
              let s1 :=
                set_ami_clients
                  (<[SipConfiguration.id active_config := ami_client']>
                     (ami_clients s)) s in
              match r with
              | Ok _ => (s1, true)
              | Raise _ => (s1, false)
              end
          end
      end
  end.

(** The first in-flight call whose channel is the given optional string;
    no channel string equals [None]. *)
Definition find_by_optional_channel (ch : option string)
    (calls : list (Z * call_info)) : option (Z * call_info) :=
  match ch with
  | Some c => find_by_channel c calls
  | None => None
  end.

(** What one handler does once it has found the call row: the row
    written back, the call event added, and the commit. *)
Definition record_event (call_id : Z) (call : Call.t) (kind : string)
    (now : datetime) (event : message) (db : Db.t) : Db.t :=
  Db.set_call_events
    (app (Db.call_events db)
       [CallEvent.set_event_data event (CallEvent.mk call_id kind None now)])
    (Db.update_call call db).

(** [_handle_dial_begin] *)
Definition _handle_dial_begin (now : datetime) (event : message)
    (db : Db.t) (s : t) : Db.t * t :=
  match find_by_optional_channel (event !! "Channel") (active_calls s) with
  | Some (call_id, _) =>
      match Db.call_get call_id db with
      | Some call =>
          (record_event call_id (Call.set_call_status "ringing" call) "dial_begin" now
             event db,
           _notify_event_callbacks "call_ringing" call_id event s)
      | None => (db, s)
      end
  | None => (db, s)
  end.

(** The status [_handle_dial_end] writes for a [DialStatus], and whether
    it stamps [answered_at] (otherwise [ended_at]). *)
Definition dial_end_status (dial_status : option string) : string :=
  if bool_decide (dial_status = Some "ANSWER") then "answered"
  else if bool_decide (dial_status = Some "BUSY")
          || bool_decide (dial_status = Some "CONGESTION") then "busy"
  else if bool_decide (dial_status = Some "NOANSWER")
          || bool_decide (dial_status = Some "CANCEL") then "no_answer"
  else "failed".

(** [_handle_dial_end] *)
Definition _handle_dial_end (now : datetime) (event : message)
    (db : Db.t) (s : t) : Db.t * t :=
  let dial_status := event !! "DialStatus" in
  match find_by_optional_channel (event !! "Channel") (active_calls s) with
  | Some (call_id, _) =>
      match Db.call_get call_id db with
      | Some call =>
          let call1 := Call.set_call_status (dial_end_status dial_status) call in
          let call2 :=
            if bool_decide (dial_status = Some "ANSWER")
            then Call.set_answered_at (Some now) call1
            else Call.set_ended_at (Some now) call1 in
          let s1 :=
            if bool_decide (dial_status = Some "ANSWER") then s
            else set_active_calls (dict_del call_id (active_calls s)) s in
          (record_event call_id call2 "dial_end" now event db,
           _notify_event_callbacks "dial_end" call_id event s1)
      | None => (db, s)
      end
  | None => (db, s)
  end.

(** The first in-flight call whose channel is [Channel1] or [Channel2]. *)
Fixpoint find_by_either_channel (ch1 ch2 : option string)
    (calls : list (Z * call_info)) : option (Z * call_info) :=
  match calls with
  | [] => None
  | (call_id, info) :: rest =>
      if bool_decide (Some (channel info) = ch1)
         || bool_decide (Some (channel info) = ch2)
      then Some (call_id, info)
      else find_by_either_channel ch1 ch2 rest
  end.

(** [_handle_bridge] *)
Definition _handle_bridge (now : datetime) (event : message)
    (db : Db.t) (s : t) : Db.t * t :=
  match find_by_either_channel (event !! "Channel1") (event !! "Channel2")
          (active_calls s) with
  | Some (call_id, _) =>
      match Db.call_get call_id db with
      | Some call =>
          (record_event call_id
             (Call.set_answered_at (Some now) (Call.set_call_status "answered" call))
             "bridge" now event db,
           _notify_event_callbacks "call_answered" call_id event s)
      | None => (db, s)
      end
  | None => (db, s)
  end.

(** [_handle_originate_response]: the [response] is in the [data_event]
    field of the notification. *)
Definition _handle_originate_response (now : datetime) (response : message)
    (call_id : Z) (db : Db.t) (s : t) : Db.t * t :=
  (Db.set_call_events
     (app (Db.call_events db)
        [CallEvent.set_event_data response
           (CallEvent.mk call_id "originate_response" None now)]) db,
   _notify_event_callbacks "originate_response" call_id response s).

(** [_handle_hangup_response] *)
Definition _handle_hangup_response (now : datetime) (response : message)
    (call_id : Z) (db : Db.t) (s : t) : Db.t * t :=
  (Db.set_call_events
     (app (Db.call_events db)
        [CallEvent.set_event_data response
           (CallEvent.mk call_id "hangup_response" None now)]) db,
   s).

(** [_handle_new_channel].  The values of a parsed message are strings:
    when [Variable] is present, [.get('CALL_ID')] on it raises
    [AttributeError]; when it is absent, the call id is [None].  Nothing is
    written in either case. *)
Definition _handle_new_channel (now : datetime) (event : message)
    (db : Db.t) (s : t) : Db.t * t :=
  (db, s).

(** One call [handler(message)] of a registered callable. *)
Definition run_callback (now : datetime) (cb : callback) (msg : message)
    (db : Db.t) (s : t) : Db.t * t :=
  match cb with
  | cb_handle_new_channel => _handle_new_channel now msg db s
  | cb_handle_hangup => _handle_hangup now msg db s
  | cb_handle_bridge => _handle_bridge now msg db s
  | cb_handle_dial_begin => _handle_dial_begin now msg db s
  | cb_handle_dial_end => _handle_dial_end now msg db s
  | cb_handle_originate_response call_id =>
      _handle_originate_response now msg call_id db s
  | cb_handle_hangup_response call_id =>
      _handle_hangup_response now msg call_id db s
  end.

(** The handlers [initialize_ami_connection] registers on a client that
    has connected and logged in, in its order. *)
Definition register_handlers (c : AsteriskAMIClient.t callback)
    : AsteriskAMIClient.t callback :=
  AsteriskAMIClient.register_event_handler "DialEnd" cb_handle_dial_end
    (AsteriskAMIClient.register_event_handler "DialBegin" cb_handle_dial_begin
       (AsteriskAMIClient.register_event_handler "Bridge" cb_handle_bridge
          (AsteriskAMIClient.register_event_handler "Hangup" cb_handle_hangup
             (AsteriskAMIClient.register_event_handler "Newchannel"
                cb_handle_new_channel c)))).

(** One turn of [_event_loop] of the client stored under [config_id], for
    a message that was read and parsed: an empty dict is skipped, otherwise
    [_handle_message] runs and each handler it invokes is called in turn. *)
Definition on_message (now : datetime) (config_id : Z) (msg : message)
    (db : Db.t) (s : t) : Db.t * t :=
  match ami_clients s !! config_id with
  | None => (db, s)
  | Some ami_client =>
      if bool_decide (msg = ∅) then (db, s)
      else
        let '(ami_client', invocations) :=
          AsteriskAMIClient._handle_message msg ami_client in
        fold_left
          (fun st inv =>
             run_callback now (AsteriskAMIClient.handler inv)
               (AsteriskAMIClient.argument inv) (fst st) (snd st))
          invocations
          (db, set_ami_clients (<[config_id := ami_client']> (ami_clients s)) s)
  end.

(** [shutdown] *)
Definition shutdown (s : t) : t :=
  mk ∅ [] (event_callbacks s) (delivered s).

End SipService.

(** ** Dialer service ([DialerService] in [src/dialer_service.py]) *)

Module DialerService.

Record t : Type := mk {
  agent_statuses : gmap Z AgentStatus.t;
  dialer_stats : gmap Z DialerStats.t
}.

(** [DialerService.__init__] *)
Definition init : t := mk ∅ ∅.

Definition set_agent_statuses (v : gmap Z AgentStatus.t) (d : t) : t :=
  mk v (dialer_stats d).

Definition set_dialer_stats (v : gmap Z DialerStats.t) (d : t) : t :=
  mk (agent_statuses d) v.

(** [update_agent_status(agent_id, status, call_id=None)] on the registry. *)
Definition update_agent_status (now : datetime) (agent_id : Z) (status : string)
    (call_id : option Z) (statuses : gmap Z AgentStatus.t) : gmap Z AgentStatus.t :=
  let statuses1 :=
    match statuses !! agent_id with
    | None => <[agent_id := AgentStatus.new agent_id status]> statuses
    | Some a => <[agent_id := AgentStatus.set_status status a]> statuses
    end in
  if truthy_int call_id then
    alter (AgentStatus.set_current_call_id call_id) agent_id statuses1
  else if bool_decide (status = "available") then
    alter (fun a =>
             AgentStatus.set_last_call_end (Some now)
               (AgentStatus.set_current_call_id None a))
      agent_id statuses1
  else statuses1.

(** The loop of [get_available_agents] over the assigned agent ids. *)
Fixpoint available_loop (assigned : list Z) (statuses : gmap Z AgentStatus.t)
    (available_agents : list Z) : list Z * gmap Z AgentStatus.t :=
  match assigned with
  | [] => (available_agents, statuses)
  | agent_id :: rest =>
      match statuses !! agent_id with
      | Some a =>
          if bool_decide (AgentStatus.status a = "available")
          then available_loop rest statuses (app available_agents [agent_id])
          else available_loop rest statuses available_agents
      | None =>
          available_loop rest
            (<[agent_id := AgentStatus.new agent_id "available"]> statuses)
            (app available_agents [agent_id])
      end
  end.

(** [get_available_agents(campaign_id)]: the list returned and the registry
    afterwards. *)
Definition get_available_agents (campaign_id : Z) (db : Db.t)
    (statuses : gmap Z AgentStatus.t) : list Z * gmap Z AgentStatus.t :=
  available_loop (Db.assigned_agent_ids campaign_id db) statuses [].

(** [Lead.status.in_(['new', 'callback', 'interested'])] *)
Definition status_is_dialable (l : Lead.t) : bool :=
  bool_decide (Lead.status l = "new")
  || bool_decide (Lead.status l = "callback")
  || bool_decide (Lead.status l = "interested").

(** The query of [get_next_lead]: campaign, status and
    [Lead.phone_number.isnot(None)]; no [ORDER BY]. *)
Definition candidate_leads (campaign_id : Z) (db : Db.t) : list Lead.t :=
  List.filter
    (fun l =>
       bool_decide (Lead.campaign_id l = campaign_id)
       && status_is_dialable l
       && bool_decide (Lead.phone_number l <> None))
    (Db.leads db).

(** [order_by(Call.started_at.desc())] compares NULL as the smallest value. *)
Definition started_before (a b : option datetime) : bool :=
  match a, b with
  | None, Some _ => true
  | Some x, Some y => x <? y
  | _, None => false
  end.

(** [Call.query.filter_by(..).order_by(Call.started_at.desc()).first()] *)
Fixpoint latest_call (cs : list Call.t) : option Call.t :=
  match cs with
  | [] => None
  | c :: rest =>
      match latest_call rest with
      | None => Some c
      | Some best =>
          if started_before (Call.started_at c) (Call.started_at best)
          then Some best else Some c
      end
  end.

(** The body of the [for lead in leads] loop: does the lead go into
    [valid_leads]?  Adding a timedelta to a NULL [started_at] raises. *)
Definition lead_is_valid (now : datetime) (campaign : Campaign.t) (db : Db.t)
    (lead : Lead.t) : result bool :=
  let lead_calls := Db.calls_of_lead (Lead.id lead) db in
  let call_count := Z.of_nat (length lead_calls) in
  if call_count <? Campaign.max_attempts campaign then
    if 0 <? call_count then
      match latest_call lead_calls with
      | Some last_call =>
          match Call.started_at last_call with
          | Some started =>
              let retry_time :=
                started + timedelta_minutes (Campaign.retry_delay_minutes campaign) in
              if now <? retry_time then Ok false else Ok true
          | None => Raise TypeError
          end
      | None => Ok true
      end
    else Ok true
  else Ok false.

Fixpoint valid_leads (now : datetime) (campaign : Campaign.t) (db : Db.t)
    (leads : list Lead.t) : result (list Lead.t) :=
  match leads with
  | [] => Ok []
  | lead :: rest =>
      match lead_is_valid now campaign db lead with
      | Raise e => Raise e
      | Ok keep =>
          match valid_leads now campaign db rest with
          | Raise e => Raise e
          | Ok vs => Ok (if keep then lead :: vs else vs)
          end
      end
  end.

(** [get_next_lead(campaign_id)]: [valid_leads[0] if valid_leads else None]. *)
Definition get_next_lead (now : datetime) (campaign_id : Z) (db : Db.t)
    : result (option Lead.t) :=
  match Db.campaign_get campaign_id db with
  | None => Ok None
  | Some campaign =>
      match valid_leads now campaign db (candidate_leads campaign_id db) with
      | Raise e => Raise e
      | Ok vs => Ok (head vs)
      end
  end.

(** [get_agent_status] *)
Definition get_agent_status (agent_id : Z) (statuses : gmap Z AgentStatus.t)
    : option AgentStatus.t :=
  statuses !! agent_id.

(** The dialer objects kept in [active_campaigns], by class. *)
Inductive dialer : Type :=
  | manual_dialer
  | turbo_dialer
  | predictive_dialer.

(** The class [start_campaign_dialer] instantiates for a [dialer_mode]. *)
Definition dialer_of_mode (mode : string) : option dialer :=
  if bool_decide (mode = "manual") then Some manual_dialer
  else if bool_decide (mode = "turbo") then Some turbo_dialer
  else if bool_decide (mode = "predictive") then Some predictive_dialer
  else None.

(** [start_campaign_dialer], on the running set and the statistics; the
    boolean is the value returned. *)
Definition start_campaign_dialer (campaign_id : Z) (db : Db.t)
    (active_campaigns : gmap Z dialer) (dialer_stats : gmap Z DialerStats.t)
    : gmap Z dialer * gmap Z DialerStats.t * bool :=
  match Db.campaign_get campaign_id db with
  | None => (active_campaigns, dialer_stats, false)
  | Some campaign =>
      match active_campaigns !! campaign_id with
      | Some _ => (active_campaigns, dialer_stats, true)
      | None =>
          match dialer_of_mode (Campaign.dialer_mode campaign) with
          | Some d =>
              (<[campaign_id := d]> active_campaigns,
               <[campaign_id := DialerStats.default]> dialer_stats,
               true)
          | None => (active_campaigns, dialer_stats, false)
          end
      end
  end.

(** [stop_campaign_dialer] *)
Definition stop_campaign_dialer (campaign_id : Z)
    (active_campaigns : gmap Z dialer) : gmap Z dialer * bool :=
  match active_campaigns !! campaign_id with
  | None => (active_campaigns, true)
  | Some _ => (delete campaign_id active_campaigns, true)
  end.

End DialerService.

(** ** The engine state: store, dialer service and telephony service *)

Module World.

Record t : Type := mk {
  db : Db.t;
  dialer : DialerService.t;
  sip : SipService.t
}.

Definition agent_statuses (w : t) : gmap Z AgentStatus.t :=
  DialerService.agent_statuses (dialer w).

Definition set_agent_statuses (v : gmap Z AgentStatus.t) (w : t) : t :=
  mk (db w) (DialerService.set_agent_statuses v (dialer w)) (sip w).

(** [if campaign_id in self.dialer_stats: ...total_calls += 1] *)
Definition count_call (campaign_id : Z) (d : DialerService.t) : DialerService.t :=
  match DialerService.dialer_stats d !! campaign_id with
  | Some st =>
      DialerService.set_dialer_stats
        (<[campaign_id := DialerStats.incr_total_calls st]>
           (DialerService.dialer_stats d)) d
  | None => d
  end.

(** [DialerService.initiate_call(campaign_id, lead_id, agent_id)].
    A lead without a phone number makes the insert of the call row fail
    ([calls.phone_number] is NOT NULL); the handler rolls back and returns
    [None] before anything else has changed. *)
Definition initiate_call (now : datetime) (send_ok : bool)
    (campaign_id lead_id agent_id : Z) (w : t) : t * option Z :=
  match Db.lead_get lead_id (db w) with
  | None => (w, None)
  | Some lead =>
      match Lead.phone_number lead with
      | None => (w, None)
      | Some phone =>
          let call_id := Db.next_call_id (db w) in
          let call :=
            Call.mk call_id lead_id campaign_id (Some agent_id) phone
              "outbound" "initiated" (Some now) None None None in
          let db1 := Db.set_calls (app (Db.calls (db w)) [call]) (db w) in
          let statuses1 :=
            DialerService.update_agent_status now agent_id "on_call" (Some call_id)
              (agent_statuses w) in
          let agent_channel := "Agent/" +:+ pretty agent_id in
          let '(sip1, submitted) :=
            SipService.originate_call now send_ok phone agent_channel call_id
              db1 (sip w) in
          if submitted then
            let db2 := Db.update_lead (Lead.set_last_contacted (Some now) lead) db1 in
            (mk db2
               (count_call campaign_id
                  (DialerService.set_agent_statuses statuses1 (dialer w)))
               sip1,
             Some call_id)
          else
            let db2 := Db.update_call (Call.set_call_status "failed" call) db1 in
            let statuses2 :=
              DialerService.update_agent_status now agent_id "available" None
                statuses1 in
            (mk db2 (DialerService.set_agent_statuses statuses2 (dialer w)) sip1,
             None)
      end
  end.

(** [get_available_agents] lifted to the engine state. *)
Definition get_available_agents (campaign_id : Z) (w : t) : t * list Z :=
  let '(agents, statuses) :=
    DialerService.get_available_agents campaign_id (db w) (agent_statuses w) in
  (set_agent_statuses statuses w, agents).

(** The AMI reader delivering a [Hangup] event to the reconciler. *)
Definition handle_hangup (now : datetime) (event : message) (w : t) : t :=
  let '(db1, sip1) := SipService._handle_hangup now event (db w) (sip w) in
  mk db1 (dialer w) sip1.

(** The AMI reader of the client [config_id] handling one parsed
    message. *)
Definition on_message (now : datetime) (config_id : Z) (msg : message) (w : t) : t :=
  let '(db1, sip1) := SipService.on_message now config_id msg (db w) (sip w) in
  mk db1 (dialer w) sip1.

End World.

(** ** Turbo pacing ([TurboDialer] in [src/dialer_service.py]) *)

Module TurboDialer.

(** How one turn of the [while self.running] loop ended. *)
Inductive outcome : Type :=
  | no_agents
  | no_leads
  | placed (call_id : Z)
  | not_placed
  | failed (e : exn).

(** One turn of the loop of [_run]. *)
Definition tick (now : datetime) (send_ok : bool) (campaign_id : Z) (w : World.t)
    : World.t * outcome :=
  let '(w1, available_agents) := World.get_available_agents campaign_id w in
  match available_agents with
  | [] => (w1, no_agents)
  | agent_id :: _ =>
      match DialerService.get_next_lead now campaign_id (World.db w1) with
      | Raise e => (w1, failed e)
      | Ok None => (w1, no_leads)
      | Ok (Some lead) =>
          let '(w2, r) :=
            World.initiate_call now send_ok campaign_id (Lead.id lead) agent_id w1 in
          match r with
          | Some call_id => (w2, placed call_id)
          | None => (w2, not_placed)
          end
      end
  end.

(** The seconds the loop sleeps after a turn; [delay_seconds] is
    [campaign.turbo_delay_seconds or 5]. *)
Definition sleep_seconds (campaign : Campaign.t) (o : outcome) : Z :=
  match o with
  | no_leads => 30
  | failed _ => 10
  | _ =>
      match Campaign.turbo_delay_seconds campaign with
      | Some d => if d =? 0 then 5 else d
      | None => 5
      end
  end.

End TurboDialer.

(** ** HTTP facade ([src/dialer.py]) *)

Module Routes.

Inductive response : Type :=
  | Success (agent_id : Z) (status : string) (updated_at : datetime)
  | Error (code : string) (http_status : Z).

Definition valid_statuses : list string := ["available"; "busy"; "offline"].

(** [PUT /dialer/agent/status].  [current_user_id] is the identity of the
    bearer token, [data] the JSON body. *)
Definition update_agent_status (now : datetime) (current_user_id : Z)
    (data : option (gmap string string)) (w : World.t) : World.t * response :=
  match data with
  | None => (w, Error "MISSING_DATA" 400)
  | Some d =>
      if bool_decide (d = ∅) || negb (truthy_str (d !! "status")) then
        (w, Error "MISSING_DATA" 400)
      else
        let status := default "" (d !! "status") in
        if bool_decide (status ∈ valid_statuses) then
          (World.set_agent_statuses
             (DialerService.update_agent_status now current_user_id status None
                (World.agent_statuses w)) w,
           Success current_user_id status now)
        else (w, Error "INVALID_STATUS" 400)
  end.

(** [GET /dialer/agent/status]: the body of the answer, with the fields of
    an [AgentStatus]; an agent without entry is shown as [offline]. *)
Definition get_agent_status (current_user_id : Z) (w : World.t) : AgentStatus.t :=
  match DialerService.get_agent_status current_user_id (World.agent_statuses w) with
  | Some agent_status => agent_status
  | None => AgentStatus.mk current_user_id "offline" None None 0 0
  end.

Inductive call_response : Type :=
  | Created (call_id lead_id campaign_id agent_id : Z) (started_at : datetime)
  | Refused (code : string) (http_status : Z).

(** [Lead.query.filter_by(id=lead_id, campaign_id=campaign_id).first()] *)
Definition lead_in_campaign (lead_id campaign_id : Z) (db : Db.t) : option Lead.t :=
  find (fun l => bool_decide (Lead.id l = lead_id)
                 && bool_decide (Lead.campaign_id l = campaign_id)) (Db.leads db).

(** [CampaignAssignment.query.filter_by(campaign_id=.., user_id=..).first()]
    finds a row. *)
Definition is_assigned (campaign_id user_id : Z) (db : Db.t) : bool :=
  existsb (fun a => bool_decide (CampaignAssignment.campaign_id a = campaign_id)
                    && bool_decide (CampaignAssignment.user_id a = user_id))
    (Db.assignments db).

(** [POST /dialer/manual-call].  [role] is the role claim of the token,
    [data] the JSON body, [active_campaigns] the running dialers.  A
    campaign that does not exist makes [get_or_404] raise, which the
    handler's [except Exception] turns into the 500 answer. *)
Definition manual_call (now : datetime) (send_ok : bool) (role : string)
    (current_user_id : Z) (data : option (gmap string Z))
    (active_campaigns : gmap Z DialerService.dialer) (w : World.t)
    : World.t * call_response :=
  match data with
  | None => (w, Refused "MISSING_DATA" 400)
  | Some d =>
      if bool_decide (d = ∅) || negb (truthy_int (d !! "lead_id"))
         || negb (truthy_int (d !! "campaign_id"))
      then (w, Refused "MISSING_DATA" 400)
      else
        let lead_id := default 0 (d !! "lead_id") in
        let campaign_id := default 0 (d !! "campaign_id") in
        match Db.campaign_get campaign_id (World.db w) with
        | None => (w, Refused "MANUAL_CALL_ERROR" 500)
        | Some campaign =>
            if negb (bool_decide (Campaign.dialer_mode campaign = "manual"))
            then (w, Refused "INVALID_DIALER_MODE" 400)
            else
              match lead_in_campaign lead_id campaign_id (World.db w) with
              | None => (w, Refused "LEAD_NOT_FOUND" 404)
              | Some _ =>
                  if bool_decide (role = "agent")
                     && negb (is_assigned campaign_id current_user_id (World.db w))
                  then (w, Refused "ACCESS_DENIED" 403)
                  else
                    let busy :=
                      match DialerService.get_agent_status current_user_id
                              (World.agent_statuses w) with
                      | Some a => negb (bool_decide (AgentStatus.status a = "available"))
                      | None => false
                      end in
                    if busy then (w, Refused "AGENT_NOT_AVAILABLE" 400)
                    else
                      match active_campaigns !! campaign_id with
                      | None => (w, Refused "DIALER_NOT_RUNNING" 400)
                      | Some DialerService.manual_dialer =>
                          let '(w', r) :=
                            World.initiate_call now send_ok campaign_id lead_id
                              current_user_id w in
                          if truthy_int r
                          then (w', Created (default 0 r) lead_id campaign_id
                                      current_user_id now)
                          else (w', Refused "CALL_INITIATION_FAILED" 500)
                      | Some _ => (w, Refused "INVALID_DIALER_TYPE" 400)
                      end
              end
        end
  end.

End Routes.

(** ** Predictive pacing ([PredictiveDialer] in [src/dialer_service.py]) *)

Module PredictiveDialer.

(** An entry of [call_history]. *)
Record history_entry : Type := mk_entry {
  outcome : string;
  duration : Z;
  timestamp : option datetime
}.

(** The entry [_update_metrics] appends for a recent call. *)
Definition entry_of_call (c : Call.t) : history_entry :=
  mk_entry
    (if bool_decide (Call.call_status c = "answered") then "answered" else "not_answered")
    (default 0 (Call.duration_seconds c))
    (Call.started_at c).

Definition is_answered (e : history_entry) : bool :=
  bool_decide (outcome e = "answered").

(** [statistics.mean] of a non-empty list of integers. *)
Definition mean (xs : list Z) : Q :=
  Qmake (fold_right Z.add 0 xs) (Pos.of_nat (length xs)).

(** Does this registry entry count as an agent about to become free? *)
Definition becoming_free (now : datetime) (avg_call_duration : Q) (db : Db.t)
    (a : AgentStatus.t) : bool :=
  bool_decide (AgentStatus.status a = "on_call")
  && truthy_int (AgentStatus.current_call_id a)
  && match Db.call_get (default 0 (AgentStatus.current_call_id a)) db with
     | Some call =>
         match Call.started_at call with
         | Some started =>
             Qle_bool (avg_call_duration * (8 # 10))%Q (total_seconds (now - started))
         | None => false
         end
     | None => false
     end.

(** [_predict_agents_becoming_free(avg_call_duration)] *)
Definition _predict_agents_becoming_free (now : datetime) (avg_call_duration : Q)
    (db : Db.t) (statuses : gmap Z AgentStatus.t) : Z :=
  Z.of_nat
    (length
       (List.filter (fun kv => becoming_free now avg_call_duration db (snd kv))
          (map_to_list statuses))).

(** [_calculate_calls_needed(available_agents, predictive_ratio)] *)
Definition _calculate_calls_needed (now : datetime)
    (call_history : list history_entry) (db : Db.t)
    (statuses : gmap Z AgentStatus.t)
    (available_agents : list Z) (predictive_ratio : Q) : result Z :=
  match available_agents with
  | [] => Ok 0
  | _ :: _ =>
      let answer_rate : Q :=
        match call_history with
        | [] => 3 # 10
        | _ :: _ =>
            let answered_count := length (List.filter is_answered call_history) in
            Qmake (Z.of_nat answered_count) (Pos.of_nat (length call_history))
        end in
      let answered_calls :=
        List.filter (fun c => is_answered c && (0 <? duration c)) call_history in
      let avg_call_duration : Q :=
        match answered_calls with
        | [] => 180 # 1
        | _ :: _ => mean (List.map duration answered_calls)
        end in
      let agents_becoming_free :=
        _predict_agents_becoming_free now avg_call_duration db statuses in
      let total_agents := Z.of_nat (length available_agents) + agents_becoming_free in
      if Qeq_bool answer_rate 0 then Raise ZeroDivisionError
      else
        let calls_needed :=
          py_int (inject_Z total_agents * predictive_ratio / answer_rate)%Q in
        let max_calls := Z.min (Z.of_nat (length available_agents) * 3) 10 in
        let calls_needed := Z.min calls_needed max_calls in
        Ok (Z.max 0 calls_needed)
  end.

(** [timedelta(hours=h)] *)
Definition timedelta_hours (h : Z) : Z := h * 3600 * microseconds_per_second.

(** [ORDER BY started_at DESC] on rows that all have a start time; rows
    with equal start times keep their table order. *)
Definition starts_no_later (a b : Call.t) : bool :=
  match Call.started_at a, Call.started_at b with
  | Some x, Some y => x <=? y
  | None, _ => true
  | Some _, None => false
  end.

Fixpoint insert_desc (c : Call.t) (sorted : list Call.t) : list Call.t :=
  match sorted with
  | [] => [c]
  | x :: xs => if starts_no_later x c then c :: sorted else x :: insert_desc c xs
  end.

Definition sort_desc (cs : list Call.t) : list Call.t := fold_right insert_desc [] cs.

(** The query of [_update_metrics]: the calls of the campaign started in
    the last 24 hours, latest first, at most 100 of them. *)
Definition recent_calls (now : datetime) (campaign_id : Z) (db : Db.t) : list Call.t :=
  take 100
    (sort_desc
       (List.filter
          (fun c =>
             bool_decide (Call.campaign_id c = campaign_id)
             && match Call.started_at c with
                | Some started => now - timedelta_hours 24 <=? started
                | None => false
                end)
          (Db.calls db))).

(** A value of [agent_performance]. *)
Record performance : Type := mk_performance {
  total_calls : Z;
  answered_calls : Z;
  answer_rate : Q;
  average_call_duration : Q;
  total_talk_time : Z
}.

(** The figures assumed for an agent without recent calls. *)
Definition default_performance : performance :=
  mk_performance 0 0 (3 # 10) (180 # 1) 0.

(** The figures [_update_metrics] computes for one agent. *)
Definition performance_of (recent : list Call.t) (agent_id : Z) : performance :=
  let agent_calls :=
    List.filter (fun c => bool_decide (Call.agent_id c = Some agent_id)) recent in
  match agent_calls with
  | [] => default_performance
  | _ :: _ =>
      let answered :=
        List.filter (fun c => bool_decide (Call.call_status c = "answered")) agent_calls in
      let talk :=
        fold_right Z.add 0
          (List.map (fun c => default 0 (Call.duration_seconds c)) answered) in
      mk_performance
        (Z.of_nat (length agent_calls))
        (Z.of_nat (length answered))
        (Qmake (Z.of_nat (length answered)) (Pos.of_nat (length agent_calls)))
        (match answered with
         | [] => 0%Q
         | _ :: _ => Qmake talk (Pos.of_nat (length answered))
         end)
        talk
  end.

(** [_update_metrics]: the new [call_history], the new [agent_performance]
    and the registry as [get_available_agents] leaves it. *)
Definition _update_metrics (now : datetime) (campaign_id : Z) (db : Db.t)
    (statuses : gmap Z AgentStatus.t) (agent_performance : gmap Z performance)
    : list history_entry * gmap Z performance * gmap Z AgentStatus.t :=
  let recent := recent_calls now campaign_id db in
  let call_history := List.map entry_of_call recent in
  let '(agents, statuses') :=
    DialerService.get_available_agents campaign_id db statuses in
  (call_history,
   fold_left (fun perf agent_id => <[agent_id := performance_of recent agent_id]> perf)
     agents agent_performance,
   statuses').

(** The score of an agent, for one draw [noise] of
    [random.uniform(-0.1, 0.1)]. *)
Definition score (agent_performance : gmap Z performance) (agent_id : Z)
    (noise : Q) : Q :=
  let rate :=
    match agent_performance !! agent_id with
    | Some p => answer_rate p
    | None => 3 # 10
    end in
  let calls :=
    match agent_performance !! agent_id with
    | Some p => total_calls p
    | None => 0
    end in
  let experience := (inject_Z calls / (10 # 1))%Q in
  (rate * (7 # 10)
   + (if Qle_bool experience 1 then experience else 1) * (3 # 10)
   + noise)%Q.

(** [max(agent_scores.keys(), key=...)]: the first key, in the order of
    the dict, whose score no other key exceeds. *)
Definition argmax (scores : list (Z * Q)) : option Z :=
  fst <$>
    fold_left
      (fun best kv =>
         match best with
         | None => Some kv
         | Some b => if Qle_bool (snd kv) (snd b) then Some b else Some kv
         end)
      scores None.

(** The dict [agent_scores]; [noise i] is the draw for the [i]-th agent of
    the list, counted from [i0]. *)
Fixpoint agent_scores (agent_performance : gmap Z performance) (noise : nat → Q)
    (i0 : nat) (available_agents : list Z) (scores : list (Z * Q)) : list (Z * Q) :=
  match available_agents with
  | [] => scores
  | agent_id :: rest =>
      agent_scores agent_performance noise (S i0) rest
        (dict_set agent_id (score agent_performance agent_id (noise i0)) scores)
  end.

(** [_select_best_agent]; [None] stands for the [ValueError] that [max]
    raises on no agents. *)
Definition _select_best_agent (agent_performance : gmap Z performance)
    (noise : nat → Q) (available_agents : list Z) : option Z :=
  match available_agents with
  | [agent_id] => Some agent_id
  | _ => argmax (agent_scores agent_performance noise 0 available_agents [])
  end.

(** [list.remove(x)]: the first occurrence goes. *)
Fixpoint list_remove (x : Z) (l : list Z) : list Z :=
  match l with
  | [] => []
  | y :: rest => if bool_decide (y = x) then rest else y :: list_remove x rest
  end.

(** Why the [for] loop of a pacing cycle stopped. *)
Inductive stop : Type :=
  | all_placements_tried
  | no_more_leads
  | lead_selection_raised (e : exn)
  | no_agent_to_select.

Record loop_result : Type := mk_loop_result {
  world : World.t;
  remaining_agents : list Z;
  (** the ids [initiate_call] returned, oldest first *)
  placed : list Z;
  stopped : stop
}.

(** The loop [for _ in range(calls_to_make)] of [_run], with the dialer
    running: [noises i] are the draws of the [i]-th turn and [send_oks i]
    says whether its socket write succeeds. *)
Fixpoint place_calls (calls_to_make : nat) (i : nat) (now : datetime)
    (noises : nat → nat → Q) (send_oks : nat → bool) (campaign_id : Z)
    (agent_performance : gmap Z performance) (available_agents : list Z)
    (w : World.t) (placed_so_far : list Z) : loop_result :=
  match calls_to_make with
  | O => mk_loop_result w available_agents placed_so_far all_placements_tried
  | S n =>
      match DialerService.get_next_lead now campaign_id (World.db w) with
      | Raise e =>
          mk_loop_result w available_agents placed_so_far (lead_selection_raised e)
      | Ok None => mk_loop_result w available_agents placed_so_far no_more_leads
      | Ok (Some lead) =>
          match _select_best_agent agent_performance (noises i) available_agents with
          | None =>
              mk_loop_result w available_agents placed_so_far no_agent_to_select
          | Some agent_id =>
              let '(w', r) :=
                World.initiate_call now (send_oks i) campaign_id (Lead.id lead)
                  agent_id w in
              if truthy_int r then
                place_calls n (S i) now noises send_oks campaign_id agent_performance
                  (if bool_decide (agent_id ∈ available_agents)
                   then list_remove agent_id available_agents
                   else available_agents)
                  w' (app placed_so_far [default 0 r])
              else
                place_calls n (S i) now noises send_oks campaign_id agent_performance
                  available_agents w' placed_so_far
          end
      end
  end.

(** How one pacing cycle ended. *)
Inductive cycle_result : Type :=
  | nobody_available (w : World.t)
  | pacing_raised (w : World.t) (e : exn)
  | paced (calls_to_make : Z) (r : loop_result).

(** The integer tail of [_calculate_calls_needed]: the cap
    [min(len(available_agents) * 3, 10)] and the floor at zero, applied to
    [calls_needed]. *)
Definition cap_calls_needed (available_agents : list Z) (calls_needed : Z) : Z :=
  let max_calls := Z.min (Z.of_nat (length available_agents) * 3) 10 in
  let calls_needed := Z.min calls_needed max_calls in
  Z.max 0 calls_needed.

(** [_calculate_calls_needed] with its float arithmetic left open.
    [calls_needed] is what the interpreter makes of
    [int(total_agents * predictive_ratio / answer_rate)]: an integer, or the
    exception that the expression raises ([ZeroDivisionError] on an answer
    rate of zero, [TypeError] when the ratio read from the campaign row is a
    [Decimal] and the rate a float).  Nothing is assumed about it; what the
    function reads before that expression writes nothing. *)
Definition _calculate_calls_needed_from (available_agents : list Z)
    (calls_needed : result Z) : result Z :=
  match available_agents with
  | [] => Ok 0
  | _ :: _ =>
      match calls_needed with
      | Raise e => Raise e
      | Ok n => Ok (cap_calls_needed available_agents n)
      end
  end.

(** One turn of the [while self.running] loop of [PredictiveDialer._run];
    also returns the refreshed [call_history] and [agent_performance].
    [calls_needed] is the outcome of the float expression of
    [_calculate_calls_needed] in this turn.  [turns_while_running] is the
    number of turns of the [for] loop that find [self.running] set: the
    loop is left at the first turn that finds it cleared, so it runs as the
    loop over that many placements when they are fewer. *)
Definition cycle (now : datetime) (noises : nat → nat → Q) (send_oks : nat → bool)
    (turns_while_running : nat) (campaign_id : Z) (calls_needed : result Z)
    (agent_performance : gmap Z performance) (w : World.t)
    : list history_entry * gmap Z performance * cycle_result :=
  let '(call_history, agent_performance', statuses1) :=
    _update_metrics now campaign_id (World.db w) (World.agent_statuses w)
      agent_performance in
  let w1 := World.set_agent_statuses statuses1 w in
  let '(w2, available_agents) := World.get_available_agents campaign_id w1 in
  (call_history, agent_performance',
   match available_agents with
   | [] => nobody_available w2
   | _ :: _ =>
       match _calculate_calls_needed_from available_agents calls_needed with
       | Raise e => pacing_raised w2 e
       | Ok calls_to_make =>
           paced calls_to_make
             (place_calls (Nat.min (Z.to_nat calls_to_make) turns_while_running) 0
                now noises send_oks campaign_id agent_performance' available_agents
                w2 [])
       end
   end).

End PredictiveDialer.

(** ** Sequences of registry operations *)

Module Engine.

(** The operations that write to the agent registry. *)
Inductive op : Type :=
  | update_agent_status (now : datetime) (agent_id : Z) (status : string)
      (call_id : option Z)
  | get_available_agents (campaign_id : Z)
  | initiate_call (now : datetime) (send_ok : bool)
      (campaign_id lead_id agent_id : Z).

Definition step (w : World.t) (o : op) : World.t :=
  match o with
  | update_agent_status now agent_id status call_id =>
      World.set_agent_statuses
        (DialerService.update_agent_status now agent_id status call_id
           (World.agent_statuses w)) w
  | get_available_agents campaign_id =>
      fst (World.get_available_agents campaign_id w)
  | initiate_call now send_ok campaign_id lead_id agent_id =>
      fst (World.initiate_call now send_ok campaign_id lead_id agent_id w)
  end.

Definition run (ops : list op) (w : World.t) : World.t := fold_left step ops w.

(** The engine right after construction: an empty registry. *)
Definition initial (db : Db.t) (sip : SipService.t) : World.t :=
  World.mk db DialerService.init sip.

(** [update_agent_status] the way the facade calls it: one of the three
    statuses it accepts, and no call id. *)
Definition facade_op (o : op) : Prop :=
  match o with
  | update_agent_status _ _ status call_id =>
      status ∈ Routes.valid_statuses ∧ call_id = None
  | _ => True
  end.

End Engine.

(** ** Sequences of AMI messages *)

Module Reader.

(** A message as the reader thread of a client hands it on: the time, the
    configuration id of the client, the parsed message. *)
Definition delivery : Type := datetime * Z * message.

Definition deliver (w : World.t) (m : delivery) : World.t :=
  World.on_message (fst (fst m)) (snd (fst m)) (snd m) w.

Definition deliver_all (ms : list delivery) (w : World.t) : World.t :=
  fold_left deliver ms w.

End Reader.

(** ** Interleavings of dialer turns and AMI messages *)

Module Floor.

(** What happens on the floor while nobody uses the facade: a turn of the
    turbo loop of a campaign, or a message from the switch. *)
Inductive step : Type :=
  | turbo_tick (now : datetime) (send_ok : bool) (campaign_id : Z)
  | message_read (m : Reader.delivery).

Definition apply (w : World.t) (st : step) : World.t :=
  match st with
  | turbo_tick now send_ok campaign_id =>
      fst (TurboDialer.tick now send_ok campaign_id w)
  | message_read m => Reader.deliver w m
  end.

Definition run (steps : list step) (w : World.t) : World.t := fold_left apply steps w.

(** The step is a message, or a turn of the dialer of this campaign. *)
Definition for_campaign (campaign_id : Z) (st : step) : Prop :=
  match st with
  | turbo_tick _ _ c => c = campaign_id
  | message_read _ => True
  end.

End Floor.

(** ** Vocabulary of the statements *)

(** The agent is tracked with status [available]. *)
Definition is_available (statuses : gmap Z AgentStatus.t) (agent_id : Z) : bool :=
  match statuses !! agent_id with
  | Some s => bool_decide (AgentStatus.status s = "available")
  | None => false
  end.



(** The specification's reading of the facade on an agent that is on a
    call: the request to become [available] is refused with [AGENT_BUSY]
    and the agent's entry stays as it was. *)
Definition spec_facade_rejects_on_call (now : datetime) (agent_id : Z)
    (w : World.t) : Prop :=
  ∀ a, World.agent_statuses w !! agent_id = Some a →
       AgentStatus.status a = "on_call" →
       let r :=
         Routes.update_agent_status now agent_id
           (Some {[ "status" := "available" ]}) w in
       (∃ http, snd r = Routes.Error "AGENT_BUSY" http)
       ∧ World.agent_statuses (fst r) !! agent_id = Some a.

(** The specification's invariant on one registry entry. *)
Definition spec_call_id_iff_on_call (a : AgentStatus.t) : Prop :=
  AgentStatus.current_call_id a ≠ None ↔ AgentStatus.status a = "on_call".

(** What the registry operations do maintain. *)
Definition call_id_consistent (a : AgentStatus.t) : Prop :=
  (AgentStatus.status a = "on_call" → AgentStatus.current_call_id a ≠ None)
  ∧ (AgentStatus.status a = "available" → AgentStatus.current_call_id a = None).

Definition registry_consistent (statuses : gmap Z AgentStatus.t) : Prop :=
  ∀ agent_id a, statuses !! agent_id = Some a → call_id_consistent a.

(** The specification's reading of the dispatch rule for a message that
    carries both [Event] and an [ActionID] with a pending waiter: the waiter
    alone is called, and removed. *)
Definition spec_event_response_to_waiter_only {H : Type}
    (msg : message) (c : AsteriskAMIClient.t H) : Prop :=
  ∀ event_type action_id h,
    msg !! "Event" = Some event_type →
    msg !! "ActionID" = Some action_id →
    AsteriskAMIClient.response_handlers c !! action_id = Some h →
    AsteriskAMIClient._handle_message msg c
    = (AsteriskAMIClient.set_response_handlers
         (delete action_id (AsteriskAMIClient.response_handlers c)) c,
       [AsteriskAMIClient.Invoke h msg]).

(** The pacing bound of the specification. *)
Definition spec_calls_needed_in_range (available : nat) (r : result Z) : Prop :=
  ∃ n, r = Ok n ∧ 0 ≤ n ≤ Z.min (3 * Z.of_nat available) 10.

(** The answer rate the pacing uses: answered over total, or 0.3 without
    history. *)
Definition answer_rate_of (call_history : list PredictiveDialer.history_entry) : Q :=
  match call_history with
  | [] => 3 # 10
  | _ :: _ =>
      Qmake (Z.of_nat (length (List.filter PredictiveDialer.is_answered call_history)))
        (Pos.of_nat (length call_history))
  end.

(** The average duration the pacing uses: the mean over the answered calls
    of positive duration, or 180 s without any. *)
Definition avg_duration_of (call_history : list PredictiveDialer.history_entry) : Q :=
  match List.filter (fun c => PredictiveDialer.is_answered c
                              && (0 <? PredictiveDialer.duration c)) call_history with
  | [] => 180 # 1
  | c :: cs => PredictiveDialer.mean (List.map PredictiveDialer.duration (c :: cs))
  end.

(** *** Lead selection *)

(** Filter 1: in the campaign, dialable status, phone number not NULL. *)
Definition is_candidate (campaign_id : Z) (l : Lead.t) : bool :=
  bool_decide (Lead.campaign_id l = campaign_id)
  && DialerService.status_is_dialable l
  && bool_decide (Lead.phone_number l <> None).

(** Filter 2: fewer calls than [max_attempts]. *)
Definition attempts_left (campaign : Campaign.t) (db : Db.t) (l : Lead.t) : bool :=
  Z.of_nat (length (Db.calls_of_lead (Lead.id l) db)) <? Campaign.max_attempts campaign.

(** Filter 3: every call of the lead started at least
    [retry_delay_minutes] ago. *)
Definition cooled_down (now : datetime) (campaign : Campaign.t) (db : Db.t)
    (l : Lead.t) : bool :=
  forallb
    (fun c =>
       match Call.started_at c with
       | Some started =>
           started + timedelta_minutes (Campaign.retry_delay_minutes campaign) <=? now
       | None => true
       end)
    (Db.calls_of_lead (Lead.id l) db).

(** The leads that pass the three filters. *)
Definition eligible (now : datetime) (campaign_id : Z) (campaign : Campaign.t)
    (db : Db.t) (l : Lead.t) : bool :=
  is_candidate campaign_id l && attempts_left campaign db l
  && cooled_down now campaign db l.

(** Nulls-last and nulls-first strict comparison of optional timestamps. *)
Definition before_nulls_last (a b : option datetime) : bool :=
  match a, b with
  | Some x, Some y => x <? y
  | Some _, None => true
  | None, _ => false
  end.

Definition before_nulls_first (a b : option datetime) : bool :=
  match a, b with
  | Some x, Some y => x <? y
  | None, Some _ => true
  | _, None => false
  end.

(** The specification's order on leads: priority descending, then
    [next_contact_date] ascending with nulls last, then [last_contacted]
    ascending with nulls first, then id ascending.  [spec_lead_before a b]
    says that [a] sorts strictly before [b]. *)
Definition spec_lead_before (a b : Lead.t) : bool :=
  if Lead.priority b <? Lead.priority a then true
  else if Lead.priority a <? Lead.priority b then false
  else if before_nulls_last (Lead.next_contact_date a) (Lead.next_contact_date b) then true
  else if before_nulls_last (Lead.next_contact_date b) (Lead.next_contact_date a) then false
  else if before_nulls_first (Lead.last_contacted a) (Lead.last_contacted b) then true
  else if before_nulls_first (Lead.last_contacted b) (Lead.last_contacted a) then false
  else Lead.id a <? Lead.id b.

(** The specification's reading of lead selection: when some lead passes
    the filters, the one returned passes them and no other such lead sorts
    before it. *)
Definition spec_next_lead_is_head (now : datetime) (campaign_id : Z) (db : Db.t)
    : Prop :=
  ∀ campaign,
    Db.campaign_get campaign_id db = Some campaign →
    List.filter (eligible now campaign_id campaign db) (Db.leads db) ≠ [] →
    ∃ l, DialerService.get_next_lead now campaign_id db = Ok (Some l)
         ∧ eligible now campaign_id campaign db l = true
         ∧ ∀ l', l' ∈ Db.leads db →
                 eligible now campaign_id campaign db l' = true →
                 spec_lead_before l' l = false.

(** The specification's reading of the filters on a returned lead; its
    phone is a non-empty string. *)
Definition spec_returned_lead_eligible (now : datetime) (campaign_id : Z)
    (db : Db.t) : Prop :=
  ∀ l, DialerService.get_next_lead now campaign_id db = Ok (Some l) →
       DialerService.status_is_dialable l = true
       ∧ (∃ phone, Lead.phone_number l = Some phone ∧ phone ≠ "")
       ∧ ∃ campaign,
           Db.campaign_get campaign_id db = Some campaign
           ∧ attempts_left campaign db l = true
           ∧ cooled_down now campaign db l = true.

(** *** Call placement and reconciliation *)

(** Whether [SipService.originate_call] gets the [Originate] action out:
    there is an active configuration, a client for it that is logged in,
    and the socket write succeeds. *)
Definition originate_submitted (send_ok : bool) (db : Db.t) (s : SipService.t) : bool :=
  match Db.active_configuration db with
  | None => false
  | Some active_config =>
      match SipService.ami_clients s !! SipConfiguration.id active_config with
      | None => false
      | Some ami_client => AsteriskAMIClient.authenticated ami_client && send_ok
      end
  end.

(** The specification's reading of a [Hangup] for the channel of an
    in-flight call: the call row is completed and timed, the agent that
    owns the call is [available] again, the call is no longer in flight and
    every subscriber hears [call_ended]. *)
Definition spec_hangup_reconciles (now : datetime) (event : message)
    (w : World.t) (call_id : Z) : Prop :=
  ∀ ch info call agent_id,
    event !! "Channel" = Some ch →
    SipService.find_by_channel ch (SipService.active_calls (World.sip w))
    = Some (call_id, info) →
    Db.call_get call_id (World.db w) = Some call →
    Call.agent_id call = Some agent_id →
    let w' := World.handle_hangup now event w in
    (∃ call', Db.call_get call_id (World.db w') = Some call'
              ∧ Call.call_status call' = "completed"
              ∧ Call.ended_at call' = Some now)
    ∧ (∃ a, World.agent_statuses w' !! agent_id = Some a
            ∧ AgentStatus.status a = "available")
    ∧ dict_get call_id (SipService.active_calls (World.sip w')) = None
    ∧ SipService.delivered (World.sip w')
      = app (SipService.delivered (World.sip w))
          (List.map
             (fun cb => SipService.mk_notification cb "call_ended" call_id event)
             (SipService.event_callbacks (World.sip w))).

(** *** Strings *)

(** Whether a character occurs in a string. *)
Fixpoint contains_char (c : Ascii.ascii) (s : string) : bool :=
  match s with
  | EmptyString => false
  | String c' rest => Ascii.eqb c' c || contains_char c rest
  end.

Definition underscore : Ascii.ascii := Ascii.ascii_of_nat 95.

(** An entry of a parameter dict under the key [Variable]. *)
Definition is_variable (kv : string * string) : bool :=
  bool_decide (fst kv = "Variable").

(** *** The reconciler *)

(** What a handler may do to the store and the service, seen from a call
    [cid]: the call events only grow, no call row appears or disappears,
    the clients stay, and when [cid] is not in flight it stays out of
    flight with its row as it was. *)
Definition respects (cid : Z) (before after : Db.t * SipService.t) : Prop :=
  (∃ suffix, Db.call_events (fst after) = app (Db.call_events (fst before)) suffix)
  ∧ List.map Call.id (Db.calls (fst after)) = List.map Call.id (Db.calls (fst before))
  ∧ SipService.ami_clients (snd after) = SipService.ami_clients (snd before)
  ∧ (dict_get cid (SipService.active_calls (snd before)) = None →
     dict_get cid (SipService.active_calls (snd after)) = None
     ∧ Db.call_get cid (fst after) = Db.call_get cid (fst before)).

(** The tables no handler of the reconciler writes to. *)
Definition same_tables (before after : Db.t) : Prop :=
  Db.campaigns after = Db.campaigns before
  ∧ Db.leads after = Db.leads before
  ∧ Db.assignments after = Db.assignments before
  ∧ Db.sip_configurations after = Db.sip_configurations before.

(** *** Pacing *)

(** No agent assigned to the campaign can be given a call: each one is
    tracked with a status other than [available]. *)
Definition all_agents_taken (campaign_id : Z) (w : World.t) : Prop :=
  ∀ agent_id, agent_id ∈ Db.assigned_agent_ids campaign_id (World.db w) →
    ∃ a, World.agent_statuses w !! agent_id = Some a
         ∧ AgentStatus.status a ≠ "available".

(** The number of call rows of a lead. *)
Definition attempts (lead_id : Z) (db : Db.t) : Z :=
  Z.of_nat (length (Db.calls_of_lead lead_id db)).

(** No lead of the campaign has more call rows than [max_attempts]. *)
Definition within_attempt_cap (campaign_id : Z) (campaign : Campaign.t) (db : Db.t)
    : Prop :=
  ∀ l, l ∈ Db.leads db → Lead.campaign_id l = campaign_id →
       attempts (Lead.id l) db ≤ Campaign.max_attempts campaign.

(** Every character of a string passes a test. *)
Fixpoint all_chars (P : Ascii.ascii → bool) (s : string) : bool :=
  match s with
  | EmptyString => true
  | String c rest => P c && all_chars P rest
  end.

Definition carriage_return : Ascii.ascii := Ascii.ascii_of_nat 13.
Definition colon : Ascii.ascii := Ascii.ascii_of_nat 58.

(** A character of ASCII text. *)
Definition is_ascii (c : Ascii.ascii) : bool := (Ascii.nat_of_ascii c <? 128)%nat.

(** A value that a line of an AMI message carries unchanged: ASCII text
    with no white space at either end and no carriage return inside. *)
Definition wire_value (v : string) : Prop :=
  all_chars is_ascii v = true
  ∧ AsteriskAMIClient.strip v = v
  ∧ contains_char carriage_return v = false.

(** A key of such a line: as a value, and without a colon. *)
Definition wire_key (k : string) : Prop :=
  wire_value k ∧ contains_char colon k = false.

Definition wire_entry (kv : string * string) : Prop :=
  wire_key (fst kv) ∧ wire_value (snd kv).

(** The dict with the entries of a list of pairs, a later pair replacing
    an earlier one with the same key. *)
Definition as_message (entries : list (string * string)) : message :=
  fold_left (fun msg kv => <[fst kv := snd kv]> msg) entries ∅.

(** A character that [strip] keeps. *)
Definition not_space (c : Ascii.ascii) : bool := negb (AsteriskAMIClient.is_space c).

(** An ASCII character that is not white space. *)
Definition plain_char (c : Ascii.ascii) : bool := is_ascii c && not_space c.

(** What [_parse_message] does with one line. *)
Definition parse_line (msg : message) (line : string) : message :=
  match AsteriskAMIClient.split_colon line with
  | Some (key, value) =>
      <[AsteriskAMIClient.strip key := AsteriskAMIClient.strip value]> msg
  | None => msg
  end.

(** ** Concrete inputs *)

Definition empty_db : Db.t := Db.mk [] [] [] [] [] [].

Definition empty_sip : SipService.t := SipService.mk ∅ [] [] [].

(** Campaign 1 with agents 1 and 2 assigned, in that order. *)
Definition two_agents_db : Db.t :=
  Db.mk [] [] [] []
    [CampaignAssignment.mk 1 1; CampaignAssignment.mk 1 2] [].


(** Only agent 2 is tracked, and busy. *)
Definition one_busy_agent : gmap Z AgentStatus.t :=
  <[2 := AgentStatus.mk 2 "busy" None None 0 0]> ∅.

(** Agent 7 is on call 3. *)
Definition on_call_world : World.t :=
  World.mk empty_db
    (DialerService.mk (<[7 := AgentStatus.mk 7 "on_call" (Some 3) None 2 60]> ∅) ∅)
    empty_sip.

(** One campaign, one lead with a phone number, one active SIP
    configuration whose AMI client is logged in, agent 7 assigned. *)
Definition ready_db : Db.t :=
  Db.mk
    [Campaign.mk 1 "active" "turbo" 3 60 None None]
    [Lead.mk 1 1 (Some "5551234") "new" 1 None None]
    [] []
    [CampaignAssignment.mk 1 7]
    [SipConfiguration.mk 1 "trunk" true].

Definition ready_sip : SipService.t :=
  SipService.mk
    (<[1 := AsteriskAMIClient.mk "trunk" true true ∅ ∅ 0 []]> ∅)
    [] [0%nat] [].

(** A call is placed for agent 7, who then reports [busy]. *)
Definition call_then_busy : list Engine.op :=
  [Engine.initiate_call 1000000 true 1 1 7;
   Engine.update_agent_status 2000000 7 "busy" None].

(** The run that places one call for agent 7. *)
Definition call_placed : list Engine.op :=
  [Engine.initiate_call 1000000 true 1 1 7].

(** A logged-in client with a subscriber for [Hangup] and a waiter for the
    action [action_1_1700000000]. *)
Definition waiting_client : AsteriskAMIClient.t SipService.callback :=
  AsteriskAMIClient.mk "trunk" true true
    (<["Hangup" := [SipService.cb_handle_hangup]]> ∅)
    (<["action_1_1700000000" := SipService.cb_handle_hangup_response 4]> ∅)
    1 [].

(** An event that echoes the id of that action. *)
Definition hangup_with_action_id : message :=
  <["Event" := "Hangup"]>
    (<["ActionID" := "action_1_1700000000"]>
       (<["Channel" := "SIP/trunk/5551234"]> ∅)).

(** The history [_update_metrics] builds from one recent call that nobody
    answered. *)
Definition unanswered_history : list PredictiveDialer.history_entry :=
  [PredictiveDialer.entry_of_call
     (Call.mk 1 1 1 (Some 7) "5551234" "outbound" "no_answer"
        (Some 1000000) None (Some 31000000) None)].

(** Campaign 1 with two fresh leads: lead 1 of priority 1 comes first in
    the table, lead 2 of priority 5 second. *)
Definition two_leads_db : Db.t :=
  Db.mk
    [Campaign.mk 1 "active" "turbo" 3 60 None None]
    [Lead.mk 1 1 (Some "5550001") "new" 1 None None;
     Lead.mk 2 1 (Some "5550002") "new" 5 None None]
    [] [] [CampaignAssignment.mk 1 7] [].

(** Campaign 1 with one fresh lead whose phone number is the empty
    string. *)
Definition blank_phone_db : Db.t :=
  Db.mk
    [Campaign.mk 1 "active" "turbo" 3 60 None None]
    [Lead.mk 1 1 (Some "") "new" 1 None None]
    [] [] [CampaignAssignment.mk 1 7] [].

(** Campaign 1 (three attempts, 60 minutes between them) with lead 1,
    called once at second 100. *)
Definition called_once_db : Db.t :=
  Db.mk
    [Campaign.mk 1 "active" "turbo" 3 60 None None]
    [Lead.mk 1 1 (Some "5550001") "callback" 1 (Some 100000000) None]
    [Call.mk 1 1 1 (Some 7) "5550001" "outbound" "no_answer"
       (Some 100000000) None (Some 130000000) None]
    [] [CampaignAssignment.mk 1 7] [].

(** The engine with call 1 in flight for agent 7. *)
Definition in_flight_world : World.t :=
  Engine.run call_placed (Engine.initial ready_db ready_sip).

(** The switch reports the end of the channel of call 1. *)
Definition hangup_event : message :=
  <["Event" := "Hangup"]> (<["Channel" := "SIP/trunk/5551234"]> ∅).

(** The engine of [ready_db] with no SIP configuration switched on. *)
Definition no_trunk_world : World.t :=
  World.mk
    (Db.mk (Db.campaigns ready_db) (Db.leads ready_db) [] []
       (Db.assignments ready_db) [SipConfiguration.mk 1 "trunk" false])
    DialerService.init ready_sip.

(** A history of four calls of which one was answered. *)
Definition quarter_answered_history : list PredictiveDialer.history_entry :=
  [PredictiveDialer.mk_entry "answered" 30 (Some 4000000);
   PredictiveDialer.mk_entry "not_answered" 0 (Some 3000000);
   PredictiveDialer.mk_entry "not_answered" 0 (Some 2000000);
   PredictiveDialer.mk_entry "not_answered" 0 (Some 1000000)].

(** Campaign 1 with lead 1, called once at second 100, stored before the
    fresh lead 2. *)
Definition cooling_db : Db.t :=
  Db.mk
    [Campaign.mk 1 "active" "turbo" 3 60 None None]
    [Lead.mk 1 1 (Some "5550001") "callback" 9 (Some 100000000) None;
     Lead.mk 2 1 (Some "5550002") "new" 1 None None]
    [Call.mk 1 1 1 (Some 7) "5550001" "outbound" "no_answer"
       (Some 100000000) None (Some 130000000) None]
    [] [CampaignAssignment.mk 1 7] [].

(** A client that has logged in and has nothing registered yet. *)
Definition ready_client : AsteriskAMIClient.t SipService.callback :=
  AsteriskAMIClient.mk "trunk" true true ∅ ∅ 0 [].

(** The switch's answer to the action [action_1_1]. *)
Definition status_response : message :=
  <["Response" := "Success"]> (<["ActionID" := "action_1_1"]> ∅).

(** The switch reports that the dialled party of call 1 is busy. *)
Definition dial_end_busy : message :=
  <["Event" := "DialEnd"]>
    (<["Channel" := "SIP/trunk/5551234"]> (<["DialStatus" := "BUSY"]> ∅)).

(** The switch reports that the dialled party of call 1 picked up. *)
Definition dial_end_answer : message :=
  <["Event" := "DialEnd"]>
    (<["Channel" := "SIP/trunk/5551234"]> (<["DialStatus" := "ANSWER"]> ∅)).

(** The telephony service of [ready_sip] with the five event handlers
    registered on its client, as [initialize_ami_connection] leaves it. *)
Definition wired_sip : SipService.t :=
  SipService.mk (<[1 := SipService.register_handlers ready_client]> ∅) [] [0%nat] [].

(** The engine with call 1 in flight for agent 7, handlers registered. *)
Definition wired_in_flight_world : World.t :=
  Engine.run call_placed (Engine.initial ready_db wired_sip).

(** The same after the switch has reported the dialled party busy. *)
Definition after_busy_world : World.t :=
  Reader.deliver wired_in_flight_world (5000000, 1, dial_end_busy).

(** The switch's answer to the Originate of call 1. *)
Definition originate_response : message :=
  <["Response" := "Success"]>
    (<["ActionID" := "action_1_1"]>
       (<["Message" := "Originate successfully queued"]> ∅)).



(** Four turns of the turbo loop, sixty-one minutes apart, each with a
    socket write that fails. *)
Definition four_failing_turns : list (datetime * bool) :=
  [(1000000, false); (3661000000, false); (7321000000, false); (10981000000, false)].

(** Draws of the score noise: none at all. *)
Definition no_noise : nat → Q := fun _ => 0%Q.

(** Agent 1 answered two of two recent calls, agent 2 none of two. *)
Definition two_agent_performance : gmap Z PredictiveDialer.performance :=
  <[1 := PredictiveDialer.mk_performance 2 2 1%Q (60 # 1) 120]>
    (<[2 := PredictiveDialer.mk_performance 2 0 0%Q 0%Q 0]> ∅).

(** Campaign 1 in predictive mode with four fresh leads, agents 1 and 2
    assigned, and an active SIP configuration. *)
Definition four_leads_db : Db.t :=
  Db.mk
    [Campaign.mk 1 "active" "predictive" 3 60 (Some (12 # 10)) None]
    [Lead.mk 1 1 (Some "5550001") "new" 1 None None;
     Lead.mk 2 1 (Some "5550002") "new" 1 None None;
     Lead.mk 3 1 (Some "5550003") "new" 1 None None;
     Lead.mk 4 1 (Some "5550004") "new" 1 None None]
    [] []
    [CampaignAssignment.mk 1 1; CampaignAssignment.mk 1 2]
    [SipConfiguration.mk 1 "trunk" true].

(** Campaign 1 in manual mode (cap 3); its lead 1 is marked
    [do_not_call] and has been called three times already. *)
Definition exhausted_lead_db : Db.t :=
  Db.mk
    [Campaign.mk 1 "active" "manual" 3 60 None None]
    [Lead.mk 1 1 (Some "5550001") "do_not_call" 1 (Some 300000000) None]
    [Call.mk 1 1 1 (Some 7) "5550001" "outbound" "no_answer" (Some 100000000)
       None (Some 130000000) None;
     Call.mk 2 1 1 (Some 7) "5550001" "outbound" "no_answer" (Some 200000000)
       None (Some 230000000) None;
     Call.mk 3 1 1 (Some 7) "5550001" "outbound" "no_answer" (Some 300000000)
       None (Some 330000000) None]
    [] [CampaignAssignment.mk 1 7]
    [SipConfiguration.mk 1 "trunk" true].

Definition running_manual : gmap Z DialerService.dialer :=
  <[1 := DialerService.manual_dialer]> ∅.

(** The JSON body [{"lead_id": 1, "campaign_id": 1}]. *)
Definition call_lead_1 : gmap string Z :=
  <["lead_id" := 1]> (<["campaign_id" := 1]> ∅).

(** The client of [wired_in_flight_world], after the Originate of call 1. *)
Definition in_flight_client : AsteriskAMIClient.t SipService.callback :=
  default ready_client (SipService.ami_clients (World.sip wired_in_flight_world) !! 1).

(** The switch's answer to the second action of that client, sent nine
    seconds after the epoch. *)
Definition hangup_action_response : message :=
  <["Response" := "Success"]> (<["ActionID" := "action_2_9"]> ∅).

(** * Properties *)

(** ** The availability query *)

Section AvailableLoop.

Implicit Types (assigned agents : list Z) (statuses : gmap Z AgentStatus.t).

(** The registry the loop leaves behind does not depend on the list being
    accumulated. *)
Lemma available_loop_snd_acc assigned statuses acc acc' :
  snd (DialerService.available_loop assigned statuses acc)
  = snd (DialerService.available_loop assigned statuses acc').
Proof.
  revert statuses acc acc'.
  induction assigned as [|a rest IH]; intros statuses acc acc';
    cbn [DialerService.available_loop snd]; [done|].
  destruct (statuses !! a) as [s|]; [|by apply IH].
  destruct (bool_decide (AgentStatus.status s = "available")); by apply IH.
Qed.

Lemma bool_decide_elem_of_cons_ne (x a : Z) (l : list Z) :
  x ≠ a → bool_decide (x ∈ a :: l) = bool_decide (x ∈ l).
Proof.
  intros Hne. apply bool_decide_ext. rewrite elem_of_cons. tauto.
Qed.

(** Lookup in the registry after the loop. *)
Lemma available_loop_lookup assigned statuses acc agent_id :
  snd (DialerService.available_loop assigned statuses acc) !! agent_id
  = match statuses !! agent_id with
    | Some s => Some s
    | None =>
        if bool_decide (agent_id ∈ assigned)
        then Some (AgentStatus.new agent_id "available") else None
    end.
Proof.
  revert statuses acc.
  induction assigned as [|a rest IH]; intros statuses acc;
    cbn [DialerService.available_loop snd].
  - destruct (statuses !! agent_id); [done|].
    rewrite bool_decide_eq_false_2; [done|]. by intros ?%elem_of_nil.
  - destruct (statuses !! a) as [s|] eqn:Ha.
    + assert (Hrest :
        snd (DialerService.available_loop rest statuses acc) !! agent_id
        = match statuses !! agent_id with
          | Some s0 => Some s0
          | None =>
              if bool_decide (agent_id ∈ a :: rest)
              then Some (AgentStatus.new agent_id "available") else None
          end).
      { rewrite IH. destruct (statuses !! agent_id) eqn:Hid; [done|].
        rewrite bool_decide_elem_of_cons_ne; [done|congruence]. }
      destruct (bool_decide (AgentStatus.status s = "available")); [|exact Hrest].
      rewrite (available_loop_snd_acc rest statuses _ acc). exact Hrest.
    + rewrite IH. destruct (decide (agent_id = a)) as [->|Hne].
      * rewrite lookup_insert_eq, Ha.
        rewrite bool_decide_eq_true_2; [done|]. apply elem_of_cons. by left.
      * rewrite lookup_insert_ne by done.
        destruct (statuses !! agent_id); [done|].
        by rewrite bool_decide_elem_of_cons_ne.
Qed.

(** The list the loop returns: what was accumulated, then the assigned
    agents that are available in the registry left behind, in the order of
    the assignments. *)
Lemma available_loop_fst assigned statuses acc :
  fst (DialerService.available_loop assigned statuses acc)
  = app acc
      (List.filter
         (is_available (snd (DialerService.available_loop assigned statuses acc)))
         assigned).
Proof.
  revert statuses acc.
  induction assigned as [|a rest IH]; intros statuses acc.
  - cbn. by rewrite app_nil_r.
  - assert (Hkeep : ∀ st acc0 (b : bool),
      is_available (snd (DialerService.available_loop rest st acc0)) a = b →
      app (if b then app acc [a] else acc)
        (List.filter (is_available (snd (DialerService.available_loop rest st acc0))) rest)
      = app acc
          (List.filter (is_available (snd (DialerService.available_loop rest st acc0)))
             (a :: rest))).
    { intros st acc0 b Hb. cbn [List.filter]. rewrite Hb.
      destruct b; [by rewrite <- app_assoc|done]. }
    cbn [DialerService.available_loop].
    destruct (statuses !! a) as [s|] eqn:Ha.
    + destruct (bool_decide (AgentStatus.status s = "available")) eqn:Hs.
      * rewrite IH. apply (Hkeep _ _ true).
        unfold is_available. by rewrite available_loop_lookup, Ha.
      * rewrite IH. apply (Hkeep _ _ false).
        unfold is_available. by rewrite available_loop_lookup, Ha.
    + rewrite IH. apply (Hkeep _ _ true).
      unfold is_available. by rewrite available_loop_lookup, lookup_insert_eq.
Qed.

End AvailableLoop.

(** C10.  [get_available_agents] writes to the registry: an agent assigned
    to the campaign that had no entry gets a fresh entry, whose status is
    [available] and which has no call, no call end and both counters at
    zero, and is part of the returned list; the entry of every other agent
    id is what it was before the query. *)
Theorem get_available_agents_registers_untracked
    (campaign_id : Z) (db : Db.t) (statuses : gmap Z AgentStatus.t) (agent_id : Z) :
  let r := DialerService.get_available_agents campaign_id db statuses in
  (agent_id ∈ Db.assigned_agent_ids campaign_id db →
   statuses !! agent_id = None →
   (∃ agent_status,
      snd r !! agent_id = Some agent_status
      ∧ AgentStatus.status agent_status = "available"
      ∧ agent_status = AgentStatus.mk agent_id "available" None None 0 0)
   ∧ agent_id ∈ fst r)
  ∧ (¬ (agent_id ∈ Db.assigned_agent_ids campaign_id db
        ∧ statuses !! agent_id = None) →
     snd r !! agent_id = statuses !! agent_id).
Proof.
  cbn zeta. unfold DialerService.get_available_agents. split.
  - intros Hin Hnone.
    assert (Hlk :
      snd (DialerService.available_loop (Db.assigned_agent_ids campaign_id db)
             statuses []) !! agent_id
      = Some (AgentStatus.new agent_id "available")).
    { rewrite available_loop_lookup, Hnone. by rewrite bool_decide_eq_true_2. }
    split; [by exists (AgentStatus.new agent_id "available")|].
    rewrite available_loop_fst. cbn [app].
    apply list_elem_of_In, filter_In. split; [by apply list_elem_of_In|].
    unfold is_available. by rewrite Hlk.
  - intros Hnot. rewrite available_loop_lookup.
    destruct (statuses !! agent_id) eqn:Hid; [done|].
    rewrite bool_decide_eq_false_2; [done|]. intros Hin. apply Hnot. by split.
Qed.


(** Witness of C10: agent 1 is assigned to campaign 1 and not tracked. *)
Lemma get_available_agents_registers_untracked_witness :
  let r := DialerService.get_available_agents 1 two_agents_db one_busy_agent in
  (∃ agent_status,
     snd r !! 1 = Some agent_status
     ∧ AgentStatus.status agent_status = "available"
     ∧ agent_status = AgentStatus.mk 1 "available" None None 0 0)
  ∧ 1 ∈ fst r.
Proof.
  apply (proj1 (get_available_agents_registers_untracked 1 two_agents_db
                  one_busy_agent 1)).
  - apply list_elem_of_In. vm_compute. by left.
  - vm_compute. reflexivity.
Defined.



(** ** The facade on agent status *)

(** Counterexample to C3 as stated: agent 7 is on call 3 and asks to become
    [available]; the facade answers 200 and the entry is rewritten. *)
Lemma facade_does_not_reject_on_call :
  ¬ spec_facade_rejects_on_call 5000 7 on_call_world.
Proof.
  intros Hspec.
  destruct (Hspec (AgentStatus.mk 7 "on_call" (Some 3) None 2 60))
    as [[http Herr] _]; [by vm_compute ..|].
  vm_compute in Herr. discriminate Herr.
Qed.

(** C3, amended.  For an agent whose status is [on_call], the facade
    request to become [available] is accepted: it answers success, sets the
    status to [available], clears [current_call_id] and sets [last_call_end]
    to the time of the request; the counters are kept and no other agent's
    entry changes. *)
Theorem facade_available_overrides_on_call
    (now : datetime) (agent_id : Z) (w : World.t) (a : AgentStatus.t) :
  World.agent_statuses w !! agent_id = Some a →
  AgentStatus.status a = "on_call" →
  let r :=
    Routes.update_agent_status now agent_id (Some {[ "status" := "available" ]}) w in
  snd r = Routes.Success agent_id "available" now
  ∧ World.agent_statuses (fst r) !! agent_id
    = Some (AgentStatus.mk (AgentStatus.agent_id a) "available" None (Some now)
              (AgentStatus.calls_today a) (AgentStatus.talk_time_today a))
  ∧ ∀ other, other ≠ agent_id →
      World.agent_statuses (fst r) !! other = World.agent_statuses w !! other.
Proof.
  intros Ha Hon. cbn zeta.
  unfold Routes.update_agent_status.
  assert (Hne : bool_decide (({[ "status" := "available" ]} : gmap string string) = ∅)
                = false).
  { apply bool_decide_eq_false_2. apply insert_non_empty. }
  rewrite Hne, lookup_singleton_eq. cbn [truthy_str negb orb default].
  rewrite (bool_decide_eq_false_2 ("available" = "")) by done.
  cbn [negb]. rewrite bool_decide_eq_true_2 by (apply elem_of_cons; by left).
  cbn [fst snd]. split; [done|].
  unfold World.agent_statuses, World.set_agent_statuses. cbn.
  unfold World.agent_statuses in Ha.
  unfold DialerService.update_agent_status. rewrite Ha.
  cbn [truthy_int]. rewrite bool_decide_eq_true_2 by done.
  split.
  - rewrite lookup_alter_eq, lookup_insert_eq. done.
  - intros other Hother.
    rewrite lookup_alter_ne by done. by rewrite lookup_insert_ne.
Qed.

(** Witness of C3, amended, on agent 7 of [on_call_world]. *)
Lemma facade_available_overrides_on_call_witness :
  let r :=
    Routes.update_agent_status 5000 7 (Some {[ "status" := "available" ]})
      on_call_world in
  snd r = Routes.Success 7 "available" 5000
  ∧ World.agent_statuses (fst r) !! 7
    = Some (AgentStatus.mk 7 "available" None (Some 5000) 2 60)
  ∧ ∀ other, other ≠ 7 →
      World.agent_statuses (fst r) !! other
      = World.agent_statuses on_call_world !! other.
Proof.
  apply (facade_available_overrides_on_call 5000 7 on_call_world
           (AgentStatus.mk 7 "on_call" (Some 3) None 2 60)).
  - vm_compute. reflexivity.
  - reflexivity.
Defined.

(** ** The registry invariant *)

Section Registry.

Implicit Types (statuses : gmap Z AgentStatus.t) (a : AgentStatus.t).

Lemma update_agent_status_lookup_ne now agent_id status call_id statuses other :
  other ≠ agent_id →
  DialerService.update_agent_status now agent_id status call_id statuses !! other
  = statuses !! other.
Proof.
  intros Hne. unfold DialerService.update_agent_status.
  assert (Hbase :
    match statuses !! agent_id with
    | Some a => <[agent_id := AgentStatus.set_status status a]> statuses
    | None => <[agent_id := AgentStatus.new agent_id status]> statuses
    end !! other = statuses !! other).
  { destruct (statuses !! agent_id); by rewrite lookup_insert_ne. }
  destruct (truthy_int call_id); [by rewrite lookup_alter_ne|].
  destruct (bool_decide (status = "available")); [by rewrite lookup_alter_ne|done].
Qed.

(** The entry [update_agent_status] leaves for the agent it is called on. *)
Lemma update_agent_status_lookup_eq now agent_id status call_id statuses :
  DialerService.update_agent_status now agent_id status call_id statuses !! agent_id
  = let base :=
      match statuses !! agent_id with
      | Some a => AgentStatus.set_status status a
      | None => AgentStatus.new agent_id status
      end in
    Some (if truthy_int call_id then AgentStatus.set_current_call_id call_id base
          else if bool_decide (status = "available")
               then AgentStatus.set_last_call_end (Some now)
                      (AgentStatus.set_current_call_id None base)
               else base).
Proof.
  unfold DialerService.update_agent_status. cbn zeta.
  assert (Hbase :
    match statuses !! agent_id with
    | Some a => <[agent_id := AgentStatus.set_status status a]> statuses
    | None => <[agent_id := AgentStatus.new agent_id status]> statuses
    end !! agent_id
    = Some match statuses !! agent_id with
           | Some a => AgentStatus.set_status status a
           | None => AgentStatus.new agent_id status
           end).
  { destruct (statuses !! agent_id); by rewrite lookup_insert_eq. }
  destruct (truthy_int call_id); [by rewrite lookup_alter_eq, Hbase|].
  destruct (bool_decide (status = "available")); [by rewrite lookup_alter_eq, Hbase|done].
Qed.

Lemma registry_consistent_empty : registry_consistent ∅.
Proof. intros agent_id a Ha. by rewrite lookup_empty in Ha. Qed.

(** A status change without a call id, to a status other than [on_call]. *)
Lemma update_without_call_consistent now agent_id status statuses :
  status ≠ "on_call" →
  registry_consistent statuses →
  registry_consistent
    (DialerService.update_agent_status now agent_id status None statuses).
Proof.
  intros Hstatus Hinv other a.
  destruct (decide (other = agent_id)) as [->|Hne].
  - rewrite update_agent_status_lookup_eq. cbn zeta. cbn [truthy_int].
    intros [= <-]. case_bool_decide as Hav.
    + split; [|done]. cbn. destruct (statuses !! agent_id); cbn; congruence.
    + split; destruct (statuses !! agent_id); cbn; congruence.
  - rewrite update_agent_status_lookup_ne by done. apply Hinv.
Qed.

(** Marking an agent [on_call] with the id of a call row. *)
Lemma update_on_call_consistent now agent_id call_id statuses :
  call_id ≠ 0 →
  registry_consistent statuses →
  registry_consistent
    (DialerService.update_agent_status now agent_id "on_call" (Some call_id)
       statuses).
Proof.
  intros Hid Hinv other a.
  destruct (decide (other = agent_id)) as [->|Hne].
  - rewrite update_agent_status_lookup_eq. cbn zeta. cbn [truthy_int].
    rewrite (proj2 (Z.eqb_neq call_id 0)) by done. cbn [negb].
    intros [= <-].
    split; destruct (statuses !! agent_id); cbn; congruence.
  - rewrite update_agent_status_lookup_ne by done. apply Hinv.
Qed.

Lemma get_available_agents_consistent campaign_id db statuses :
  registry_consistent statuses →
  registry_consistent
    (snd (DialerService.get_available_agents campaign_id db statuses)).
Proof.
  intros Hinv agent_id a. unfold DialerService.get_available_agents.
  rewrite available_loop_lookup.
  destruct (statuses !! agent_id) as [a0|] eqn:Ha0.
  - intros [= <-]. by apply (Hinv agent_id).
  - case_bool_decide; [|done]. intros [= <-]. split; cbn; congruence.
Qed.

Lemma next_call_id_positive db : 0 < Db.next_call_id db.
Proof.
  unfold Db.next_call_id.
  assert (0 ≤ fold_right Z.max 0 (List.map Call.id (Db.calls db))); [|lia].
  induction (List.map Call.id (Db.calls db)) as [|x xs IH]; cbn; lia.
Qed.

End Registry.

Lemma initiate_call_consistent now send_ok campaign_id lead_id agent_id w :
  registry_consistent (World.agent_statuses w) →
  registry_consistent
    (World.agent_statuses
       (fst (World.initiate_call now send_ok campaign_id lead_id agent_id w))).
Proof.
  intros Hinv. unfold World.initiate_call.
  destruct (Db.lead_get lead_id (World.db w)) as [lead|]; [|done].
  destruct (Lead.phone_number lead) as [phone|]; [|done].
  destruct (SipService.originate_call _ _ _ _ _ _ _) as [sip1 submitted].
  pose proof (next_call_id_positive (World.db w)) as Hpos.
  assert (Hon : registry_consistent
    (DialerService.update_agent_status now agent_id "on_call"
       (Some (Db.next_call_id (World.db w))) (World.agent_statuses w))).
  { apply update_on_call_consistent; [lia|done]. }
  destruct submitted; cbn [fst].
  - unfold World.agent_statuses at 1. cbn [World.dialer].
    unfold World.count_call. cbn [DialerService.dialer_stats DialerService.set_agent_statuses].
    destruct (DialerService.dialer_stats (World.dialer w) !! campaign_id); exact Hon.
  - unfold World.agent_statuses at 1. cbn.
    by apply update_without_call_consistent.
Qed.

Lemma step_consistent w o :
  Engine.facade_op o →
  registry_consistent (World.agent_statuses w) →
  registry_consistent (World.agent_statuses (Engine.step w o)).
Proof.
  intros Hop Hinv. destruct o as [now agent_id status call_id|campaign_id|]; cbn [Engine.step].
  - destruct Hop as [Hvalid ->].
    unfold World.set_agent_statuses, World.agent_statuses at 1. cbn.
    apply update_without_call_consistent; [|done].
    intros ->. unfold Routes.valid_statuses in Hvalid.
    rewrite !elem_of_cons in Hvalid. rewrite elem_of_nil in Hvalid.
    destruct Hvalid as [|[|[|[]]]]; discriminate.
  - unfold World.get_available_agents.
    pose proof (get_available_agents_consistent campaign_id (World.db w) _ Hinv) as H.
    destruct (DialerService.get_available_agents _ _ _) as [agents statuses].
    exact H.
  - by apply initiate_call_consistent.
Qed.

Lemma run_consistent ops w :
  Forall Engine.facade_op ops →
  registry_consistent (World.agent_statuses w) →
  registry_consistent (World.agent_statuses (Engine.run ops w)).
Proof.
  intros Hops. revert w.
  induction Hops as [|o ops Ho Hops IH]; intros w Hinv; [done|].
  cbn. apply IH. by apply step_consistent.
Qed.

(** Counterexample to C7 as stated: a call is placed for agent 7 and the
    agent then reports [busy] through the facade; the entry keeps the id of
    the call although the status is no longer [on_call]. *)
Lemma busy_agent_keeps_call_id :
  World.agent_statuses (Engine.run call_then_busy (Engine.initial ready_db ready_sip))
    !! 7
  = Some (AgentStatus.mk 7 "busy" (Some 1) None 0 0)
  ∧ ¬ spec_call_id_iff_on_call (AgentStatus.mk 7 "busy" (Some 1) None 0 0).
Proof.
  split; [by vm_compute|].
  intros [Hnull _]. cbn in Hnull. by specialize (Hnull ltac:(done)).
Qed.

(** C7, amended.  In every state reached from the empty registry by
    [get_available_agents], [initiate_call] and [update_agent_status] as
    the facade issues it (status [available], [busy] or [offline], no call
    id), an agent whose status is [on_call] has a [current_call_id] and an
    agent whose status is [available] has none.  The converse of the first
    half does not hold. *)
Theorem reachable_registry_consistent
    (db : Db.t) (sip : SipService.t) (ops : list Engine.op)
    (agent_id : Z) (a : AgentStatus.t) :
  Forall Engine.facade_op ops →
  World.agent_statuses (Engine.run ops (Engine.initial db sip)) !! agent_id = Some a →
  (AgentStatus.status a = "on_call" → AgentStatus.current_call_id a ≠ None)
  ∧ (AgentStatus.status a = "available" → AgentStatus.current_call_id a = None).
Proof.
  intros Hops Ha.
  apply (run_consistent ops (Engine.initial db sip) Hops registry_consistent_empty
           agent_id a Ha).
Qed.

(** Witness of C7, amended: agent 7 right after a call was placed for it. *)
Lemma reachable_registry_consistent_witness :
  (AgentStatus.status (AgentStatus.mk 7 "on_call" (Some 1) None 0 0) = "on_call" →
   AgentStatus.current_call_id (AgentStatus.mk 7 "on_call" (Some 1) None 0 0) ≠ None)
  ∧ (AgentStatus.status (AgentStatus.mk 7 "on_call" (Some 1) None 0 0) = "available" →
     AgentStatus.current_call_id (AgentStatus.mk 7 "on_call" (Some 1) None 0 0) = None).
Proof.
  apply (reachable_registry_consistent ready_db ready_sip call_placed 7).
  - repeat constructor.
  - vm_compute. reflexivity.
Defined.

(** ** AMI dispatch *)

(** Counterexample to C9 as stated: a [Hangup] event that carries the id of
    a pending action is handed to the [Hangup] subscriber; the waiter is
    not called and stays registered. *)
Lemma event_with_action_id_skips_waiter :
  AsteriskAMIClient._handle_message hangup_with_action_id waiting_client
  = (waiting_client,
     [AsteriskAMIClient.Invoke SipService.cb_handle_hangup hangup_with_action_id])
  ∧ ¬ spec_event_response_to_waiter_only hangup_with_action_id waiting_client.
Proof.
  split; [by vm_compute|].
  intros Hspec.
  specialize (Hspec "Hangup" "action_1_1700000000"
                (SipService.cb_handle_hangup_response 4)).
  assert (Hrun : AsteriskAMIClient._handle_message hangup_with_action_id waiting_client
                 = (waiting_client,
                    [AsteriskAMIClient.Invoke SipService.cb_handle_hangup
                       hangup_with_action_id])) by (by vm_compute).
  rewrite Hrun in Hspec.
  assert (Heq : (waiting_client,
                 [AsteriskAMIClient.Invoke SipService.cb_handle_hangup
                    hangup_with_action_id])
                = (AsteriskAMIClient.set_response_handlers
                     (delete "action_1_1700000000"
                        (AsteriskAMIClient.response_handlers waiting_client))
                     waiting_client,
                   [AsteriskAMIClient.Invoke (SipService.cb_handle_hangup_response 4)
                      hangup_with_action_id])).
  { apply Hspec; by vm_compute. }
  inversion Heq.
Qed.

(** C9, amended.  A message that has an [Event] key is handed to the
    subscribers of that event, each once and in registration order, and to
    nobody else, whether or not it also carries the [ActionID] of a pending
    waiter; no waiter is completed or removed by it. *)
Theorem event_message_goes_to_subscribers {H : Type}
    (msg : message) (c : AsteriskAMIClient.t H) (event_type : string) :
  msg !! "Event" = Some event_type →
  AsteriskAMIClient._handle_message msg c
  = (c, List.map (fun h => AsteriskAMIClient.Invoke h msg)
          (default [] (AsteriskAMIClient.event_handlers c !! event_type))).
Proof.
  intros Hevent. unfold AsteriskAMIClient._handle_message. rewrite Hevent.
  by destruct (AsteriskAMIClient.event_handlers c !! event_type).
Qed.

(** Witness of C9, amended. *)
Lemma event_message_goes_to_subscribers_witness :
  AsteriskAMIClient._handle_message hangup_with_action_id waiting_client
  = (waiting_client,
     List.map (fun h => AsteriskAMIClient.Invoke h hangup_with_action_id)
       (default [] (AsteriskAMIClient.event_handlers waiting_client !! "Hangup"))).
Proof.
  apply (event_message_goes_to_subscribers hangup_with_action_id waiting_client
           "Hangup").
  vm_compute. reflexivity.
Defined.

(** A message without [Event] whose [ActionID] has a waiter completes that
    waiter and removes it. *)
Lemma response_message_completes_waiter {H : Type}
    (msg : message) (c : AsteriskAMIClient.t H) (action_id : string) (h : H) :
  msg !! "Event" = None →
  msg !! "ActionID" = Some action_id →
  AsteriskAMIClient.response_handlers c !! action_id = Some h →
  AsteriskAMIClient._handle_message msg c
  = (AsteriskAMIClient.set_response_handlers
       (delete action_id (AsteriskAMIClient.response_handlers c)) c,
     [AsteriskAMIClient.Invoke h msg]).
Proof.
  intros Hevent Hid Hh. unfold AsteriskAMIClient._handle_message.
  by rewrite Hevent, Hid, Hh.
Qed.

(** ** Predictive pacing *)

Section Pacing.

Implicit Types (call_history : list PredictiveDialer.history_entry)
  (available_agents : list Z) (statuses : gmap Z AgentStatus.t).

(** The function, with its two metrics named. *)
Lemma calculate_calls_needed_unfold now call_history db statuses available_agents
    predictive_ratio :
  available_agents ≠ [] →
  PredictiveDialer._calculate_calls_needed now call_history db statuses
    available_agents predictive_ratio
  = let total_agents :=
      Z.of_nat (length available_agents)
      + PredictiveDialer._predict_agents_becoming_free now
          (avg_duration_of call_history) db statuses in
    if Qeq_bool (answer_rate_of call_history) 0 then Raise ZeroDivisionError
    else Ok (Z.max 0
               (Z.min (py_int (inject_Z total_agents * predictive_ratio
                               / answer_rate_of call_history)%Q)
                  (Z.min (Z.of_nat (length available_agents) * 3) 10))).
Proof.
  intros Hne. unfold PredictiveDialer._calculate_calls_needed.
  destruct available_agents as [|a rest]; [done|].
  unfold answer_rate_of, avg_duration_of.
  destruct call_history as [|e es]; [done|].
  generalize
    (List.filter
       (fun c => PredictiveDialer.is_answered c && (0 <? PredictiveDialer.duration c))
       (e :: es)).
  by intros [|c cs].
Qed.

Lemma filter_none_answered call_history :
  Forall (fun e => PredictiveDialer.is_answered e = false) call_history →
  List.filter PredictiveDialer.is_answered call_history = [].
Proof.
  induction 1 as [|e es He _ IH]; [done|]. cbn. by rewrite He.
Qed.

Lemma answer_rate_zero call_history :
  call_history ≠ [] →
  Forall (fun e => PredictiveDialer.is_answered e = false) call_history →
  Qeq_bool (answer_rate_of call_history) 0 = true.
Proof.
  intros Hne Hall. destruct call_history as [|e es]; [done|].
  unfold answer_rate_of. by rewrite filter_none_answered.
Qed.

Lemma answer_rate_nonzero call_history :
  call_history = []
  ∨ Exists (fun e => PredictiveDialer.is_answered e = true) call_history →
  Qeq_bool (answer_rate_of call_history) 0 = false.
Proof.
  intros [->|Hex]; [done|].
  destruct call_history as [|e es]; [by inversion Hex|].
  unfold answer_rate_of.
  assert (Hpos : (0 < length (List.filter PredictiveDialer.is_answered (e :: es)))%nat).
  { induction Hex as [x xs Hx|x xs _ IH]; cbn.
    - rewrite Hx. cbn. lia.
    - destruct (PredictiveDialer.is_answered x); cbn; lia. }
  unfold Qeq_bool. cbn [Qnum Qden]. apply Z.eqb_neq. lia.
Qed.

(** Truncation and floor agree once the result is clamped at zero. *)
Lemma clamp_py_int_floor (x : Q) (cap : Z) :
  Z.max 0 (Z.min (py_int x) cap) = Z.max 0 (Z.min (Qfloor x) cap).
Proof.
  destruct x as [n d]. unfold py_int, Qfloor. cbn [Qnum Qden].
  destruct (Z.le_gt_cases 0 n) as [Hn|Hn].
  - rewrite Z.quot_div_nonneg by lia. done.
  - assert (n ÷ Z.pos d ≤ 0).
    { rewrite <- (Z.quot_0_l (Z.pos d)) by lia. apply Z.quot_le_mono; lia. }
    assert (n / Z.pos d ≤ 0).
    { rewrite <- (Z.div_0_l (Z.pos d)) by lia. apply Z.div_le_mono; lia. }
    lia.
Qed.

(** Whenever the function returns, what it returns is within the cap. *)
Lemma calculate_calls_needed_in_range now call_history db statuses available_agents
    predictive_ratio n :
  PredictiveDialer._calculate_calls_needed now call_history db statuses
    available_agents predictive_ratio = Ok n →
  0 ≤ n ≤ Z.min (3 * Z.of_nat (length available_agents)) 10.
Proof.
  destruct available_agents as [|a rest].
  - cbn. intros [= <-]. lia.
  - rewrite calculate_calls_needed_unfold by done. cbn zeta.
    destruct (Qeq_bool _ 0); [done|]. intros [= <-]. cbn [length]. lia.
Qed.

(** With no history, or with at least one answered call in it, the function
    returns the floor of the quotient, capped and clamped. *)
Lemma calculate_calls_needed_formula now call_history db statuses available_agents
    predictive_ratio :
  available_agents ≠ [] →
  call_history = []
  ∨ Exists (fun e => PredictiveDialer.is_answered e = true) call_history →
  PredictiveDialer._calculate_calls_needed now call_history db statuses
    available_agents predictive_ratio
  = Ok (Z.max 0
          (Z.min
             (Qfloor (inject_Z
                        (Z.of_nat (length available_agents)
                         + PredictiveDialer._predict_agents_becoming_free now
                             (avg_duration_of call_history) db statuses)
                      * predictive_ratio / answer_rate_of call_history)%Q)
             (Z.min (3 * Z.of_nat (length available_agents)) 10))).
Proof.
  intros Hne Hrate. rewrite calculate_calls_needed_unfold by done. cbn zeta.
  rewrite answer_rate_nonzero by done.
  rewrite clamp_py_int_floor. by rewrite (Z.mul_comm 3).
Qed.

End Pacing.

(** Scenario S2: two available agents, a quarter of the calls answered and
    ratio 1.2 give nine calls, capped at six. *)
Example calculate_calls_needed_oversubscription :
  PredictiveDialer._calculate_calls_needed 60000000 quarter_answered_history
    empty_db ∅ [1; 2] (12 # 10) = Ok 6.
Proof. by vm_compute. Qed.

(** C1.  The claim wants a count within the cap also when every call of the
    recent history went unanswered.  There the answer rate is the float
    zero and the division by it raises: with at least one available agent,
    a non-empty history and no answered call in it, the function returns
    nothing and raises [ZeroDivisionError]. *)
Theorem calculate_calls_needed_raises_without_answers
    (now : datetime) (call_history : list PredictiveDialer.history_entry)
    (db : Db.t) (statuses : gmap Z AgentStatus.t) (available_agents : list Z)
    (predictive_ratio : Q) :
  available_agents ≠ [] →
  call_history ≠ [] →
  Forall (fun e => PredictiveDialer.is_answered e = false) call_history →
  PredictiveDialer._calculate_calls_needed now call_history db statuses
    available_agents predictive_ratio = Raise ZeroDivisionError
  ∧ ¬ spec_calls_needed_in_range (length available_agents)
        (PredictiveDialer._calculate_calls_needed now call_history db statuses
           available_agents predictive_ratio).
Proof.
  intros Hagents Hhist Hall.
  assert (Hraise :
    PredictiveDialer._calculate_calls_needed now call_history db statuses
      available_agents predictive_ratio = Raise ZeroDivisionError).
  { rewrite calculate_calls_needed_unfold by done. cbn zeta.
    by rewrite answer_rate_zero. }
  split; [exact Hraise|].
  rewrite Hraise. intros [n [Hn _]]. discriminate Hn.
Qed.

(** Witness of C1: one available agent, ratio 1.2, and a history of one
    call that rang out. *)
Lemma calculate_calls_needed_raises_without_answers_witness :
  PredictiveDialer._calculate_calls_needed 60000000 unanswered_history ready_db
    one_busy_agent [7] (12 # 10) = Raise ZeroDivisionError
  ∧ ¬ spec_calls_needed_in_range (length [7])
        (PredictiveDialer._calculate_calls_needed 60000000 unanswered_history
           ready_db one_busy_agent [7] (12 # 10)).
Proof.
  apply (calculate_calls_needed_raises_without_answers 60000000 unanswered_history
           ready_db one_busy_agent [7] (12 # 10)).
  - discriminate.
  - discriminate.
  - repeat constructor.
Defined.

(** ** Lead selection *)

Section LeadSelection.

Implicit Types (cs : list Call.t) (c : Call.t) (l : Lead.t).

Lemma started_before_irrefl (a : option datetime) :
  DialerService.started_before a a = false.
Proof. destruct a as [x|]; cbn; [apply Z.ltb_irrefl|done]. Qed.

Lemma started_before_asym (a b : option datetime) :
  DialerService.started_before a b = true → DialerService.started_before b a = false.
Proof.
  destruct a as [x|], b as [y|]; cbn; try done.
  rewrite Z.ltb_lt, Z.ltb_ge. lia.
Qed.

Lemma started_before_false_trans (a b c : option datetime) :
  DialerService.started_before a b = false →
  DialerService.started_before b c = false →
  DialerService.started_before a c = false.
Proof.
  destruct a as [x|], b as [y|], c as [z|]; cbn; try done.
  rewrite !Z.ltb_ge. lia.
Qed.

Lemma latest_call_nonempty c cs : ∃ best, DialerService.latest_call (c :: cs) = Some best.
Proof.
  cbn. destruct (DialerService.latest_call cs) as [best|]; [|by eexists].
  destruct (DialerService.started_before _ _); by eexists.
Qed.

Lemma latest_call_In cs best :
  DialerService.latest_call cs = Some best → In best cs.
Proof.
  revert best. induction cs as [|c rest IH]; intros best; cbn; [done|].
  destruct (DialerService.latest_call rest) as [b|].
  - destruct (DialerService.started_before _ _); intros [= <-]; [right; by apply IH|by left].
  - intros [= <-]. by left.
Qed.

(** No call of the list started after the one [latest_call] picks. *)
Lemma latest_call_max cs best c :
  DialerService.latest_call cs = Some best → In c cs →
  DialerService.started_before (Call.started_at best) (Call.started_at c) = false.
Proof.
  revert best. induction cs as [|c0 rest IH]; intros best; cbn; [done|].
  destruct (DialerService.latest_call rest) as [b|] eqn:Hrest.
  - destruct (DialerService.started_before (Call.started_at c0) (Call.started_at b))
      eqn:Hcmp; intros [= <-] [<-|Hin].
    + by apply started_before_asym.
    + by apply IH.
    + apply started_before_irrefl.
    + apply (started_before_false_trans _ (Call.started_at b)); [done|by apply IH].
  - intros [= <-] [<-|Hin]; [apply started_before_irrefl|].
    destruct rest as [|c1 rest']; [done|].
    destruct (latest_call_nonempty c1 rest') as [b Hb]. congruence.
Qed.

(** When the loop body returns for a lead, it says whether the lead has
    attempts left and has cooled down. *)
Lemma lead_is_valid_Ok now campaign db l keep :
  DialerService.lead_is_valid now campaign db l = Ok keep →
  keep = attempts_left campaign db l && cooled_down now campaign db l.
Proof.
  unfold DialerService.lead_is_valid, attempts_left, cooled_down.
  set (cs := Db.calls_of_lead (Lead.id l) db).
  set (delay := timedelta_minutes (Campaign.retry_delay_minutes campaign)).
  destruct (Z.of_nat (length cs) <? Campaign.max_attempts campaign); [|by intros [= <-]].
  cbn [andb].
  destruct (0 <? Z.of_nat (length cs)) eqn:Hcount.
  - destruct (DialerService.latest_call cs) as [last|] eqn:Hlast.
    + destruct (Call.started_at last) as [started|] eqn:Hstarted; [|done].
      destruct (now <? started + delay) eqn:Hnow; intros [= <-]; symmetry.
      * apply not_true_is_false. intros Hall.
        rewrite forallb_forall in Hall.
        specialize (Hall last (latest_call_In _ _ Hlast)).
        rewrite Hstarted in Hall. apply Z.leb_le in Hall. apply Z.ltb_lt in Hnow. lia.
      * apply forallb_forall. intros c Hc.
        pose proof (latest_call_max _ _ c Hlast Hc) as Hmax.
        rewrite Hstarted in Hmax.
        destruct (Call.started_at c) as [tc|]; [|done].
        cbn in Hmax. apply Z.ltb_ge in Hmax. apply Z.ltb_ge in Hnow.
        apply Z.leb_le. lia.
    + destruct cs as [|c cs']; [by intros [= <-]|].
      destruct (latest_call_nonempty c cs') as [b Hb]. congruence.
  - intros [= <-]. destruct cs as [|c cs']; [done|].
    apply Z.ltb_ge in Hcount. cbn [length] in Hcount. lia.
Qed.

(** The loop body returns when the calls of the lead all have a start
    time. *)
Lemma lead_is_valid_total now campaign db l :
  Forall (fun c => Call.started_at c ≠ None) (Db.calls db) →
  ∃ keep, DialerService.lead_is_valid now campaign db l = Ok keep.
Proof.
  intros Hstarted. unfold DialerService.lead_is_valid.
  destruct (_ <? Campaign.max_attempts campaign); [|by eexists].
  destruct (0 <? _); [|by eexists].
  destruct (DialerService.latest_call _) as [last|] eqn:Hlast; [|by eexists].
  apply latest_call_In in Hlast.
  unfold Db.calls_of_lead in Hlast. apply filter_In in Hlast as [Hin _].
  rewrite Forall_forall in Hstarted.
  specialize (Hstarted last (proj2 (list_elem_of_In _ _) Hin)).
  destruct (Call.started_at last); [|done].
  destruct (now <? _); by eexists.
Qed.

Lemma valid_leads_Ok now campaign db (leads vs : list Lead.t) :
  DialerService.valid_leads now campaign db leads = Ok vs →
  vs = List.filter
         (fun l => attempts_left campaign db l && cooled_down now campaign db l) leads.
Proof.
  revert vs. induction leads as [|l rest IH]; intros vs; cbn.
  - by intros [= <-].
  - destruct (DialerService.lead_is_valid now campaign db l) as [keep|e] eqn:Hl; [|done].
    destruct (DialerService.valid_leads now campaign db rest) as [vs'|e]; [|done].
    intros [= <-]. rewrite <- (lead_is_valid_Ok _ _ _ _ _ Hl), (IH vs' eq_refl).
    by destruct keep.
Qed.

Lemma valid_leads_total now campaign db (leads : list Lead.t) :
  Forall (fun c => Call.started_at c ≠ None) (Db.calls db) →
  ∃ vs, DialerService.valid_leads now campaign db leads = Ok vs.
Proof.
  intros Hstarted. induction leads as [|l rest [vs IH]]; cbn; [by eexists|].
  destruct (lead_is_valid_total now campaign db l Hstarted) as [keep ->].
  rewrite IH. by eexists.
Qed.

Lemma filter_filter_andb {A : Type} (f g : A → bool) (xs : list A) :
  List.filter g (List.filter f xs) = List.filter (fun x => f x && g x) xs.
Proof.
  induction xs as [|x xs IH]; cbn; [done|].
  destruct (f x); cbn; [|done]. destruct (g x); by rewrite IH.
Qed.

(** When [get_next_lead] returns, it returns the first lead, in table
    order, that passes the three filters. *)
Lemma get_next_lead_Ok now campaign_id db campaign r :
  Db.campaign_get campaign_id db = Some campaign →
  DialerService.get_next_lead now campaign_id db = Ok r →
  r = head (List.filter (eligible now campaign_id campaign db) (Db.leads db)).
Proof.
  intros Hcampaign. unfold DialerService.get_next_lead. rewrite Hcampaign.
  destruct (DialerService.valid_leads _ _ _ _) as [vs|e] eqn:Hvs; [|done].
  intros [= <-]. apply valid_leads_Ok in Hvs as ->.
  unfold DialerService.candidate_leads. rewrite filter_filter_andb.
  f_equal. apply filter_ext. intros l. unfold eligible, is_candidate.
  by rewrite andb_assoc.
Qed.

End LeadSelection.

(** Counterexample to C2 as stated: both leads of [two_leads_db] pass the
    filters; lead 2 has the higher priority, and lead 1, first in the
    table, is the one returned. *)
Lemma get_next_lead_ignores_priority :
  DialerService.get_next_lead 0 1 two_leads_db
  = Ok (Some (Lead.mk 1 1 (Some "5550001") "new" 1 None None))
  ∧ ¬ spec_next_lead_is_head 0 1 two_leads_db.
Proof.
  split; [by vm_compute|].
  intros Hspec.
  destruct (Hspec (Campaign.mk 1 "active" "turbo" 3 60 None None))
    as [l [Hret [_ Hhead]]]; [by vm_compute|by vm_compute|].
  assert (Hrun : DialerService.get_next_lead 0 1 two_leads_db
                 = Ok (Some (Lead.mk 1 1 (Some "5550001") "new" 1 None None)))
    by (by vm_compute).
  rewrite Hrun in Hret. injection Hret as <-.
  specialize (Hhead (Lead.mk 2 1 (Some "5550002") "new" 5 None None)).
  assert (Hbefore : true = false); [|done].
  apply Hhead; [|by vm_compute].
  apply list_elem_of_In. right. by left.
Qed.

(** C2, amended.  For a campaign that exists, and with every call row
    carrying a start time, [get_next_lead] returns the first lead, in the
    order in which the store lists the leads, among those that pass the
    three filters (none when no lead passes); priority, [next_contact_date],
    [last_contacted] and id play no part in the choice. *)
Theorem get_next_lead_first_in_table_order
    (now : datetime) (campaign_id : Z) (db : Db.t) (campaign : Campaign.t) :
  Db.campaign_get campaign_id db = Some campaign →
  Forall (fun c => Call.started_at c ≠ None) (Db.calls db) →
  DialerService.get_next_lead now campaign_id db
  = Ok (head (List.filter (eligible now campaign_id campaign db) (Db.leads db))).
Proof.
  intros Hcampaign Hstarted.
  destruct (valid_leads_total now campaign db
              (DialerService.candidate_leads campaign_id db) Hstarted) as [vs Hvs].
  assert (Hret : DialerService.get_next_lead now campaign_id db = Ok (head vs)).
  { unfold DialerService.get_next_lead. by rewrite Hcampaign, Hvs. }
  rewrite Hret. f_equal. by apply (get_next_lead_Ok _ _ _ _ _ Hcampaign Hret).
Qed.

(** Witness of C2, amended: in [cooling_db], one second before the sixty
    minutes of lead 1 are over, lead 2 is the first lead that passes. *)
Lemma get_next_lead_first_in_table_order_witness :
  DialerService.get_next_lead 3699000000 1 cooling_db
  = Ok (Some (Lead.mk 2 1 (Some "5550002") "new" 1 None None)).
Proof.
  rewrite (get_next_lead_first_in_table_order 3699000000 1 cooling_db
             (Campaign.mk 1 "active" "turbo" 3 60 None None)).
  - vm_compute. reflexivity.
  - vm_compute. reflexivity.
  - repeat constructor. discriminate.
Defined.

(** Counterexample to C5 as stated: the only lead of [blank_phone_db] has
    the empty string as phone number, and it is returned. *)
Lemma get_next_lead_returns_blank_phone :
  DialerService.get_next_lead 0 1 blank_phone_db
  = Ok (Some (Lead.mk 1 1 (Some "") "new" 1 None None))
  ∧ ¬ spec_returned_lead_eligible 0 1 blank_phone_db.
Proof.
  split; [by vm_compute|].
  intros Hspec.
  destruct (Hspec (Lead.mk 1 1 (Some "") "new" 1 None None))
    as [_ [[phone [Hphone Hne]] _]]; [by vm_compute|].
  cbn in Hphone. congruence.
Qed.

(** C5, amended.  A lead returned by [get_next_lead] is a lead of the
    campaign whose status is [new], [callback] or [interested] and whose
    phone number is not NULL (it may be the empty string); it has fewer
    calls than [max_attempts]; and each of its calls, so the latest one too,
    started at least [retry_delay_minutes] before now. *)
Theorem returned_lead_passes_filters
    (now : datetime) (campaign_id : Z) (db : Db.t) (l : Lead.t) :
  DialerService.get_next_lead now campaign_id db = Ok (Some l) →
  l ∈ Db.leads db
  ∧ Lead.campaign_id l = campaign_id
  ∧ Lead.status l ∈ ["new"; "callback"; "interested"]
  ∧ Lead.phone_number l ≠ None
  ∧ ∃ campaign,
      Db.campaign_get campaign_id db = Some campaign
      ∧ Z.of_nat (length (Db.calls_of_lead (Lead.id l) db))
        < Campaign.max_attempts campaign
      ∧ ∀ c started,
          c ∈ Db.calls_of_lead (Lead.id l) db →
          Call.started_at c = Some started →
          started + timedelta_minutes (Campaign.retry_delay_minutes campaign) ≤ now.
Proof.
  intros Hret.
  destruct (Db.campaign_get campaign_id db) as [campaign|] eqn:Hcampaign.
  2:{ unfold DialerService.get_next_lead in Hret. by rewrite Hcampaign in Hret. }
  pose proof (get_next_lead_Ok _ _ _ _ _ Hcampaign Hret) as Hhead.
  assert (Hin : In l (List.filter (eligible now campaign_id campaign db) (Db.leads db))).
  { destruct (List.filter _ _) as [|l0 rest]; [done|].
    cbn in Hhead. injection Hhead as ->. by left. }
  apply filter_In in Hin as [Hin Hel].
  unfold eligible, is_candidate, DialerService.status_is_dialable in Hel.
  apply andb_prop in Hel as [Hel Hcool]. apply andb_prop in Hel as [Hcand Hleft].
  apply andb_prop in Hcand as [Hcand Hphone]. apply andb_prop in Hcand as [Hcamp Hstatus].
  apply bool_decide_eq_true in Hcamp, Hphone.
  split; [by apply list_elem_of_In|]. split; [done|]. split.
  { apply orb_prop in Hstatus as [Hstatus|Hstatus];
      [apply orb_prop in Hstatus as [Hstatus|Hstatus]|];
      apply bool_decide_eq_true in Hstatus; rewrite Hstatus; repeat constructor. }
  split; [done|]. exists campaign. split; [done|]. split.
  { unfold attempts_left in Hleft. by apply Z.ltb_lt in Hleft. }
  intros c started Hc Hstarted.
  unfold cooled_down in Hcool. rewrite forallb_forall in Hcool.
  specialize (Hcool c (proj1 (list_elem_of_In _ _) Hc)).
  rewrite Hstarted in Hcool. by apply Z.leb_le in Hcool.
Qed.

(** Witness of C5, amended: lead 1 of [called_once_db], asked for exactly
    sixty minutes after its only call started. *)
Lemma returned_lead_passes_filters_witness :
  let l := Lead.mk 1 1 (Some "5550001") "callback" 1 (Some 100000000) None in
  l ∈ Db.leads called_once_db
  ∧ Lead.campaign_id l = 1
  ∧ Lead.status l ∈ ["new"; "callback"; "interested"]
  ∧ Lead.phone_number l ≠ None
  ∧ ∃ campaign,
      Db.campaign_get 1 called_once_db = Some campaign
      ∧ Z.of_nat (length (Db.calls_of_lead (Lead.id l) called_once_db))
        < Campaign.max_attempts campaign
      ∧ ∀ c started,
          c ∈ Db.calls_of_lead (Lead.id l) called_once_db →
          Call.started_at c = Some started →
          started + timedelta_minutes (Campaign.retry_delay_minutes campaign)
          ≤ 3700000000.
Proof.
  apply (returned_lead_passes_filters 3700000000 1 called_once_db
           (Lead.mk 1 1 (Some "5550001") "callback" 1 (Some 100000000) None)).
  vm_compute. reflexivity.
Defined.

(** The cooldown of scenario S3: one second before the sixty minutes are
    over the lead is held back. *)
Example get_next_lead_cooldown_holds :
  DialerService.get_next_lead 3699000000 1 called_once_db = Ok None.
Proof. by vm_compute. Qed.

(** ** Call placement *)

Section Store.

Implicit Types (calls : list Call.t) (c : Call.t) (db : Db.t).

Lemma call_ids_below_next db c :
  In c (Db.calls db) → Call.id c < Db.next_call_id db.
Proof.
  unfold Db.next_call_id. intros Hin.
  assert (Call.id c ≤ fold_right Z.max 0 (List.map Call.id (Db.calls db))); [|lia].
  induction (Db.calls db) as [|x xs IH]; [done|].
  cbn. destruct Hin as [->|Hin]; [lia|]. specialize (IH Hin). lia.
Qed.

Lemma find_call_fresh calls call_id :
  (∀ c, In c calls → Call.id c ≠ call_id) →
  find (fun c => bool_decide (Call.id c = call_id)) calls = None.
Proof.
  intros Hfresh. induction calls as [|x xs IH]; [done|]. cbn.
  rewrite bool_decide_eq_false_2 by (apply Hfresh; by left).
  apply IH. intros c Hc. apply Hfresh. by right.
Qed.

Lemma replace_call_fresh calls c' :
  (∀ c, In c calls → Call.id c ≠ Call.id c') →
  List.map (fun x => if bool_decide (Call.id x = Call.id c') then c' else x) calls
  = calls.
Proof.
  intros Hfresh. induction calls as [|x xs IH]; [done|]. cbn.
  rewrite bool_decide_eq_false_2 by (apply Hfresh; by left).
  f_equal. apply IH. intros c Hc. apply Hfresh. by right.
Qed.

Lemma find_call_app calls calls' call_id :
  find (fun c => bool_decide (Call.id c = call_id)) calls = None →
  find (fun c => bool_decide (Call.id c = call_id)) (app calls calls')
  = find (fun c => bool_decide (Call.id c = call_id)) calls'.
Proof.
  induction calls as [|x xs IH]; [done|]. cbn.
  by destruct (bool_decide (Call.id x = call_id)).
Qed.

(** Reading a row back after it was written. *)
Lemma find_call_replaced calls call_id c0 c' :
  Call.id c' = call_id →
  find (fun c => bool_decide (Call.id c = call_id)) calls = Some c0 →
  find (fun c => bool_decide (Call.id c = call_id))
    (List.map (fun x => if bool_decide (Call.id x = Call.id c') then c' else x) calls)
  = Some c'.
Proof.
  intros <-. induction calls as [|x xs IH]; [done|]. cbn.
  destruct (bool_decide (Call.id x = Call.id c')) eqn:Hx.
  - intros _. by rewrite bool_decide_eq_true_2.
  - rewrite Hx. exact IH.
Qed.

Lemma call_get_id db call_id c :
  Db.call_get call_id db = Some c → Call.id c = call_id.
Proof.
  unfold Db.call_get. intros Hfind. apply find_some in Hfind as [_ Hid].
  by apply bool_decide_eq_true in Hid.
Qed.

(** [originate_call] answers [True] exactly when the action is
    submitted. *)
Lemma originate_call_submitted now send_ok phone agent_channel call_id db s :
  snd (SipService.originate_call now send_ok phone agent_channel call_id db s)
  = originate_submitted send_ok db s.
Proof.
  unfold SipService.originate_call, originate_submitted.
  destruct (Db.active_configuration db) as [cfg|]; [|done].
  destruct (SipService.ami_clients s !! SipConfiguration.id cfg) as [client|]; [|done].
  unfold AsteriskAMIClient.originate_call, AsteriskAMIClient.send_action.
  destruct (AsteriskAMIClient.authenticated client); [|done].
  cbn [negb andb]. by destruct send_ok.
Qed.

End Store.

(** C6.  When the [Originate] action cannot be submitted, [initiate_call]
    returns [None]; the call row it created stays in the store, after the
    rows that were there, with status [failed]; the agent is [available]
    again with no current call; and no lead row has changed, so
    [last_contacted] is as it was. *)
Theorem initiate_call_failed_submission
    (now : datetime) (send_ok : bool) (campaign_id lead_id agent_id : Z)
    (w : World.t) (lead : Lead.t) (phone : string) :
  Db.lead_get lead_id (World.db w) = Some lead →
  Lead.phone_number lead = Some phone →
  originate_submitted send_ok (World.db w) (World.sip w) = false →
  let r := World.initiate_call now send_ok campaign_id lead_id agent_id w in
  let call_id := Db.next_call_id (World.db w) in
  let failed_call :=
    Call.mk call_id lead_id campaign_id (Some agent_id) phone "outbound" "failed"
      (Some now) None None None in
  snd r = None
  ∧ Db.calls (World.db (fst r)) = app (Db.calls (World.db w)) [failed_call]
  ∧ Db.call_get call_id (World.db w) = None
  ∧ Db.call_get call_id (World.db (fst r)) = Some failed_call
  ∧ (∃ a, World.agent_statuses (fst r) !! agent_id = Some a
          ∧ AgentStatus.status a = "available"
          ∧ AgentStatus.current_call_id a = None
          ∧ AgentStatus.last_call_end a = Some now)
  ∧ Db.leads (World.db (fst r)) = Db.leads (World.db w).
Proof.
  intros Hlead Hphone Hfail. cbn zeta.
  assert (Hfresh : ∀ c, In c (Db.calls (World.db w)) →
                        Call.id c ≠ Db.next_call_id (World.db w)).
  { intros c Hc. pose proof (call_ids_below_next _ _ Hc). lia. }
  unfold World.initiate_call. rewrite Hlead, Hphone.
  match goal with
  | |- context [SipService.originate_call ?a ?b ?c ?d ?e ?f ?g] =>
      pose proof (originate_call_submitted a b c d e f g) as Hsub;
      destruct (SipService.originate_call a b c d e f g) as [sip1 submitted]
  end.
  cbn [snd] in Hsub.
  change (submitted = originate_submitted send_ok (World.db w) (World.sip w)) in Hsub.
  rewrite Hfail in Hsub. subst submitted. cbn [fst snd World.db].
  assert (Hcalls :
    Db.calls
      (Db.update_call
         (Call.set_call_status "failed"
            (Call.mk (Db.next_call_id (World.db w)) lead_id campaign_id
               (Some agent_id) phone "outbound" "initiated" (Some now) None None None))
         (Db.set_calls
            (app (Db.calls (World.db w))
               [Call.mk (Db.next_call_id (World.db w)) lead_id campaign_id
                  (Some agent_id) phone "outbound" "initiated" (Some now) None None
                  None])
            (World.db w)))
    = app (Db.calls (World.db w))
        [Call.mk (Db.next_call_id (World.db w)) lead_id campaign_id (Some agent_id)
           phone "outbound" "failed" (Some now) None None None]).
  { cbn. rewrite List.map_app. f_equal.
    - by apply (replace_call_fresh _
                  (Call.mk (Db.next_call_id (World.db w)) lead_id campaign_id
                     (Some agent_id) phone "outbound" "failed" (Some now) None None
                     None)).
    - cbn. by rewrite bool_decide_eq_true_2. }
  split; [done|]. split; [exact Hcalls|]. split.
  { by apply find_call_fresh. }
  split.
  { unfold Db.call_get. rewrite Hcalls, find_call_app by (by apply find_call_fresh).
    cbn. by rewrite bool_decide_eq_true_2. }
  split; [|done].
  unfold World.agent_statuses at 1. cbn [World.dialer DialerService.set_agent_statuses
    DialerService.agent_statuses].
  rewrite update_agent_status_lookup_eq. cbn zeta. cbn [truthy_int].
  rewrite bool_decide_eq_true_2 by done.
  eexists. split; [done|].
  by destruct (DialerService.update_agent_status _ _ _ _ _ !! agent_id).
Qed.

(** Witness of C6: with no SIP configuration switched on, placing a call to
    lead 1 for agent 7 leaves call 1 behind as [failed]. *)
Lemma initiate_call_failed_submission_witness :
  let r := World.initiate_call 1000000 true 1 1 7 no_trunk_world in
  snd r = None
  ∧ Db.call_get 1 (World.db (fst r))
    = Some (Call.mk 1 1 1 (Some 7) "5551234" "outbound" "failed" (Some 1000000)
              None None None)
  ∧ World.agent_statuses (fst r) !! 7
    = Some (AgentStatus.mk 7 "available" None (Some 1000000) 0 0)
  ∧ Db.leads (World.db (fst r)) = Db.leads (World.db no_trunk_world).
Proof.
  pose proof (initiate_call_failed_submission 1000000 true 1 1 7 no_trunk_world
                (Lead.mk 1 1 (Some "5551234") "new" 1 None None) "5551234"
                eq_refl eq_refl eq_refl) as H.
  cbn zeta in H. destruct H as (Hnone & _ & _ & Hget & _ & Hleads).
  split; [exact Hnone|]. split; [exact Hget|]. split; [|exact Hleads].
  vm_compute. reflexivity.
Defined.

(** [last_contacted] moves only when the action was submitted: whenever
    [initiate_call] returns [None], the lead rows are what they were. *)
Lemma initiate_call_none_keeps_leads
    (now : datetime) (send_ok : bool) (campaign_id lead_id agent_id : Z) (w : World.t) :
  snd (World.initiate_call now send_ok campaign_id lead_id agent_id w) = None →
  Db.leads (World.db (fst (World.initiate_call now send_ok campaign_id lead_id
                             agent_id w)))
  = Db.leads (World.db w).
Proof.
  unfold World.initiate_call.
  destruct (Db.lead_get lead_id (World.db w)) as [lead|]; [|done].
  destruct (Lead.phone_number lead) as [phone|]; [|done].
  destruct (SipService.originate_call _ _ _ _ _ _ _) as [sip1 submitted].
  by destruct submitted.
Qed.

(** A submitted call: the row stays [initiated], the agent is [on_call]
    with it, and the lead is stamped. *)
Example initiate_call_submitted :
  let r := World.initiate_call 1000000 true 1 1 7 (Engine.initial ready_db ready_sip) in
  snd r = Some 1
  ∧ Db.call_get 1 (World.db (fst r))
    = Some (Call.mk 1 1 1 (Some 7) "5551234" "outbound" "initiated" (Some 1000000)
              None None None)
  ∧ World.agent_statuses (fst r) !! 7
    = Some (AgentStatus.mk 7 "on_call" (Some 1) None 0 0)
  ∧ Db.lead_get 1 (World.db (fst r))
    = Some (Lead.mk 1 1 (Some "5551234") "new" 1 (Some 1000000) None).
Proof. by vm_compute. Qed.

(** A socket write that fails is a failed submission too. *)
Example initiate_call_socket_error :
  let r := World.initiate_call 1000000 false 1 1 7 (Engine.initial ready_db ready_sip) in
  snd r = None
  ∧ Db.call_get 1 (World.db (fst r))
    = Some (Call.mk 1 1 1 (Some 7) "5551234" "outbound" "failed" (Some 1000000)
              None None None)
  ∧ World.agent_statuses (fst r) !! 7
    = Some (AgentStatus.mk 7 "available" None (Some 1000000) 0 0).
Proof. by vm_compute. Qed.

(** ** Reconciling a hangup *)

(** Counterexample to C4 as stated: call 1 is in flight for agent 7; after
    the [Hangup] for its channel the agent is still [on_call] with call 1,
    as nothing in the handler writes to the agent registry. *)
Lemma hangup_leaves_agent_on_call :
  World.agent_statuses (World.handle_hangup 43000000 hangup_event in_flight_world) !! 7
  = Some (AgentStatus.mk 7 "on_call" (Some 1) None 0 0)
  ∧ ¬ spec_hangup_reconciles 43000000 hangup_event in_flight_world 1.
Proof.
  split; [by vm_compute|].
  intros Hspec.
  edestruct (Hspec "SIP/trunk/5551234") as (_ & (a & Ha & Hstatus) & _);
    [by vm_compute ..|].
  assert (Hrun :
    World.agent_statuses (World.handle_hangup 43000000 hangup_event in_flight_world)
      !! 7
    = Some (AgentStatus.mk 7 "on_call" (Some 1) None 0 0)) by (by vm_compute).
  rewrite Hrun in Ha. injection Ha as <-. discriminate Hstatus.
Qed.

(** C4, amended.  Let the event name a channel, let [call_id] be the first
    call in flight with that channel and let its row exist.  Processing the
    [Hangup] sets the row's status to [completed] and [ended_at] to now,
    sets the duration to the whole seconds between [started_at] and now
    when [started_at] is set, appends a [hangup] call event, drops the call
    from the calls in flight and calls every registered callback once with
    [call_ended]; the dialer service, and with it every agent's status, is
    left as it was.  If no other call in flight has the channel, processing
    the same event again changes nothing, so there is one transition and
    one broadcast in total. *)
Theorem hangup_completes_call
    (now : datetime) (event : message) (w : World.t) (ch : string)
    (call_id : Z) (info : SipService.call_info) (call : Call.t) :
  event !! "Channel" = Some ch →
  ch ≠ "" →
  SipService.find_by_channel ch (SipService.active_calls (World.sip w))
  = Some (call_id, info) →
  Db.call_get call_id (World.db w) = Some call →
  let w' := World.handle_hangup now event w in
  (∃ call',
     Db.call_get call_id (World.db w') = Some call'
     ∧ Call.call_status call' = "completed"
     ∧ Call.ended_at call' = Some now
     ∧ Call.started_at call' = Call.started_at call
     ∧ Call.duration_seconds call'
       = match Call.started_at call with
         | Some started => Some ((now - started) ÷ 1000000)
         | None => Call.duration_seconds call
         end)
  ∧ Db.call_events (World.db w')
    = app (Db.call_events (World.db w))
        [CallEvent.set_event_data event (CallEvent.mk call_id "hangup" None now)]
  ∧ SipService.active_calls (World.sip w')
    = dict_del call_id (SipService.active_calls (World.sip w))
  ∧ SipService.delivered (World.sip w')
    = app (SipService.delivered (World.sip w))
        (List.map
           (fun cb => SipService.mk_notification cb "call_ended" call_id event)
           (SipService.event_callbacks (World.sip w)))
  ∧ World.dialer w' = World.dialer w
  ∧ (SipService.find_by_channel ch
       (dict_del call_id (SipService.active_calls (World.sip w))) = None →
     ∀ now', World.handle_hangup now' event w' = w').
Proof.
  intros Hch Hne Hfind Hcall. cbn zeta.
  assert (Htruthy : truthy_str (event !! "Channel") = true).
  { rewrite Hch. cbn. by rewrite bool_decide_eq_false_2. }
  assert (Hstep :
    World.handle_hangup now event w
    = World.mk
        (Db.set_call_events
           (app (Db.call_events (World.db w))
              [CallEvent.set_event_data event (CallEvent.mk call_id "hangup" None now)])
           (Db.update_call
              (Call.calculate_duration
                 (Call.set_ended_at (Some now) (Call.set_call_status "completed" call)))
              (World.db w)))
        (World.dialer w)
        (SipService._notify_event_callbacks "call_ended" call_id event
           (SipService.set_active_calls
              (dict_del call_id (SipService.active_calls (World.sip w)))
              (World.sip w)))).
  { unfold World.handle_hangup, SipService._handle_hangup.
    rewrite Htruthy, Hch. change (default "" (Some ch)) with ch.
    by rewrite Hfind, Hcall. }
  rewrite Hstep. cbn [World.db World.sip World.dialer].
  split.
  { eexists. split.
    - unfold Db.call_get, Db.set_call_events, Db.update_call, Db.set_calls.
      cbn [Db.calls]. apply (find_call_replaced _ _ call); [|exact Hcall].
      rewrite <- (call_get_id _ _ _ Hcall).
      unfold Call.calculate_duration. cbn.
      by destruct (Call.started_at call).
    - destruct call as [? ? ? ? ? ? ? [started|] ? ? ?]; by cbn. }
  split; [done|]. split; [done|]. split; [done|]. split; [done|].
  intros Hgone now'.
  unfold World.handle_hangup, SipService._handle_hangup.
  rewrite Htruthy, Hch. change (default "" (Some ch)) with ch.
  cbn [World.sip World.db].
  unfold SipService._notify_event_callbacks, SipService.set_delivered,
    SipService.set_active_calls.
  cbn [SipService.active_calls]. by rewrite Hgone.
Qed.

(** Witness of C4, amended: the hangup of call 1, forty-two seconds after
    it started. *)
Lemma hangup_completes_call_witness :
  let w' := World.handle_hangup 43000000 hangup_event in_flight_world in
  Db.call_get 1 (World.db w')
  = Some (Call.mk 1 1 1 (Some 7) "5551234" "outbound" "completed" (Some 1000000)
            None (Some 43000000) (Some 42))
  ∧ SipService.active_calls (World.sip w') = []
  ∧ SipService.delivered (World.sip w')
    = [SipService.mk_notification 0 "call_ended" 1 hangup_event]
  ∧ World.dialer w' = World.dialer in_flight_world
  ∧ World.handle_hangup 44000000 hangup_event w' = w'.
Proof.
  pose proof (hangup_completes_call 43000000 hangup_event in_flight_world
                "SIP/trunk/5551234" 1
                (SipService.mk_call_info "SIP/trunk/5551234" "5551234" "Agent/7"
                   "action_1_1" 1000000)
                (Call.mk 1 1 1 (Some 7) "5551234" "outbound" "initiated"
                   (Some 1000000) None None None)
                eq_refl ltac:(discriminate) eq_refl eq_refl) as H.
  cbn zeta in H. destruct H as (_ & _ & Hactive & Hdelivered & Hdialer & Hreplay).
  split; [by vm_compute|]. split; [exact Hactive|]. split; [exact Hdelivered|].
  split; [exact Hdialer|]. apply Hreplay. reflexivity.
Defined.

(** * Further properties of the code *)

(** ** The AMI session: actions, waiters and subscribers *)

Section Session.

Context {H : Type}.
Implicit Types (c : AsteriskAMIClient.t H) (h : H) (msg : message).

(** What a successful [send_action] leaves behind. *)
Lemma send_action_Ok now send_ok action parameters callback c action_id :
  snd (AsteriskAMIClient.send_action now send_ok action parameters callback c)
  = Ok action_id →
  AsteriskAMIClient.authenticated c = true
  ∧ send_ok = true
  ∧ action_id = snd (AsteriskAMIClient._get_action_id now c)
  ∧ AsteriskAMIClient.response_handlers
      (fst (AsteriskAMIClient.send_action now send_ok action parameters callback c))
    = match callback with
      | Some h => <[action_id := h]> (AsteriskAMIClient.response_handlers c)
      | None => AsteriskAMIClient.response_handlers c
      end
  ∧ AsteriskAMIClient.event_handlers
      (fst (AsteriskAMIClient.send_action now send_ok action parameters callback c))
    = AsteriskAMIClient.event_handlers c
  ∧ AsteriskAMIClient.action_id_counter
      (fst (AsteriskAMIClient.send_action now send_ok action parameters callback c))
    = AsteriskAMIClient.action_id_counter c + 1.
Proof.
  unfold AsteriskAMIClient.send_action.
  destruct (AsteriskAMIClient.authenticated c); [|done]. cbn [negb].
  unfold AsteriskAMIClient._get_action_id.
  destruct send_ok; [|done]. cbn [fst snd]. intros [= <-].
  by destruct callback.
Qed.

End Session.

(** X1.  The waiter given to [send_action] is completed by the response
    that echoes the action id, and only once: a message without [Event]
    whose [ActionID] is the id that [send_action] returned invokes exactly
    that callback and unregisters it, and the same message delivered again
    invokes nothing. *)
Theorem response_completes_waiter_once {H : Type}
    (now : datetime) (send_ok : bool) (action : string)
    (parameters : list (string * string)) (h : H) (c : AsteriskAMIClient.t H)
    (action_id : string) (msg : message) :
  snd (AsteriskAMIClient.send_action now send_ok action parameters (Some h) c)
  = Ok action_id →
  msg !! "Event" = None →
  msg !! "ActionID" = Some action_id →
  let c1 := fst (AsteriskAMIClient.send_action now send_ok action parameters (Some h) c) in
  let r := AsteriskAMIClient._handle_message msg c1 in
  snd r = [AsteriskAMIClient.Invoke h msg]
  ∧ AsteriskAMIClient.response_handlers (fst r) !! action_id = None
  ∧ AsteriskAMIClient._handle_message msg (fst r) = (fst r, []).
Proof.
  intros Hsend Hevent Hid. cbn zeta.
  destruct (send_action_Ok _ _ _ _ _ _ _ Hsend) as (_ & _ & _ & Hwaiters & _).
  set (c1 := fst (AsteriskAMIClient.send_action now send_ok action parameters
                    (Some h) c)) in *.
  assert (Hfirst :
    AsteriskAMIClient._handle_message msg c1
    = (AsteriskAMIClient.set_response_handlers
         (delete action_id (AsteriskAMIClient.response_handlers c1)) c1,
       [AsteriskAMIClient.Invoke h msg])).
  { unfold AsteriskAMIClient._handle_message.
    by rewrite Hevent, Hid, Hwaiters, lookup_insert_eq. }
  rewrite Hfirst. cbn [fst snd AsteriskAMIClient.response_handlers
    AsteriskAMIClient.set_response_handlers].
  split; [done|]. split; [apply lookup_delete_eq|].
  unfold AsteriskAMIClient._handle_message.
  cbn [AsteriskAMIClient.response_handlers AsteriskAMIClient.set_response_handlers].
  by rewrite Hevent, Hid, lookup_delete_eq.
Qed.

(** Witness of X1: the response to the first action of [ready_client]. *)
Lemma response_completes_waiter_once_witness :
  let c1 :=
    fst (AsteriskAMIClient.send_action 1000000 true "Status"
           [("Channel", "SIP/trunk/5551234")]
           (Some (SipService.cb_handle_hangup_response 4)) ready_client) in
  let r := AsteriskAMIClient._handle_message status_response c1 in
  snd r = [AsteriskAMIClient.Invoke (SipService.cb_handle_hangup_response 4)
             status_response]
  ∧ AsteriskAMIClient.response_handlers (fst r) !! "action_1_1" = None
  ∧ AsteriskAMIClient._handle_message status_response (fst r) = (fst r, []).
Proof.
  apply (response_completes_waiter_once 1000000 true "Status"
           [("Channel", "SIP/trunk/5551234")]
           (SipService.cb_handle_hangup_response 4) ready_client "action_1_1"
           status_response).
  - vm_compute. reflexivity.
  - vm_compute. reflexivity.
  - vm_compute. reflexivity.
Defined.

(** X2.  Subscribers are called in the order in which they registered: a
    handler registered for an event is invoked after the handlers that were
    there, and registering it changes nothing for messages of another
    event. *)
Theorem handlers_run_in_registration_order {H : Type}
    (c : AsteriskAMIClient.t H) (event_type : string) (h : H) (msg : message) :
  msg !! "Event" = Some event_type →
  snd (AsteriskAMIClient._handle_message msg
         (AsteriskAMIClient.register_event_handler event_type h c))
  = app (snd (AsteriskAMIClient._handle_message msg c))
      [AsteriskAMIClient.Invoke h msg]
  ∧ ∀ other msg',
      other ≠ event_type →
      msg' !! "Event" = Some other →
      snd (AsteriskAMIClient._handle_message msg'
             (AsteriskAMIClient.register_event_handler event_type h c))
      = snd (AsteriskAMIClient._handle_message msg' c).
Proof.
  intros Hevent.
  assert (Hreg :
    AsteriskAMIClient.event_handlers
      (AsteriskAMIClient.register_event_handler event_type h c)
    = <[event_type :=
          app (default [] (AsteriskAMIClient.event_handlers c !! event_type)) [h]]>
        (AsteriskAMIClient.event_handlers c)).
  { unfold AsteriskAMIClient.register_event_handler.
    by destruct (AsteriskAMIClient.event_handlers c !! event_type). }
  split.
  - unfold AsteriskAMIClient._handle_message.
    rewrite Hevent, Hreg, lookup_insert_eq. cbn [snd].
    destruct (AsteriskAMIClient.event_handlers c !! event_type) as [hs|];
      cbn [snd default]; [|done].
    by rewrite List.map_app.
  - intros other msg' Hother Hevent'.
    unfold AsteriskAMIClient._handle_message.
    rewrite Hevent', Hreg, lookup_insert_ne by done.
    by destruct (AsteriskAMIClient.event_handlers c !! other).
Qed.

(** Witness of X2: a second [Hangup] subscriber on [waiting_client]. *)
Lemma handlers_run_in_registration_order_witness :
  snd (AsteriskAMIClient._handle_message hangup_event
         (AsteriskAMIClient.register_event_handler "Hangup"
            SipService.cb_handle_dial_end waiting_client))
  = [AsteriskAMIClient.Invoke SipService.cb_handle_hangup hangup_event;
     AsteriskAMIClient.Invoke SipService.cb_handle_dial_end hangup_event].
Proof.
  rewrite (proj1 (handlers_run_in_registration_order waiting_client "Hangup"
                    SipService.cb_handle_dial_end hangup_event eq_refl)).
  vm_compute. reflexivity.
Defined.

(** X3.  A [send_action] whose socket write fails raises, and yet it has
    used up an action id and left its waiter registered under it: nothing
    was sent, the counter has advanced, and the callback sits in
    [response_handlers] where no response will ever collect it. *)
Theorem failed_send_leaves_waiter {H : Type}
    (now : datetime) (action : string) (parameters : list (string * string))
    (h : H) (c : AsteriskAMIClient.t H) :
  AsteriskAMIClient.authenticated c = true →
  let r := AsteriskAMIClient.send_action now false action parameters (Some h) c in
  snd r = Raise SocketError
  ∧ AsteriskAMIClient.sent (fst r) = AsteriskAMIClient.sent c
  ∧ AsteriskAMIClient.action_id_counter (fst r)
    = AsteriskAMIClient.action_id_counter c + 1
  ∧ AsteriskAMIClient.response_handlers (fst r)
      !! snd (AsteriskAMIClient._get_action_id now c) = Some h.
Proof.
  intros Hauth. cbn zeta. unfold AsteriskAMIClient.send_action.
  rewrite Hauth. cbn. by rewrite lookup_insert_eq.
Qed.

(** Witness of X3 on [ready_client]. *)
Lemma failed_send_leaves_waiter_witness :
  let r :=
    AsteriskAMIClient.send_action 1000000 false "Hangup"
      [("Channel", "SIP/trunk/5551234")]
      (Some (SipService.cb_handle_hangup_response 4)) ready_client in
  snd r = Raise SocketError
  ∧ AsteriskAMIClient.sent (fst r) = AsteriskAMIClient.sent ready_client
  ∧ AsteriskAMIClient.action_id_counter (fst r)
    = AsteriskAMIClient.action_id_counter ready_client + 1
  ∧ AsteriskAMIClient.response_handlers (fst r)
      !! snd (AsteriskAMIClient._get_action_id 1000000 ready_client)
    = Some (SipService.cb_handle_hangup_response 4).
Proof.
  apply (failed_send_leaves_waiter 1000000 "Hangup"
           [("Channel", "SIP/trunk/5551234")]
           (SipService.cb_handle_hangup_response 4) ready_client).
  reflexivity.
Defined.

(** ** Action ids *)

Section ActionIds.

Lemma pretty_N_char_not_underscore (x : N) :
  Ascii.eqb (pretty_N_char x) underscore = false.
Proof. unfold pretty_N_char. by repeat case_match. Qed.

Lemma pretty_N_go_no_underscore (x : N) (s : string) :
  contains_char underscore s = false →
  contains_char underscore (pretty_N_go x s) = false.
Proof.
  revert s. induction (N.lt_wf_0 x) as [x _ IH]; intros s Hs.
  assert (x = 0 ∨ 0 < x)%N as [->|Hpos] by lia.
  - by rewrite pretty_N_go_0.
  - rewrite pretty_N_go_step by done. apply IH.
    + by apply N.div_lt.
    + cbn [contains_char]. by rewrite pretty_N_char_not_underscore, Hs.
Qed.

Lemma pretty_N_no_underscore (x : N) :
  contains_char underscore (pretty x) = false.
Proof.
  unfold pretty, pretty_N. case_decide; [done|].
  by apply pretty_N_go_no_underscore.
Qed.

(** A rendered integer has no underscore in it. *)
Lemma pretty_Z_no_underscore (z : Z) :
  contains_char underscore (pretty z) = false.
Proof.
  destruct z as [|p|p]; [done| |].
  - apply (pretty_N_no_underscore (N.pos p)).
  - change (pretty (Z.neg p)) with ("-" +:+ pretty (N.pos p)).
    cbn [String.append contains_char]. apply (pretty_N_no_underscore (N.pos p)).
Qed.

(** The text before the first underscore is determined by the whole. *)
Lemma prefix_before_underscore (s1 s2 t1 t2 : string) :
  contains_char underscore s1 = false →
  contains_char underscore s2 = false →
  s1 +:+ String underscore t1 = s2 +:+ String underscore t2 →
  s1 = s2.
Proof.
  revert s2. induction s1 as [|a s1 IH]; intros [|b s2]; cbn; intros H1 H2 Heq.
  - done.
  - injection Heq as <- _. apply orb_false_elim in H2 as [H2 _].
    by rewrite Ascii.eqb_refl in H2.
  - injection Heq as -> _. apply orb_false_elim in H1 as [H1 _].
    by rewrite Ascii.eqb_refl in H1.
  - injection Heq as -> Heq.
    apply orb_false_elim in H1 as [_ H1]. apply orb_false_elim in H2 as [_ H2].
    f_equal. by apply IH.
Qed.

(** The id [_get_action_id] issues determines the counter it was issued
    at, whatever the clock. *)
Lemma action_id_determines_counter {H : Type} (now1 now2 : datetime)
    (c1 c2 : AsteriskAMIClient.t H) :
  snd (AsteriskAMIClient._get_action_id now1 c1)
  = snd (AsteriskAMIClient._get_action_id now2 c2) →
  AsteriskAMIClient.action_id_counter c1 = AsteriskAMIClient.action_id_counter c2.
Proof.
  unfold AsteriskAMIClient._get_action_id. cbn [snd]. intros Heq.
  cbn [String.append] in Heq. injection Heq as Heq.
  apply prefix_before_underscore in Heq; [|apply pretty_Z_no_underscore ..].
  apply (inj pretty) in Heq. lia.
Qed.

End ActionIds.

(** X4.  Two actions sent one after the other get different ids, whatever
    the clock reads, so the second never takes the place of the first
    waiter: after both sends each callback is registered under its own
    id. *)
Theorem successive_actions_keep_both_waiters {H : Type}
    (now1 now2 : datetime) (ok1 ok2 : bool) (action1 action2 : string)
    (parameters1 parameters2 : list (string * string)) (h1 h2 : H)
    (c : AsteriskAMIClient.t H) (id1 id2 : string) :
  snd (AsteriskAMIClient.send_action now1 ok1 action1 parameters1 (Some h1) c)
  = Ok id1 →
  snd (AsteriskAMIClient.send_action now2 ok2 action2 parameters2 (Some h2)
         (fst (AsteriskAMIClient.send_action now1 ok1 action1 parameters1 (Some h1) c)))
  = Ok id2 →
  let c2 :=
    fst (AsteriskAMIClient.send_action now2 ok2 action2 parameters2 (Some h2)
           (fst (AsteriskAMIClient.send_action now1 ok1 action1 parameters1
                   (Some h1) c))) in
  id1 ≠ id2
  ∧ AsteriskAMIClient.response_handlers c2 !! id1 = Some h1
  ∧ AsteriskAMIClient.response_handlers c2 !! id2 = Some h2.
Proof.
  intros Hsend1 Hsend2. cbn zeta.
  destruct (send_action_Ok _ _ _ _ _ _ _ Hsend1) as (_ & _ & Hid1 & Hw1 & _ & Hn1).
  destruct (send_action_Ok _ _ _ _ _ _ _ Hsend2) as (_ & _ & Hid2 & Hw2 & _ & _).
  assert (Hne : id1 ≠ id2).
  { intros Heq. rewrite Hid1, Hid2 in Heq.
    apply action_id_determines_counter in Heq. lia. }
  split; [done|]. rewrite Hw2, Hw1. split.
  - rewrite lookup_insert_ne by done. apply lookup_insert_eq.
  - apply lookup_insert_eq.
Qed.

(** Witness of X4: two actions within the same second. *)
Lemma successive_actions_keep_both_waiters_witness :
  let c2 :=
    fst (AsteriskAMIClient.send_action 1000000 true "Hangup" []
           (Some (SipService.cb_handle_hangup_response 5))
           (fst (AsteriskAMIClient.send_action 1000000 true "Status" []
                   (Some (SipService.cb_handle_hangup_response 4)) ready_client))) in
  "action_1_1" ≠ "action_2_1"
  ∧ AsteriskAMIClient.response_handlers c2 !! "action_1_1"
    = Some (SipService.cb_handle_hangup_response 4)
  ∧ AsteriskAMIClient.response_handlers c2 !! "action_2_1"
    = Some (SipService.cb_handle_hangup_response 5).
Proof.
  apply (successive_actions_keep_both_waiters 1000000 1000000 true true
           "Status" "Hangup" [] []
           (SipService.cb_handle_hangup_response 4)
           (SipService.cb_handle_hangup_response 5) ready_client).
  - vm_compute. reflexivity.
  - vm_compute. reflexivity.
Defined.

(** ** The parameters of an Originate *)

Section OriginateParameters.

Implicit Types (ps : list (string * string)) (kv : string * string).

(** Writing the key [Variable] leaves exactly one entry under it when
    there was at most one. *)
Lemma dict_set_variable ps x :
  (length (List.filter is_variable ps) ≤ 1)%nat →
  List.filter is_variable (dict_set "Variable" x ps) = [("Variable", x)].
Proof.
  induction ps as [|[k v] rest IH]; cbn [dict_set List.filter]; intros Hlen.
  - done.
  - unfold is_variable at 1 in Hlen. cbn [fst] in Hlen.
    destruct (decide (k = "Variable")) as [->|Hk].
    + rewrite bool_decide_eq_true_2 in Hlen by done. cbn [length] in Hlen.
      cbn [List.filter]. unfold is_variable at 1. cbn [fst].
      rewrite bool_decide_eq_true_2 by done.
      destruct (List.filter is_variable rest); [done|]. cbn in Hlen. lia.
    + rewrite bool_decide_eq_false_2 in Hlen by done.
      cbn [List.filter]. unfold is_variable at 1. cbn [fst].
      rewrite bool_decide_eq_false_2 by done. by apply IH.
Qed.

Lemma fold_dict_set_variable (variables : list (string * string)) ps :
  (length (List.filter is_variable ps) ≤ 1)%nat →
  (length
     (List.filter is_variable
        (fold_left (fun qs kv => dict_set "Variable" (fst kv +:+ "=" +:+ snd kv) qs)
           variables ps)) ≤ 1)%nat.
Proof.
  revert ps. induction variables as [|kv rest IH]; intros ps Hlen; [done|].
  cbn [fold_left]. apply IH. by rewrite dict_set_variable.
Qed.

End OriginateParameters.

(** X5.  Of the channel variables handed to [originate_call] only the
    last one goes out: each is written under the one key [Variable], so
    the action built has a single [Variable] entry, that of the last
    variable of the dict. *)
Theorem originate_sends_last_variable_only {H : Type}
    (now : datetime) (send_ok : bool) (channel context extension : string)
    (priority : Z) (caller_id : option string)
    (variables : list (string * string)) (callback : option H)
    (c : AsteriskAMIClient.t H) (k v : string) :
  last variables = Some (k, v) →
  AsteriskAMIClient.originate_call now send_ok channel context extension priority
    caller_id variables callback c
  = AsteriskAMIClient.send_action now send_ok "Originate"
      (AsteriskAMIClient.originate_parameters channel context extension priority
         caller_id variables) callback c
  ∧ List.filter is_variable
      (AsteriskAMIClient.originate_parameters channel context extension priority
         caller_id variables)
    = [("Variable", k +:+ "=" +:+ v)].
Proof.
  intros Hlast. split; [done|].
  unfold AsteriskAMIClient.originate_parameters. cbn zeta.
  destruct variables as [|kv rest _] using rev_ind; [done|].
  rewrite last_snoc in Hlast. injection Hlast as ->.
  rewrite fold_left_app. cbn [fold_left fst snd].
  apply dict_set_variable, fold_dict_set_variable.
  destruct (truthy_str caller_id); vm_compute; lia.
Qed.

(** Witness of X5: the three variables [SipService.originate_call] passes
    for call 1. *)
Lemma originate_sends_last_variable_only_witness :
  List.filter is_variable
    (AsteriskAMIClient.originate_parameters "SIP/trunk/5551234" "default" "5551234" 1
       (Some "<5551234>")
       [("CALL_ID", "1"); ("AGENT_CHANNEL", "Agent/7"); ("PHONE_NUMBER", "5551234")])
  = [("Variable", "PHONE_NUMBER=5551234")].
Proof.
  apply (originate_sends_last_variable_only (H := SipService.callback) 1000000 true
           "SIP/trunk/5551234" "default" "5551234" 1 (Some "<5551234>")
           [("CALL_ID", "1"); ("AGENT_CHANNEL", "Agent/7"); ("PHONE_NUMBER", "5551234")]
           None ready_client "PHONE_NUMBER" "5551234").
  reflexivity.
Defined.

(** ** The reconciler: dial end, then hangup *)

Section DialEnd.

Implicit Types (db : Db.t) (s : SipService.t) (event : message) (call : Call.t).

(** What [_handle_dial_end] does once the call and its row are found. *)
Lemma handle_dial_end_found now event db s ch call_id info call :
  event !! "Channel" = Some ch →
  SipService.find_by_channel ch (SipService.active_calls s) = Some (call_id, info) →
  Db.call_get call_id db = Some call →
  SipService._handle_dial_end now event db s
  = (SipService.record_event call_id
       (if bool_decide (event !! "DialStatus" = Some "ANSWER")
        then Call.set_answered_at (Some now)
               (Call.set_call_status
                  (SipService.dial_end_status (event !! "DialStatus")) call)
        else Call.set_ended_at (Some now)
               (Call.set_call_status
                  (SipService.dial_end_status (event !! "DialStatus")) call))
       "dial_end" now event db,
     SipService._notify_event_callbacks "dial_end" call_id event
       (if bool_decide (event !! "DialStatus" = Some "ANSWER") then s
        else SipService.set_active_calls
               (dict_del call_id (SipService.active_calls s)) s)).
Proof.
  intros Hch Hfind Hcall. unfold SipService._handle_dial_end.
  rewrite Hch. cbn [SipService.find_by_optional_channel]. by rewrite Hfind, Hcall.
Qed.

(** Reading back the row a handler has written. *)
Lemma call_get_record_event call_id call call' kind now event db :
  Db.call_get call_id db = Some call →
  Call.id call' = Call.id call →
  Db.call_get call_id (SipService.record_event call_id call' kind now event db)
  = Some call'.
Proof.
  intros Hcall Hid. unfold SipService.record_event, Db.call_get, Db.set_call_events,
    Db.update_call, Db.set_calls. cbn [Db.calls].
  apply (find_call_replaced _ _ call); [|exact Hcall].
  rewrite Hid. by apply (call_get_id db).
Qed.


End DialEnd.



(** X7.  A call that was answered and then hung up no longer counts as
    answered.  After [DialEnd] with [ANSWER] at [t1] and the [Hangup] of
    the channel at [t2], the row keeps [answered_at = t1] but its status is
    [completed]; the predictive history, which goes by the status alone,
    records it as [not_answered]. *)
Theorem answered_call_counts_unanswered_after_hangup
    (t1 t2 : datetime) (event hangup : message) (db : Db.t) (s : SipService.t)
    (ch : string) (call_id : Z) (info : SipService.call_info) (call : Call.t) :
  ch ≠ "" →
  event !! "Channel" = Some ch →
  event !! "DialStatus" = Some "ANSWER" →
  hangup !! "Channel" = Some ch →
  SipService.find_by_channel ch (SipService.active_calls s) = Some (call_id, info) →
  Db.call_get call_id db = Some call →
  let r1 := SipService._handle_dial_end t1 event db s in
  let r2 := SipService._handle_hangup t2 hangup (fst r1) (snd r1) in
  (∃ answered,
     Db.call_get call_id (fst r1) = Some answered
     ∧ PredictiveDialer.outcome (PredictiveDialer.entry_of_call answered) = "answered")
  ∧ ∃ completed,
      Db.call_get call_id (fst r2) = Some completed
      ∧ Call.answered_at completed = Some t1
      ∧ Call.ended_at completed = Some t2
      ∧ Call.call_status completed = "completed"
      ∧ PredictiveDialer.outcome (PredictiveDialer.entry_of_call completed)
        = "not_answered".
Proof.
  intros Hne Hch Hstatus Hhch Hfind Hcall. cbn zeta.
  rewrite (handle_dial_end_found _ _ _ _ _ _ _ _ Hch Hfind Hcall).
  rewrite Hstatus. rewrite bool_decide_eq_true_2 by done. cbn [fst snd].
  set (answered :=
    Call.set_answered_at (Some t1)
      (Call.set_call_status (SipService.dial_end_status (Some "ANSWER")) call)).
  assert (Hrow :
    Db.call_get call_id
      (SipService.record_event call_id answered "dial_end" t1 event db)
    = Some answered) by (by apply (call_get_record_event _ call)).
  split; [by exists answered|].
  assert (Hstep :
    SipService._handle_hangup t2 hangup
      (SipService.record_event call_id answered "dial_end" t1 event db)
      (SipService._notify_event_callbacks "dial_end" call_id event s)
    = (SipService.record_event call_id
         (Call.calculate_duration
            (Call.set_ended_at (Some t2) (Call.set_call_status "completed" answered)))
         "hangup" t2 hangup
         (SipService.record_event call_id answered "dial_end" t1 event db),
       SipService._notify_event_callbacks "call_ended" call_id hangup
         (SipService.set_active_calls
            (dict_del call_id (SipService.active_calls s))
            (SipService._notify_event_callbacks "dial_end" call_id event s)))).
  { unfold SipService._handle_hangup. rewrite Hhch.
    change (default "" (Some ch)) with ch. cbn [truthy_str].
    rewrite (bool_decide_eq_false_2 (ch = "")) by done. cbn [negb].
    cbn [SipService._notify_event_callbacks SipService.set_delivered
      SipService.active_calls]. by rewrite Hfind, Hrow. }
  rewrite Hstep. cbn [fst].
  eexists. split.
  - apply (call_get_record_event _ answered); [done|].
    unfold Call.calculate_duration. cbn. by destruct (Call.started_at call).
  - destruct call as [? ? ? ? ? ? ? [started|] ? ? ?]; by cbn.
Qed.

(** Witness of X7 on call 1 of [in_flight_world]. *)
Lemma answered_call_counts_unanswered_after_hangup_witness :
  let r1 :=
    SipService._handle_dial_end 5000000 dial_end_answer (World.db in_flight_world)
      (World.sip in_flight_world) in
  let r2 := SipService._handle_hangup 47000000 hangup_event (fst r1) (snd r1) in
  Db.call_get 1 (fst r2)
  = Some (Call.mk 1 1 1 (Some 7) "5551234" "outbound" "completed" (Some 1000000)
            (Some 5000000) (Some 47000000) (Some 46))
  ∧ ∃ completed,
      Db.call_get 1 (fst r2) = Some completed
      ∧ Call.answered_at completed = Some 5000000
      ∧ Call.ended_at completed = Some 47000000
      ∧ Call.call_status completed = "completed"
      ∧ PredictiveDialer.outcome (PredictiveDialer.entry_of_call completed)
        = "not_answered".
Proof.
  split; [by vm_compute|].
  apply (answered_call_counts_unanswered_after_hangup 5000000 47000000
           dial_end_answer hangup_event (World.db in_flight_world)
           (World.sip in_flight_world) "SIP/trunk/5551234" 1
           (SipService.mk_call_info "SIP/trunk/5551234" "5551234" "Agent/7"
              "action_1_1" 1000000)
           (Call.mk 1 1 1 (Some 7) "5551234" "outbound" "initiated"
              (Some 1000000) None None None)).
  - discriminate.
  - reflexivity.
  - reflexivity.
  - reflexivity.
  - reflexivity.
  - reflexivity.
Defined.

(** ** The reconciler over sequences of messages *)

Section Frame.

Implicit Types (db : Db.t) (s : SipService.t) (calls : list (Z * SipService.call_info)).

Lemma find_by_channel_in_flight ch calls call_id info :
  SipService.find_by_channel ch calls = Some (call_id, info) →
  dict_get call_id calls ≠ None.
Proof.
  induction calls as [|[k i] rest IH]; cbn; [done|].
  destruct (bool_decide (SipService.channel i = ch)).
  - intros [= -> ->]. by rewrite decide_True.
  - intros Hrest. destruct (decide (k = call_id)); [done|]. by apply IH.
Qed.

Lemma find_by_either_channel_in_flight ch1 ch2 calls call_id info :
  SipService.find_by_either_channel ch1 ch2 calls = Some (call_id, info) →
  dict_get call_id calls ≠ None.
Proof.
  induction calls as [|[k i] rest IH]; cbn; [done|].
  destruct (_ || _).
  - intros [= -> ->]. by rewrite decide_True.
  - intros Hrest. destruct (decide (k = call_id)); [done|]. by apply IH.
Qed.

Lemma dict_get_dict_del_None calls (k cid : Z) :
  dict_get cid calls = None → dict_get cid (dict_del k calls) = None.
Proof.
  induction calls as [|[k0 i0] rest IH]; cbn; [done|].
  destruct (decide (k0 = cid)) as [->|Hne]; [done|]. intros Hrest.
  destruct (decide (k0 = k)); [done|]. cbn. rewrite decide_False by done.
  by apply IH.
Qed.

Lemma call_get_update_other (c' : Call.t) db cid :
  Call.id c' ≠ cid →
  Db.call_get cid (Db.update_call c' db) = Db.call_get cid db.
Proof.
  intros Hne. unfold Db.call_get, Db.update_call, Db.set_calls. cbn [Db.calls].
  induction (Db.calls db) as [|x xs IH]; [done|]. cbn.
  destruct (bool_decide (Call.id x = Call.id c')) eqn:Hx.
  - apply bool_decide_eq_true in Hx.
    rewrite !bool_decide_eq_false_2 by congruence. exact IH.
  - by rewrite IH.
Qed.

Lemma update_call_ids (c' : Call.t) db :
  List.map Call.id (Db.calls (Db.update_call c' db)) = List.map Call.id (Db.calls db).
Proof.
  unfold Db.update_call, Db.set_calls. cbn [Db.calls].
  induction (Db.calls db) as [|x xs IH]; [done|]. cbn. rewrite IH. f_equal.
  destruct (bool_decide (Call.id x = Call.id c')) eqn:Hx; [|done].
  by apply bool_decide_eq_true in Hx.
Qed.

Lemma respects_refl cid (st : Db.t * SipService.t) : respects cid st st.
Proof.
  split; [exists []; by rewrite app_nil_r|]. by repeat split.
Qed.

Lemma respects_trans cid (a b c : Db.t * SipService.t) :
  respects cid a b → respects cid b c → respects cid a c.
Proof.
  intros ([s1 He1] & Hi1 & Hc1 & Hf1) ([s2 He2] & Hi2 & Hc2 & Hf2).
  split; [exists (app s1 s2); by rewrite He2, He1, app_assoc|].
  split; [congruence|]. split; [congruence|].
  intros Hout. destruct (Hf1 Hout) as [Hout1 Hrow1].
  destruct (Hf2 Hout1) as [Hout2 Hrow2]. split; [done|congruence].
Qed.

(** A handler that found the call [call_id] in flight, wrote its row and
    logged an event. *)
Lemma record_event_respects cid call_id call call' kind now event db s s' :
  dict_get call_id (SipService.active_calls s) ≠ None →
  Db.call_get call_id db = Some call →
  Call.id call' = Call.id call →
  SipService.ami_clients s' = SipService.ami_clients s →
  (dict_get cid (SipService.active_calls s) = None →
   dict_get cid (SipService.active_calls s') = None) →
  respects cid (db, s)
    (SipService.record_event call_id call' kind now event db, s').
Proof.
  intros Hin Hcall Hid Hclients Hout.
  split; [by eexists|]. split; [apply update_call_ids|]. split; [done|].
  cbn [fst snd]. intros Hcid. split; [by apply Hout|].
  unfold SipService.record_event.
  change (Db.call_get cid (Db.set_call_events ?e ?d)) with (Db.call_get cid d).
  apply call_get_update_other. rewrite Hid, (call_get_id _ _ _ Hcall). congruence.
Qed.

End Frame.

Section Handlers.

Implicit Types (db : Db.t) (s : SipService.t) (msg : message).

Lemma handle_hangup_respects cid now msg db s :
  respects cid (db, s) (SipService._handle_hangup now msg db s).
Proof.
  unfold SipService._handle_hangup.
  destruct (truthy_str (msg !! "Channel")); [|apply respects_refl].
  destruct (SipService.find_by_channel _ _) as [[call_id info]|] eqn:Hfind;
    [|apply respects_refl].
  destruct (Db.call_get call_id db) as [call|] eqn:Hcall; [|apply respects_refl].
  apply find_by_channel_in_flight in Hfind.
  apply (record_event_respects cid call_id call _ "hangup" now msg db s);
    [done|done| |done|].
  - unfold Call.calculate_duration. cbn. by destruct (Call.started_at call).
  - cbn. by apply dict_get_dict_del_None.
Qed.

Lemma handle_dial_begin_respects cid now msg db s :
  respects cid (db, s) (SipService._handle_dial_begin now msg db s).
Proof.
  unfold SipService._handle_dial_begin, SipService.find_by_optional_channel.
  destruct (msg !! "Channel") as [ch|]; [|apply respects_refl].
  destruct (SipService.find_by_channel _ _) as [[call_id info]|] eqn:Hfind;
    [|apply respects_refl].
  destruct (Db.call_get call_id db) as [call|] eqn:Hcall; [|apply respects_refl].
  apply find_by_channel_in_flight in Hfind.
  by apply (record_event_respects cid call_id call).
Qed.

Lemma handle_dial_end_respects cid now msg db s :
  respects cid (db, s) (SipService._handle_dial_end now msg db s).
Proof.
  unfold SipService._handle_dial_end, SipService.find_by_optional_channel.
  destruct (msg !! "Channel") as [ch|]; [|apply respects_refl].
  destruct (SipService.find_by_channel _ _) as [[call_id info]|] eqn:Hfind;
    [|apply respects_refl].
  destruct (Db.call_get call_id db) as [call|] eqn:Hcall; [|apply respects_refl].
  apply find_by_channel_in_flight in Hfind. cbn zeta.
  apply (record_event_respects cid call_id call); [done|done| | |].
  - by destruct (bool_decide (msg !! "DialStatus" = Some "ANSWER")).
  - by destruct (bool_decide (msg !! "DialStatus" = Some "ANSWER")).
  - destruct (bool_decide (msg !! "DialStatus" = Some "ANSWER")); [done|].
    cbn. by apply dict_get_dict_del_None.
Qed.

Lemma handle_bridge_respects cid now msg db s :
  respects cid (db, s) (SipService._handle_bridge now msg db s).
Proof.
  unfold SipService._handle_bridge.
  destruct (SipService.find_by_either_channel _ _ _) as [[call_id info]|] eqn:Hfind;
    [|apply respects_refl].
  destruct (Db.call_get call_id db) as [call|] eqn:Hcall; [|apply respects_refl].
  apply find_by_either_channel_in_flight in Hfind.
  by apply (record_event_respects cid call_id call).
Qed.

Lemma run_callback_respects cid now cb msg db s :
  respects cid (db, s) (SipService.run_callback now cb msg db s).
Proof.
  destruct cb; cbn [SipService.run_callback].
  - apply respects_refl.
  - apply handle_hangup_respects.
  - apply handle_bridge_respects.
  - apply handle_dial_begin_respects.
  - apply handle_dial_end_respects.
  - split; [by eexists|]. by repeat split.
  - split; [by eexists|]. by repeat split.
Qed.

Lemma run_callbacks_respects cid now
    (invocations : list (AsteriskAMIClient.invocation SipService.callback))
    (st : Db.t * SipService.t) :
  respects cid st
    (fold_left
       (fun st inv =>
          SipService.run_callback now (AsteriskAMIClient.handler inv)
            (AsteriskAMIClient.argument inv) (fst st) (snd st))
       invocations st).
Proof.
  revert st. induction invocations as [|inv rest IH]; intros st; cbn [fold_left].
  - apply respects_refl.
  - eapply respects_trans; [|apply IH].
    destruct st as [db s]. apply run_callback_respects.
Qed.

(** One reader turn keeps what [respects] lists, except that the client
    that read the message may have dropped a waiter. *)
Lemma on_message_keeps cid now config_id msg db s :
  let r := SipService.on_message now config_id msg db s in
  (∃ suffix, Db.call_events (fst r) = app (Db.call_events db) suffix)
  ∧ List.map Call.id (Db.calls (fst r)) = List.map Call.id (Db.calls db)
  ∧ (dict_get cid (SipService.active_calls s) = None →
     dict_get cid (SipService.active_calls (snd r)) = None
     ∧ Db.call_get cid (fst r) = Db.call_get cid db).
Proof.
  cbn zeta. unfold SipService.on_message.
  destruct (SipService.ami_clients s !! config_id) as [client|];
    [|split; [exists []; by rewrite app_nil_r|done]].
  destruct (bool_decide (msg = ∅)); [split; [exists []; by rewrite app_nil_r|done]|].
  destruct (AsteriskAMIClient._handle_message msg client) as [client' invocations].
  destruct (run_callbacks_respects cid now invocations
              (db, SipService.set_ami_clients
                     (<[config_id := client']> (SipService.ami_clients s)) s))
    as (Hevents & Hids & _ & Hframe).
  cbn [fst snd] in Hevents, Hids, Hframe.
  split; [exact Hevents|]. split; [exact Hids|]. exact Hframe.
Qed.

(** One delivery, on the engine state. *)
Lemma deliver_keeps cid (w : World.t) (m : Reader.delivery) :
  (∃ suffix,
     Db.call_events (World.db (Reader.deliver w m))
     = app (Db.call_events (World.db w)) suffix)
  ∧ List.map Call.id (Db.calls (World.db (Reader.deliver w m)))
    = List.map Call.id (Db.calls (World.db w))
  ∧ World.dialer (Reader.deliver w m) = World.dialer w
  ∧ (dict_get cid (SipService.active_calls (World.sip w)) = None →
     dict_get cid (SipService.active_calls (World.sip (Reader.deliver w m))) = None
     ∧ Db.call_get cid (World.db (Reader.deliver w m)) = Db.call_get cid (World.db w)).
Proof.
  destruct m as [[now config_id] msg]. unfold Reader.deliver, World.on_message.
  cbn [fst snd].
  pose proof (on_message_keeps cid now config_id msg (World.db w) (World.sip w))
    as Hkeep.
  destruct (SipService.on_message now config_id msg (World.db w) (World.sip w))
    as [db1 sip1].
  cbn zeta in Hkeep. cbn [fst snd] in Hkeep. cbn [World.db World.sip World.dialer].
  destruct Hkeep as (Hevents & Hids & Hframe).
  split; [exact Hevents|]. split; [exact Hids|]. split; [reflexivity|exact Hframe].
Qed.

Lemma deliver_all_cons (m : Reader.delivery) (rest : list Reader.delivery)
    (w : World.t) :
  Reader.deliver_all (m :: rest) w = Reader.deliver_all rest (Reader.deliver w m).
Proof. reflexivity. Qed.

End Handlers.

(** X8.  Once a call has left the calls in flight, no message from the
    switch changes its row again: whatever messages the readers hand on
    afterwards, and in whatever order, the call stays out of flight and its
    row reads as it did. *)
Theorem finished_call_is_never_touched
    (ms : list Reader.delivery) (w : World.t) (call_id : Z) :
  dict_get call_id (SipService.active_calls (World.sip w)) = None →
  dict_get call_id (SipService.active_calls (World.sip (Reader.deliver_all ms w)))
  = None
  ∧ Db.call_get call_id (World.db (Reader.deliver_all ms w))
    = Db.call_get call_id (World.db w).
Proof.
  revert w. induction ms as [|m rest IH]; intros w Hout; [done|].
  rewrite deliver_all_cons.
  destruct (deliver_keeps call_id w m) as (_ & _ & _ & Hframe).
  destruct (Hframe Hout) as [Hout1 Hrow1].
  destruct (IH (Reader.deliver w m) Hout1) as [Hout2 Hrow2].
  split; [exact Hout2|]. by rewrite Hrow2.
Qed.

(** X9.  Messages from the switch keep the audit trail and the registry:
    after any sequence of deliveries the call events that were there are
    still there, in place, with new ones only after them; the call rows are
    the same rows under the same ids, none added and none removed; and the
    dialer service, with every agent's status, is what it was. *)
Theorem messages_keep_the_audit_trail (ms : list Reader.delivery) (w : World.t) :
  (∃ suffix,
     Db.call_events (World.db (Reader.deliver_all ms w))
     = app (Db.call_events (World.db w)) suffix)
  ∧ List.map Call.id (Db.calls (World.db (Reader.deliver_all ms w)))
    = List.map Call.id (Db.calls (World.db w))
  ∧ World.dialer (Reader.deliver_all ms w) = World.dialer w.
Proof.
  revert w. induction ms as [|m rest IH]; intros w.
  - split; [exists []; by rewrite app_nil_r|done].
  - rewrite deliver_all_cons.
    destruct (deliver_keeps 0 w m) as ([suffix1 Hevents1] & Hids1 & Hdialer1 & _).
    destruct (IH (Reader.deliver w m)) as ([suffix2 Hevents2] & Hids2 & Hdialer2).
    split; [exists (app suffix1 suffix2); by rewrite Hevents2, Hevents1, app_assoc|].
    split; congruence.
Qed.

(** Witness of X8: call 1 was reported busy; a late answer and the hangup
    of its channel leave its row alone. *)
Lemma finished_call_is_never_touched_witness :
  Db.call_get 1
    (World.db
       (Reader.deliver_all
          [(6000000, 1, dial_end_answer); (7000000, 1, hangup_event)]
          after_busy_world))
  = Some (Call.mk 1 1 1 (Some 7) "5551234" "outbound" "busy" (Some 1000000) None
            (Some 5000000) None).
Proof.
  rewrite (proj2 (finished_call_is_never_touched
                    [(6000000, 1, dial_end_answer); (7000000, 1, hangup_event)]
                    after_busy_world 1 ltac:(vm_compute; reflexivity))).
  vm_compute. reflexivity.
Defined.

(** ** Originate and its response *)

Section Originate.

Implicit Types (db : Db.t) (s : SipService.t).

Lemma dict_get_dict_set {V : Type} (k : Z) (v : V) (d : list (Z * V)) :
  dict_get k (dict_set k v d) = Some v.
Proof.
  induction d as [|[k' v'] rest IH]; cbn.
  - by rewrite decide_True.
  - destruct (decide (k' = k)) as [->|Hne]; cbn.
    + by rewrite decide_True.
    + by rewrite decide_False.
Qed.

(** What the telephony service looks like after an Originate went out. *)
Lemma sip_originate_call_true now send_ok phone agent_channel call_id db s :
  snd (SipService.originate_call now send_ok phone agent_channel call_id db s) = true →
  ∃ cfg client client' action_id,
    Db.active_configuration db = Some cfg
    ∧ SipService.ami_clients s !! SipConfiguration.id cfg = Some client
    ∧ SipService.ami_clients
        (fst (SipService.originate_call now send_ok phone agent_channel call_id db s))
      = <[SipConfiguration.id cfg := client']> (SipService.ami_clients s)
    ∧ AsteriskAMIClient.response_handlers client'
      = <[action_id := SipService.cb_handle_originate_response call_id]>
          (AsteriskAMIClient.response_handlers client)
    ∧ SipService.active_calls
        (fst (SipService.originate_call now send_ok phone agent_channel call_id db s))
      = dict_set call_id
          (SipService.mk_call_info
             ("SIP/" +:+ SipConfiguration.username cfg +:+ "/" +:+ phone)
             phone agent_channel action_id now)
          (SipService.active_calls s)
    ∧ SipService.event_callbacks
        (fst (SipService.originate_call now send_ok phone agent_channel call_id db s))
      = SipService.event_callbacks s
    ∧ SipService.delivered
        (fst (SipService.originate_call now send_ok phone agent_channel call_id db s))
      = SipService.delivered s.
Proof.
  unfold SipService.originate_call.
  destruct (Db.active_configuration db) as [cfg|]; [|done].
  destruct (SipService.ami_clients s !! SipConfiguration.id cfg) as [client|] eqn:Hc;
    [|done].
  unfold AsteriskAMIClient.originate_call.
  match goal with
  | |- context [AsteriskAMIClient.send_action ?a ?b ?c ?d ?e ?f] =>
      pose proof (send_action_Ok a b c d e f) as Hsend;
      destruct (AsteriskAMIClient.send_action a b c d e f) as [client' r]
  end.
  destruct r as [action_id|e]; [|done]. intros _.
  destruct (Hsend action_id eq_refl) as (_ & _ & _ & Hwaiters & _).
  exists cfg, client, client', action_id. cbn [fst snd] in *. by repeat split.
Qed.

End Originate.

(** X10.  The response to an Originate is logged against the call it was
    sent for.  When [initiate_call] returns a call id, that call is in
    flight with the id of its action on record; a message without [Event]
    that echoes this id, read by the client of the active configuration,
    appends one [originate_response] call event for that call, tells every
    subscriber, and changes neither the call rows nor the calls in
    flight. *)
Theorem originate_response_is_logged_for_its_call
    (now : datetime) (send_ok : bool) (campaign_id lead_id agent_id : Z)
    (w : World.t) (call_id : Z) :
  snd (World.initiate_call now send_ok campaign_id lead_id agent_id w) = Some call_id →
  let w1 := fst (World.initiate_call now send_ok campaign_id lead_id agent_id w) in
  ∃ cfg info,
    Db.active_configuration (World.db w) = Some cfg
    ∧ dict_get call_id (SipService.active_calls (World.sip w1)) = Some info
    ∧ ∀ now' msg,
        msg !! "Event" = None →
        msg !! "ActionID" = Some (SipService.action_id info) →
        let w2 := World.on_message now' (SipConfiguration.id cfg) msg w1 in
        Db.call_events (World.db w2)
        = app (Db.call_events (World.db w1))
            [CallEvent.set_event_data msg
               (CallEvent.mk call_id "originate_response" None now')]
        ∧ Db.calls (World.db w2) = Db.calls (World.db w1)
        ∧ SipService.active_calls (World.sip w2)
          = SipService.active_calls (World.sip w1)
        ∧ SipService.delivered (World.sip w2)
          = app (SipService.delivered (World.sip w1))
              (List.map
                 (fun cb =>
                    SipService.mk_notification cb "originate_response" call_id msg)
                 (SipService.event_callbacks (World.sip w1))).
Proof.
  unfold World.initiate_call.
  destruct (Db.lead_get lead_id (World.db w)) as [lead|]; [|done].
  destruct (Lead.phone_number lead) as [phone|]; [|done].
  match goal with
  | |- context [SipService.originate_call ?a ?b ?c ?d ?e ?f ?g] =>
      pose proof (sip_originate_call_true a b c d e f g) as Hsip;
      destruct (SipService.originate_call a b c d e f g) as [sip1 submitted]
  end.
  destruct submitted; [|done]. cbn [fst snd] in *. intros [= <-]. cbn zeta.
  destruct (Hsip eq_refl)
    as (cfg & client & client' & action_id & Hcfg & Hclient & Hclients & Hwaiters
        & Hactive & Hcallbacks & Hdelivered).
  exists cfg. eexists. split; [exact Hcfg|]. cbn [World.sip World.db].
  split; [rewrite Hactive; apply dict_get_dict_set|].
  intros now' msg Hevent Hid. cbn [SipService.action_id] in Hid.
  unfold World.on_message, SipService.on_message. cbn [World.sip World.db].
  rewrite Hclients, lookup_insert_eq.
  rewrite bool_decide_eq_false_2.
  2:{ intros ->. by rewrite lookup_empty in Hid. }
  rewrite (response_message_completes_waiter msg client' action_id
             (SipService.cb_handle_originate_response (Db.next_call_id (World.db w)))
             Hevent Hid).
  2:{ rewrite Hwaiters. apply lookup_insert_eq. }
  cbn. by rewrite Hdelivered, Hcallbacks.
Qed.

(** Witness of X10: the response to the Originate of call 1. *)
Lemma originate_response_is_logged_for_its_call_witness :
  Db.call_events
    (World.db (World.on_message 2000000 1 originate_response in_flight_world))
  = [CallEvent.set_event_data originate_response
       (CallEvent.mk 1 "originate_response" None 2000000)]
  ∧ SipService.delivered
      (World.sip (World.on_message 2000000 1 originate_response in_flight_world))
    = [SipService.mk_notification 0 "originate_response" 1 originate_response].
Proof.
  destruct (originate_response_is_logged_for_its_call 1000000 true 1 1 7
              (Engine.initial ready_db ready_sip) 1 eq_refl)
    as (cfg & info & Hcfg & Hinfo & Hlog).
  injection Hcfg as <-. injection Hinfo as <-.
  destruct (Hlog 2000000 originate_response eq_refl eq_refl)
    as (Hevents & _ & _ & Hdelivered).
  split; [exact Hevents|exact Hdelivered].
Defined.

(** ** Starting and stopping a campaign dialer *)

(** X11.  Starting is idempotent, and for a campaign that was not running
    a stop in between does not show: [start; start] and [start; stop;
    start] leave the running set and the statistics exactly as [start]
    alone does, and return what it returned. *)
Theorem start_stop_start
    (campaign_id : Z) (db : Db.t) (active_campaigns : gmap Z DialerService.dialer)
    (dialer_stats : gmap Z DialerStats.t) :
  let r := DialerService.start_campaign_dialer campaign_id db active_campaigns
             dialer_stats in
  DialerService.start_campaign_dialer campaign_id db (fst (fst r)) (snd (fst r)) = r
  ∧ (active_campaigns !! campaign_id = None →
     DialerService.start_campaign_dialer campaign_id db
       (fst (DialerService.stop_campaign_dialer campaign_id (fst (fst r))))
       (snd (fst r)) = r).
Proof.
  cbn zeta. unfold DialerService.start_campaign_dialer, DialerService.stop_campaign_dialer.
  destruct (Db.campaign_get campaign_id db) as [campaign|] eqn:Hcampaign.
  2:{ cbn [fst snd]. split; [done|]. intros Hfree. by rewrite Hfree. }
  destruct (active_campaigns !! campaign_id) as [d0|] eqn:Hrunning.
  { cbn [fst snd]. by rewrite Hrunning. }
  destruct (DialerService.dialer_of_mode (Campaign.dialer_mode campaign)) as [d|]
    eqn:Hmode; cbn [fst snd].
  - rewrite lookup_insert_eq. split; [done|]. intros _. cbn [fst].
    rewrite lookup_delete_eq, delete_insert_eq, insert_insert_eq.
    by rewrite (delete_id active_campaigns campaign_id Hrunning).
  - rewrite Hrunning. split; [done|]. intros _. cbn [fst].
    by rewrite Hrunning.
Qed.

(** Witness of X11: campaign 1 of [ready_db], not running. *)
Lemma start_stop_start_witness :
  let r := DialerService.start_campaign_dialer 1 ready_db ∅ ∅ in
  DialerService.start_campaign_dialer 1 ready_db
    (fst (DialerService.stop_campaign_dialer 1 (fst (fst r)))) (snd (fst r)) = r.
Proof.
  apply (proj2 (start_stop_start 1 ready_db ∅ ∅)). reflexivity.
Defined.



(** ** What the status route shows *)

(** X13.  The status route and the availability query disagree about an
    agent that was never heard of.  For an agent assigned to a campaign and
    without entry, [GET /dialer/agent/status] answers [offline]; the
    availability query of that campaign returns the agent as available,
    and from then on the route answers [available], although the agent
    never reported a status. *)
Theorem unseen_agent_turns_available
    (campaign_id agent_id : Z) (w : World.t) :
  agent_id ∈ Db.assigned_agent_ids campaign_id (World.db w) →
  World.agent_statuses w !! agent_id = None →
  let r := World.get_available_agents campaign_id w in
  AgentStatus.status (Routes.get_agent_status agent_id w) = "offline"
  ∧ agent_id ∈ snd r
  ∧ AgentStatus.status (Routes.get_agent_status agent_id (fst r)) = "available"
  ∧ Routes.get_agent_status agent_id (fst r)
    = AgentStatus.mk agent_id "available" None None 0 0.
Proof.
  intros Hassigned Huntracked. cbn zeta.
  unfold Routes.get_agent_status, DialerService.get_agent_status.
  rewrite Huntracked. split; [done|].
  unfold World.get_available_agents.
  pose proof (available_loop_lookup (Db.assigned_agent_ids campaign_id (World.db w))
                (World.agent_statuses w) [] agent_id) as Hlookup.
  pose proof (available_loop_fst (Db.assigned_agent_ids campaign_id (World.db w))
                (World.agent_statuses w) []) as Hlist.
  unfold DialerService.get_available_agents.
  destruct (DialerService.available_loop _ _ _) as [agents statuses].
  cbn [fst snd] in *.
  rewrite Huntracked, bool_decide_eq_true_2 in Hlookup by done.
  split.
  - rewrite Hlist. cbn [app]. apply list_elem_of_In, filter_In.
    split; [by apply list_elem_of_In|]. unfold is_available. by rewrite Hlookup.
  - split.
    + unfold World.agent_statuses, World.set_agent_statuses. cbn. by rewrite Hlookup.
    + unfold World.agent_statuses, World.set_agent_statuses. cbn. by rewrite Hlookup.
Qed.

(** Witness of X13: agent 7 of [ready_db] before anybody logged in. *)
Lemma unseen_agent_turns_available_witness :
  let r := World.get_available_agents 1 (Engine.initial ready_db ready_sip) in
  AgentStatus.status (Routes.get_agent_status 7 (Engine.initial ready_db ready_sip))
  = "offline"
  ∧ 7 ∈ snd r
  ∧ AgentStatus.status (Routes.get_agent_status 7 (fst r)) = "available"
  ∧ Routes.get_agent_status 7 (fst r) = AgentStatus.mk 7 "available" None None 0 0.
Proof.
  apply (unseen_agent_turns_available 1 7 (Engine.initial ready_db ready_sip)).
  - apply list_elem_of_In. vm_compute. by left.
  - reflexivity.
Defined.

(** ** Turbo pacing *)

Section Turbo.

Implicit Types (db : Db.t) (s : SipService.t) (w : World.t).

Lemma run_callback_same_tables now cb msg db s :
  same_tables db (fst (SipService.run_callback now cb msg db s)).
Proof.
  destruct cb; cbn [SipService.run_callback]; try done.
  - unfold SipService._handle_hangup.
    destruct (truthy_str _); [|done].
    destruct (SipService.find_by_channel _ _) as [[call_id info]|]; [|done].
    by destruct (Db.call_get call_id db).
  - unfold SipService._handle_bridge.
    destruct (SipService.find_by_either_channel _ _ _) as [[call_id info]|]; [|done].
    by destruct (Db.call_get call_id db).
  - unfold SipService._handle_dial_begin.
    destruct (SipService.find_by_optional_channel _ _) as [[call_id info]|]; [|done].
    by destruct (Db.call_get call_id db).
  - unfold SipService._handle_dial_end.
    destruct (SipService.find_by_optional_channel _ _) as [[call_id info]|]; [|done].
    by destruct (Db.call_get call_id db).
Qed.

Lemma same_tables_trans (a b c : Db.t) :
  same_tables a b → same_tables b c → same_tables a c.
Proof.
  intros (H1 & H2 & H3 & H4) (H5 & H6 & H7 & H8). repeat split; congruence.
Qed.

Lemma run_callbacks_same_tables now
    (invocations : list (AsteriskAMIClient.invocation SipService.callback))
    (st : Db.t * SipService.t) :
  same_tables (fst st)
    (fst (fold_left
            (fun st inv =>
               SipService.run_callback now (AsteriskAMIClient.handler inv)
                 (AsteriskAMIClient.argument inv) (fst st) (snd st))
            invocations st)).
Proof.
  revert st. induction invocations as [|inv rest IH]; intros st; cbn [fold_left];
    [done|].
  eapply same_tables_trans; [|apply IH]. apply run_callback_same_tables.
Qed.

Lemma deliver_same_tables w (m : Reader.delivery) :
  same_tables (World.db w) (World.db (Reader.deliver w m)).
Proof.
  destruct m as [[now config_id] msg].
  unfold Reader.deliver, World.on_message, SipService.on_message. cbn [fst snd].
  destruct (SipService.ami_clients (World.sip w) !! config_id) as [client|]; [|done].
  destruct (bool_decide (msg = ∅)); [done|].
  destruct (AsteriskAMIClient._handle_message msg client) as [client' invocations].
  pose proof (run_callbacks_same_tables now invocations
                (World.db w,
                 SipService.set_ami_clients
                   (<[config_id := client']> (SipService.ami_clients (World.sip w)))
                   (World.sip w))) as Hfold.
  destruct (fold_left _ invocations _) as [db1 sip1]. exact Hfold.
Qed.

Lemma filter_all_false {A : Type} (f : A → bool) (l : list A) :
  (∀ x, In x l → f x = false) → List.filter f l = [].
Proof.
  induction l as [|x xs IH]; intros Hall; [done|]. cbn.
  rewrite Hall by (by left). apply IH. intros y Hy. apply Hall. by right.
Qed.

(** When every assigned agent is taken, the availability query finds
    nobody and leaves the registry as it is. *)
Lemma get_available_agents_none campaign_id w :
  all_agents_taken campaign_id w →
  World.get_available_agents campaign_id w = (w, []).
Proof.
  intros Htaken. unfold World.get_available_agents.
  pose proof (available_loop_fst (Db.assigned_agent_ids campaign_id (World.db w))
                (World.agent_statuses w) []) as Hlist.
  assert (Hsame :
    snd (DialerService.available_loop (Db.assigned_agent_ids campaign_id (World.db w))
           (World.agent_statuses w) []) = World.agent_statuses w).
  { apply map_eq. intros agent_id. rewrite available_loop_lookup.
    destruct (World.agent_statuses w !! agent_id) eqn:Hid; [done|].
    case_bool_decide as Hin; [|done].
    destruct (Htaken agent_id Hin) as (a & Ha & _). congruence. }
  unfold DialerService.get_available_agents.
  destruct (DialerService.available_loop _ _ _) as [agents statuses].
  cbn [fst snd] in *. subst statuses. f_equal.
  - destruct w as [db [statuses stats] sip]. reflexivity.
  - rewrite Hlist. cbn [app]. apply filter_all_false. intros a Hin.
    destruct (Htaken a (proj2 (list_elem_of_In _ _) Hin)) as (st & Hst & Hna).
    unfold is_available. rewrite Hst. by apply bool_decide_eq_false_2.
Qed.

End Turbo.

Section TurboFloor.

Implicit Types (db : Db.t) (w : World.t).

Lemma tick_all_agents_taken now send_ok campaign_id w :
  all_agents_taken campaign_id w →
  TurboDialer.tick now send_ok campaign_id w = (w, TurboDialer.no_agents).
Proof.
  intros Htaken. unfold TurboDialer.tick.
  by rewrite (get_available_agents_none _ _ Htaken).
Qed.

Lemma deliver_all_agents_taken campaign_id w (m : Reader.delivery) :
  all_agents_taken campaign_id w →
  all_agents_taken campaign_id (Reader.deliver w m).
Proof.
  intros Htaken agent_id Hin.
  destruct (deliver_same_tables w m) as (_ & _ & Hassign & _).
  destruct (deliver_keeps 0 w m) as (_ & _ & Hdialer & _).
  unfold World.agent_statuses. rewrite Hdialer. apply Htaken.
  unfold Db.assigned_agent_ids in *. by rewrite <- Hassign.
Qed.

End TurboFloor.

(** X14.  Once every agent assigned to a campaign is taken (tracked, with a
    status other than [available]), nothing that happens on the floor gives
    the campaign another call: through any interleaving of turns of its
    turbo loop and of messages from the switch, hangups included, no call
    row is created and every agent's entry stays as it is.  Only the
    facade sets an agent free. *)
Theorem no_call_until_an_agent_reports
    (campaign_id : Z) (steps : list Floor.step) (w : World.t) :
  all_agents_taken campaign_id w →
  Forall (Floor.for_campaign campaign_id) steps →
  List.map Call.id (Db.calls (World.db (Floor.run steps w)))
  = List.map Call.id (Db.calls (World.db w))
  ∧ World.dialer (Floor.run steps w) = World.dialer w
  ∧ all_agents_taken campaign_id (Floor.run steps w).
Proof.
  intros Htaken Hsteps. revert w Htaken.
  induction Hsteps as [|st rest Hst _ IH]; intros w Htaken; [done|].
  change (Floor.run (st :: rest) w) with (Floor.run rest (Floor.apply w st)).
  destruct st as [now send_ok c|m]; cbn [Floor.apply Floor.for_campaign] in *.
  - subst c. rewrite (tick_all_agents_taken _ _ _ _ Htaken). cbn [fst].
    by apply IH.
  - destruct (IH (Reader.deliver w m) (deliver_all_agents_taken _ _ _ Htaken))
      as (Hids & Hdialer & Htaken').
    destruct (deliver_keeps 0 w m) as (_ & Hids1 & Hdialer1 & _).
    split; [congruence|]. split; [congruence|done].
Qed.

(** Witness of X14: call 1 of agent 7, the only agent of campaign 1, is
    hung up, and the turbo loop turns twice. *)
Lemma no_call_until_an_agent_reports_witness :
  let w :=
    Floor.run
      [Floor.message_read (43000000, 1, hangup_event);
       Floor.turbo_tick 48000000 true 1;
       Floor.turbo_tick 53000000 true 1]
      wired_in_flight_world in
  List.map Call.id (Db.calls (World.db w)) = [1]
  ∧ World.agent_statuses w !! 7 = Some (AgentStatus.mk 7 "on_call" (Some 1) None 0 0).
Proof.
  destruct (no_call_until_an_agent_reports 1
              [Floor.message_read (43000000, 1, hangup_event);
               Floor.turbo_tick 48000000 true 1;
               Floor.turbo_tick 53000000 true 1]
              wired_in_flight_world) as (Hids & Hdialer & _).
  - intros agent_id Hin. apply list_elem_of_In in Hin. vm_compute in Hin.
    destruct Hin as [<-|[]].
    exists (AgentStatus.mk 7 "on_call" (Some 1) None 0 0).
    split; [reflexivity|discriminate].
  - repeat constructor.
  - cbn zeta. split; [exact Hids|].
    unfold World.agent_statuses. rewrite Hdialer. reflexivity.
Defined.

Section AttemptCap.

Implicit Types (db : Db.t) (w : World.t).

(** The failed row takes the place of the row just inserted. *)
Lemma failed_call_recorded db (call : Call.t) :
  Call.id call = Db.next_call_id db →
  Db.calls
    (Db.update_call (Call.set_call_status "failed" call)
       (Db.set_calls (app (Db.calls db) [call]) db))
  = app (Db.calls db) [Call.set_call_status "failed" call].
Proof.
  intros Hid. unfold Db.update_call, Db.set_calls. cbn [Db.calls].
  rewrite List.map_app. f_equal.
  - apply replace_call_fresh. intros c Hc. cbn [Call.set_call_status Call.id].
    pose proof (call_ids_below_next _ _ Hc). lia.
  - cbn. by rewrite bool_decide_eq_true_2.
Qed.

(** What [initiate_call] may do to the tables: campaigns and assignments
    stay, a lead row changes only if it has the id called, and at most one
    call row is added, for that lead. *)
Lemma initiate_call_shape now send_ok campaign_id lead_id agent_id w :
  let r := World.initiate_call now send_ok campaign_id lead_id agent_id w in
  Db.campaigns (World.db (fst r)) = Db.campaigns (World.db w)
  ∧ (∀ l, In l (Db.leads (World.db (fst r))) →
          In l (Db.leads (World.db w)) ∨ Lead.id l = lead_id)
  ∧ (Db.calls (World.db (fst r)) = Db.calls (World.db w)
     ∨ ∃ c, Db.calls (World.db (fst r)) = app (Db.calls (World.db w)) [c]
            ∧ Call.lead_id c = lead_id).
Proof.
  cbn zeta. unfold World.initiate_call.
  destruct (Db.lead_get lead_id (World.db w)) as [lead|] eqn:Hlead;
    [|by repeat split; auto].
  destruct (Lead.phone_number lead) as [phone|]; [|by repeat split; auto].
  destruct (SipService.originate_call _ _ _ _ _ _ _) as [sip1 submitted].
  destruct submitted; cbn [fst World.db].
  - split; [done|]. split.
    + cbn. intros l Hl. apply in_map_iff in Hl as (l0 & <- & Hl0).
      case_bool_decide; [|by left]. right. cbn.
      unfold Db.lead_get in Hlead. apply find_some in Hlead as [_ Hid].
      by apply bool_decide_eq_true in Hid.
    + right. eexists. split; [done|done].
  - split; [done|]. split; [by left|]. right. eexists. split.
    + by apply failed_call_recorded.
    + done.
Qed.

Lemma attempts_unchanged lead_id db db' :
  Db.calls db' = Db.calls db → attempts lead_id db' = attempts lead_id db.
Proof. unfold attempts, Db.calls_of_lead. by intros ->. Qed.

Lemma attempts_one_more lead_id db db' (c : Call.t) :
  Db.calls db' = app (Db.calls db) [c] →
  attempts lead_id db'
  = attempts lead_id db + (if bool_decide (Call.lead_id c = lead_id) then 1 else 0).
Proof.
  unfold attempts, Db.calls_of_lead. intros ->.
  rewrite List.filter_app, length_app. cbn [List.filter].
  destruct (bool_decide (Call.lead_id c = lead_id)); cbn [length]; lia.
Qed.

(** One turn of the turbo loop keeps every lead of the campaign within
    the attempt cap. *)
Lemma tick_within_attempt_cap now send_ok campaign_id campaign w :
  Db.campaign_get campaign_id (World.db w) = Some campaign →
  within_attempt_cap campaign_id campaign (World.db w) →
  Db.campaign_get campaign_id (World.db (fst (TurboDialer.tick now send_ok campaign_id w)))
  = Some campaign
  ∧ within_attempt_cap campaign_id campaign
      (World.db (fst (TurboDialer.tick now send_ok campaign_id w))).
Proof.
  intros Hcampaign Hcap. unfold TurboDialer.tick, World.get_available_agents.
  destruct (DialerService.get_available_agents _ _ _) as [agents statuses].
  set (w1 := World.set_agent_statuses statuses w).
  assert (Hdb : World.db w1 = World.db w) by done.
  destruct agents as [|agent_id rest]; [by split|].
  destruct (DialerService.get_next_lead now campaign_id (World.db w1))
    as [[lead|]|e] eqn:Hnext; [|by split..].
  rewrite Hdb in Hnext.
  pose proof (get_next_lead_Ok _ _ _ _ _ Hcampaign Hnext) as Hhead.
  assert (Hel : eligible now campaign_id campaign (World.db w) lead = true).
  { destruct (List.filter _ _) as [|l0 ls] eqn:Hf; [done|].
    cbn in Hhead. injection Hhead as Hl0.
    assert (Hin : In lead (l0 :: ls)) by (left; congruence).
    rewrite <- Hf in Hin. by apply filter_In in Hin as [_ ?]. }
  unfold eligible in Hel. apply andb_prop in Hel as [Hel _].
  apply andb_prop in Hel as [_ Hleft]. unfold attempts_left in Hleft.
  apply Z.ltb_lt in Hleft.
  pose proof (initiate_call_shape now send_ok campaign_id (Lead.id lead) agent_id w1)
    as Hshape.
  destruct (World.initiate_call now send_ok campaign_id (Lead.id lead) agent_id w1)
    as [w2 r].
  cbn zeta in Hshape. cbn [fst] in Hshape. rewrite Hdb in Hshape.
  destruct Hshape as (Hcampaigns & Hleads & Hcalls).
  assert (Hget : Db.campaign_get campaign_id (World.db w2) = Some campaign).
  { unfold Db.campaign_get in *. by rewrite Hcampaigns. }
  assert (Hgoal : within_attempt_cap campaign_id campaign (World.db w2)).
  { intros l Hl Hlc. apply list_elem_of_In in Hl.
    destruct Hcalls as [Hsame|(c & Hmore & Hc)].
    - rewrite (attempts_unchanged _ _ _ Hsame).
      destruct (Hleads l Hl) as [Hold|Hid].
      + apply Hcap; [by apply list_elem_of_In|done].
      + rewrite Hid. unfold attempts. lia.
    - rewrite (attempts_one_more _ _ _ _ Hmore). rewrite Hc.
      case_bool_decide as Hsame_id.
      + rewrite <- Hsame_id. unfold attempts. lia.
      + destruct (Hleads l Hl) as [Hold|Hid]; [|congruence].
        rewrite Z.add_0_r. apply Hcap; [by apply list_elem_of_In|done]. }
  by destruct r.
Qed.

End AttemptCap.

(** X15.  The turbo loop never takes a lead past its attempt cap.  If no
    lead of the campaign has more call rows than [max_attempts], then after
    any number of turns of the campaign's turbo loop, whether the calls went
    out or failed, that is still so. *)
Theorem turbo_keeps_attempt_cap
    (campaign_id : Z) (campaign : Campaign.t)
    (turns : list (datetime * bool)) (w : World.t) :
  Db.campaign_get campaign_id (World.db w) = Some campaign →
  within_attempt_cap campaign_id campaign (World.db w) →
  within_attempt_cap campaign_id campaign
    (World.db
       (fold_left
          (fun w turn => fst (TurboDialer.tick (fst turn) (snd turn) campaign_id w))
          turns w)).
Proof.
  revert w. induction turns as [|[now send_ok] rest IH]; intros w Hcampaign Hcap;
    [done|].
  cbn [fold_left fst snd].
  destruct (tick_within_attempt_cap now send_ok campaign_id campaign w Hcampaign Hcap)
    as [Hcampaign' Hcap'].
  by apply IH.
Qed.

(** Witness of X15: the one lead of [ready_db] (cap 3) is tried in four
    turns whose calls all fail; three rows are made, not four. *)
Lemma turbo_keeps_attempt_cap_witness :
  let db' :=
    World.db
      (fold_left
         (fun w turn => fst (TurboDialer.tick (fst turn) (snd turn) 1 w))
         four_failing_turns (Engine.initial ready_db ready_sip)) in
  within_attempt_cap 1 (Campaign.mk 1 "active" "turbo" 3 60 None None) db'
  ∧ attempts 1 db' = 3.
Proof.
  split; [|by vm_compute].
  apply (turbo_keeps_attempt_cap 1 (Campaign.mk 1 "active" "turbo" 3 60 None None)
           four_failing_turns (Engine.initial ready_db ready_sip)).
  - reflexivity.
  - intros l Hl _. apply list_elem_of_In in Hl. vm_compute in Hl.
    destruct Hl as [<-|[]]. vm_compute. discriminate.
Defined.

(** ** Predictive pacing: choosing agents and placing calls *)

Section Predictive.

Implicit Types (scores : list (Z * Q)) (available : list Z).

Lemma dict_set_keys {V : Type} (k k' : Z) (v : V) (d : list (Z * V)) :
  In k' (List.map fst (dict_set k v d)) ↔ k' = k ∨ In k' (List.map fst d).
Proof.
  induction d as [|[k0 v0] rest IH]; cbn.
  - intuition congruence.
  - destruct (decide (k0 = k)) as [->|Hne]; cbn; [intuition congruence|].
    rewrite IH. intuition congruence.
Qed.

Lemma agent_scores_keys perf noise i0 available scores k :
  In k (List.map fst (PredictiveDialer.agent_scores perf noise i0 available scores))
  ↔ In k available ∨ In k (List.map fst scores).
Proof.
  revert i0 scores. induction available as [|a rest IH]; intros i0 scores; cbn.
  - tauto.
  - rewrite IH, dict_set_keys. intuition congruence.
Qed.

Lemma argmax_fold_In scores (best : option (Z * Q)) (r : Z * Q) :
  fold_left
    (fun best kv =>
       match best with
       | None => Some kv
       | Some b => if Qle_bool (snd kv) (snd b) then Some b else Some kv
       end) scores best = Some r →
  best = Some r ∨ In r scores.
Proof.
  revert best. induction scores as [|kv rest IH]; intros best; cbn; [by left|].
  intros Hfold. apply IH in Hfold as [Hbest|Hin]; [|by right; right].
  destruct best as [b|]; [|right; left; congruence].
  destruct (Qle_bool (snd kv) (snd b)); [by left|right; left; congruence].
Qed.

Lemma argmax_fold_Some scores (b : Z * Q) :
  ∃ r, fold_left
         (fun best kv =>
            match best with
            | None => Some kv
            | Some b => if Qle_bool (snd kv) (snd b) then Some b else Some kv
            end) scores (Some b) = Some r.
Proof.
  revert b. induction scores as [|kv rest IH]; intros b; cbn; [by eexists|].
  destruct (Qle_bool (snd kv) (snd b)); apply IH.
Qed.

Lemma argmax_In scores k :
  PredictiveDialer.argmax scores = Some k → In k (List.map fst scores).
Proof.
  unfold PredictiveDialer.argmax.
  destruct (fold_left _ scores None) as [r|] eqn:Hfold; [|done].
  cbn. intros [= <-]. apply argmax_fold_In in Hfold as [?|Hin]; [done|].
  by apply in_map.
Qed.

Lemma argmax_nonempty scores :
  scores ≠ [] → ∃ k, PredictiveDialer.argmax scores = Some k.
Proof.
  destruct scores as [|kv rest]; [done|]. intros _.
  unfold PredictiveDialer.argmax. cbn [fold_left].
  destruct (argmax_fold_Some rest kv) as [r ->]. by eexists.
Qed.

Lemma list_remove_length (x : Z) (l : list Z) :
  In x l → S (length (PredictiveDialer.list_remove x l)) = length l.
Proof.
  induction l as [|y rest IH]; cbn; [done|].
  case_bool_decide as Hy; [done|].
  intros [?|Hin]; [done|]. cbn. by rewrite IH.
Qed.

(** The agent selected is one of the pool. *)
Lemma select_best_agent_In perf noise available agent_id :
  PredictiveDialer._select_best_agent perf noise available = Some agent_id →
  In agent_id available.
Proof.
  unfold PredictiveDialer._select_best_agent.
  destruct available as [|a [|b rest]].
  - done.
  - intros [= <-]. by left.
  - intros Hmax. apply argmax_In, agent_scores_keys in Hmax as [?|[]]. done.
Qed.

End Predictive.

(** X16.  [_select_best_agent] picks from the pool it is given, whatever
    the performance figures and the random draws: on a non-empty list it
    returns one of its agents, on the empty list [max] has nothing to
    choose from and it raises. *)
Theorem select_best_agent_picks_from_pool
    (agent_performance : gmap Z PredictiveDialer.performance)
    (noise : nat → Q) (available_agents : list Z) :
  (available_agents = [] →
   PredictiveDialer._select_best_agent agent_performance noise available_agents = None)
  ∧ (available_agents ≠ [] →
     ∃ agent_id,
       PredictiveDialer._select_best_agent agent_performance noise available_agents
       = Some agent_id
       ∧ agent_id ∈ available_agents).
Proof.
  split; [by intros ->|]. intros Hne.
  assert (Hsome : ∃ agent_id,
    PredictiveDialer._select_best_agent agent_performance noise available_agents
    = Some agent_id).
  { unfold PredictiveDialer._select_best_agent.
    destruct available_agents as [|a [|b rest]]; [done|by eexists|].
    apply argmax_nonempty. intros Hempty.
    assert (Hin : In a (List.map fst
      (PredictiveDialer.agent_scores agent_performance noise 0 (a :: b :: rest) []))).
    { apply agent_scores_keys. left. by left. }
    by rewrite Hempty in Hin. }
  destruct Hsome as [agent_id Hsel]. exists agent_id. split; [done|].
  apply list_elem_of_In. by apply (select_best_agent_In _ _ _ _ Hsel).
Qed.

(** Witness of X16: of agents 2 and 1, the one with the better record is
    picked when the noise is nil. *)
Lemma select_best_agent_picks_from_pool_witness :
  PredictiveDialer._select_best_agent two_agent_performance no_noise [2; 1] = Some 1
  ∧ ∃ agent_id,
      PredictiveDialer._select_best_agent two_agent_performance no_noise [2; 1]
      = Some agent_id
      ∧ agent_id ∈ [2; 1].
Proof.
  split; [by vm_compute|].
  apply (select_best_agent_picks_from_pool two_agent_performance no_noise [2; 1]).
  discriminate.
Defined.

Section PacingLoop.

Lemma initiate_call_rows now send_ok campaign_id lead_id agent_id (w : World.t) :
  (length (Db.calls (World.db
             (fst (World.initiate_call now send_ok campaign_id lead_id agent_id w))))
   ≤ S (length (Db.calls (World.db w))))%nat.
Proof.
  destruct (initiate_call_shape now send_ok campaign_id lead_id agent_id w)
    as (_ & _ & [Hsame|(c & Hmore & _)]).
  - rewrite Hsame. lia.
  - rewrite Hmore, length_app. cbn. lia.
Qed.

Lemma place_calls_bounds n i now noises send_oks campaign_id perf
    (available : list Z) (w : World.t) (placed0 : list Z) :
  let r :=
    PredictiveDialer.place_calls n i now noises send_oks campaign_id perf available w
      placed0 in
  (length (PredictiveDialer.placed r) ≤ length placed0 + Nat.min n (length available))%nat
  ∧ (length (Db.calls (World.db (PredictiveDialer.world r)))
     ≤ length (Db.calls (World.db w)) + n)%nat.
Proof.
  cbn zeta. revert i available w placed0.
  induction n as [|n IH]; intros i available w placed0;
    cbn [PredictiveDialer.place_calls].
  - cbn. lia.
  - destruct (DialerService.get_next_lead now campaign_id (World.db w))
      as [[lead|]|e]; [|cbn; lia..].
    destruct (PredictiveDialer._select_best_agent perf (noises i) available)
      as [agent_id|] eqn:Hsel; [|cbn; lia].
    apply select_best_agent_In in Hsel.
    pose proof (initiate_call_rows now (send_oks i) campaign_id (Lead.id lead)
                  agent_id w) as Hrows.
    destruct (World.initiate_call now (send_oks i) campaign_id (Lead.id lead)
                agent_id w) as [w' r].
    cbn [fst] in Hrows.
    destruct (truthy_int r).
    + rewrite bool_decide_eq_true_2 by (by apply list_elem_of_In).
      pose proof (list_remove_length agent_id available Hsel) as Hlen.
      destruct (IH (S i) (PredictiveDialer.list_remove agent_id available) w'
                  (app placed0 [default 0 r])) as [Hplaced Hcalls].
      rewrite length_app in Hplaced. cbn [length] in Hplaced. split; lia.
    + destruct (IH (S i) available w' placed0) as [Hplaced Hcalls]. split; lia.
Qed.

End PacingLoop.

(** X17.  The placement loop of a predictive cycle gives each agent of its
    pool at most one call.  However many placements were computed, whatever
    the random draws and whichever submissions fail, the calls it places
    are no more than the agents it started with and no more than the
    placements asked for, and it creates at most one call row per turn.
    (When the pool runs dry before the turns do, the next turn finds nobody
    to select and the loop ends there.) *)
Theorem pacing_loop_places_one_call_per_agent
    (calls_to_make i : nat) (now : datetime) (noises : nat → nat → Q)
    (send_oks : nat → bool) (campaign_id : Z)
    (agent_performance : gmap Z PredictiveDialer.performance)
    (available_agents : list Z) (w : World.t) :
  let r :=
    PredictiveDialer.place_calls calls_to_make i now noises send_oks campaign_id
      agent_performance available_agents w [] in
  (length (PredictiveDialer.placed r) ≤ length available_agents)%nat
  ∧ (length (PredictiveDialer.placed r) ≤ calls_to_make)%nat
  ∧ (length (Db.calls (World.db (PredictiveDialer.world r)))
     ≤ length (Db.calls (World.db w)) + calls_to_make)%nat.
Proof.
  cbn zeta.
  destruct (place_calls_bounds calls_to_make i now noises send_oks campaign_id
              agent_performance available_agents w []) as [Hplaced Hcalls].
  cbn [length] in Hplaced. repeat split; lia.
Qed.

(** Two agents and six placements asked for: two calls go out, and the
    third turn finds the pool empty. *)
Example pacing_loop_runs_dry :
  let r :=
    PredictiveDialer.place_calls 6 0 1000000 (fun _ => no_noise) (fun _ => true) 1
      ∅ [1; 2] (Engine.initial four_leads_db ready_sip) [] in
  PredictiveDialer.placed r = [1; 2]
  ∧ PredictiveDialer.remaining_agents r = []
  ∧ PredictiveDialer.stopped r = PredictiveDialer.no_agent_to_select.
Proof. by vm_compute. Qed.

(** The pacing of the exact-rational model is an instance of the pacing
    with the float arithmetic left open. *)
Lemma calculate_calls_needed_is_capped now call_history db statuses available_agents
    predictive_ratio :
  ∃ calls_needed,
    PredictiveDialer._calculate_calls_needed now call_history db statuses
      available_agents predictive_ratio
    = PredictiveDialer._calculate_calls_needed_from available_agents calls_needed.
Proof.
  unfold PredictiveDialer._calculate_calls_needed,
    PredictiveDialer._calculate_calls_needed_from.
  destruct available_agents as [|a rest]; [by exists (Ok 0)|]. cbn zeta.
  destruct (Qeq_bool _ 0); [by exists (Raise ZeroDivisionError)|].
  by eexists (Ok _).
Qed.

Lemma cap_calls_needed_range (available_agents : list Z) (calls_needed : Z) :
  0 ≤ PredictiveDialer.cap_calls_needed available_agents calls_needed ≤ 10.
Proof. unfold PredictiveDialer.cap_calls_needed. cbn zeta. lia. Qed.

(** X18.  A predictive cycle is bounded, whatever its float arithmetic
    gives.  For every outcome of the expression
    [int(total_agents * predictive_ratio / answer_rate)], an integer of any
    size or an exception, and however long the dialer keeps running: when
    the cycle gets to place calls, it was asked for at most ten placements,
    it creates at most ten call rows, and it places no more calls than the
    campaign has assignments; when it finds nobody available or the pacing
    raises (which it does exactly with the exception of that expression),
    it creates no call row. *)
Theorem predictive_cycle_is_bounded
    (now : datetime) (noises : nat → nat → Q) (send_oks : nat → bool)
    (turns_while_running : nat) (campaign_id : Z) (calls_needed : result Z)
    (agent_performance : gmap Z PredictiveDialer.performance) (w : World.t) :
  match snd (PredictiveDialer.cycle now noises send_oks turns_while_running
               campaign_id calls_needed agent_performance w) with
  | PredictiveDialer.paced calls_to_make r =>
      0 ≤ calls_to_make ≤ 10
      ∧ (length (PredictiveDialer.placed r)
         ≤ length (Db.assigned_agent_ids campaign_id (World.db w)))%nat
      ∧ (length (Db.calls (World.db (PredictiveDialer.world r)))
         ≤ length (Db.calls (World.db w)) + 10)%nat
  | PredictiveDialer.nobody_available w' =>
      Db.calls (World.db w') = Db.calls (World.db w)
  | PredictiveDialer.pacing_raised w' e =>
      calls_needed = Raise e ∧ Db.calls (World.db w') = Db.calls (World.db w)
  end.
Proof.
  unfold PredictiveDialer.cycle, PredictiveDialer._update_metrics.
  destruct (DialerService.get_available_agents campaign_id (World.db w)
              (World.agent_statuses w)) as [agents0 statuses1].
  unfold World.get_available_agents.
  set (w1 := World.set_agent_statuses statuses1 w).
  pose proof (available_loop_fst (Db.assigned_agent_ids campaign_id (World.db w1))
                (World.agent_statuses w1) []) as Hlist.
  unfold DialerService.get_available_agents.
  destruct (DialerService.available_loop _ (World.agent_statuses w1) [])
    as [available statuses2].
  cbn [fst snd app] in Hlist. cbn [snd].
  destruct available as [|a rest]; [done|].
  set (w2 := World.set_agent_statuses statuses2 w1).
  unfold PredictiveDialer._calculate_calls_needed_from.
  destruct calls_needed as [n|e]; [|done].
  pose proof (cap_calls_needed_range (a :: rest) n) as Hn.
  set (calls_to_make := PredictiveDialer.cap_calls_needed (a :: rest) n) in *.
  destruct (place_calls_bounds (Nat.min (Z.to_nat calls_to_make) turns_while_running)
              0%nat now noises send_oks campaign_id
              (fold_left
                 (fun perf agent_id =>
                    <[agent_id :=
                        PredictiveDialer.performance_of
                          (PredictiveDialer.recent_calls now campaign_id (World.db w))
                          agent_id]> perf)
                 agents0 agent_performance)
              (a :: rest) w2 []) as (Hplaced & Hrows).
  cbn [length Nat.add] in Hplaced.
  split; [lia|]. split.
  - pose proof (filter_length_le (is_available statuses2)
                  (Db.assigned_agent_ids campaign_id (World.db w1))) as Hle.
    rewrite <- Hlist in Hle. change (World.db w1) with (World.db w) in Hle.
    cbn [length] in Hplaced, Hle. lia.
  - etrans; [exact Hrows|]. change (World.db w2) with (World.db w). lia.
Qed.

(** Two available agents, an expression worth nine: six placements are
    asked for and two calls go out.  With a ratio that makes the expression
    raise, nothing is placed. *)
Example predictive_cycle_runs :
  (match snd (PredictiveDialer.cycle 1000000 (fun _ => no_noise) (fun _ => true) 10 1
                (Ok 9) ∅ (Engine.initial four_leads_db ready_sip)) with
   | PredictiveDialer.paced calls_to_make r =>
       calls_to_make = 6 ∧ length (PredictiveDialer.placed r) = 2%nat
   | _ => False
   end)
  ∧ (match snd (PredictiveDialer.cycle 1000000 (fun _ => no_noise) (fun _ => true) 10 1
                  (Raise TypeError) ∅ (Engine.initial four_leads_db ready_sip)) with
     | PredictiveDialer.pacing_raised w' e =>
         e = TypeError ∧ Db.calls (World.db w') = []
     | _ => False
     end).
Proof. split; by vm_compute. Qed.

(** A submitted [initiate_call] returns the fresh call id and appends the
    [initiated] row. *)
Lemma initiate_call_places_call now send_ok campaign_id lead_id agent_id (w : World.t)
    (lead : Lead.t) (phone : string) :
  Db.lead_get lead_id (World.db w) = Some lead →
  Lead.phone_number lead = Some phone →
  originate_submitted send_ok (World.db w) (World.sip w) = true →
  let r := World.initiate_call now send_ok campaign_id lead_id agent_id w in
  snd r = Some (Db.next_call_id (World.db w))
  ∧ Db.calls (World.db (fst r))
    = app (Db.calls (World.db w))
        [Call.mk (Db.next_call_id (World.db w)) lead_id campaign_id (Some agent_id)
           phone "outbound" "initiated" (Some now) None None None].
Proof.
  intros Hlead Hphone Hsub. cbn zeta. unfold World.initiate_call.
  rewrite Hlead, Hphone.
  match goal with
  | |- context [SipService.originate_call ?a ?b ?c ?d ?e ?f ?g] =>
      pose proof (originate_call_submitted a b c d e f g) as Hs;
      destruct (SipService.originate_call a b c d e f g) as [sip1 submitted]
  end.
  cbn [snd] in Hs.
  change (submitted = originate_submitted send_ok (World.db w) (World.sip w)) in Hs.
  rewrite Hsub in Hs. subst submitted. by cbn.
Qed.

(** X19.  The manual-call route applies none of the lead filters of
    [get_next_lead].  For a running manual campaign, a lead of the campaign
    that has a phone number, a caller who may use the campaign and is not
    known to be otherwise engaged, and a switch that accepts the action, the
    route answers 201 with the fresh call id and the lead has one more call
    row: whatever the lead's status, however many calls it already has and
    however recent the last one is. *)
Theorem manual_call_skips_lead_filters
    (now : datetime) (send_ok : bool) (role : string) (current_user_id : Z)
    (data : gmap string Z) (active_campaigns : gmap Z DialerService.dialer)
    (w : World.t) (lead_id campaign_id : Z) (campaign : Campaign.t)
    (lead : Lead.t) (phone : string) :
  data !! "lead_id" = Some lead_id → lead_id ≠ 0 →
  data !! "campaign_id" = Some campaign_id → campaign_id ≠ 0 →
  Db.campaign_get campaign_id (World.db w) = Some campaign →
  Campaign.dialer_mode campaign = "manual" →
  Db.lead_get lead_id (World.db w) = Some lead →
  Lead.campaign_id lead = campaign_id →
  Lead.phone_number lead = Some phone →
  (role = "agent" → Routes.is_assigned campaign_id current_user_id (World.db w) = true) →
  (∀ a, World.agent_statuses w !! current_user_id = Some a →
        AgentStatus.status a = "available") →
  active_campaigns !! campaign_id = Some DialerService.manual_dialer →
  originate_submitted send_ok (World.db w) (World.sip w) = true →
  let r := Routes.manual_call now send_ok role current_user_id (Some data)
             active_campaigns w in
  snd r = Routes.Created (Db.next_call_id (World.db w)) lead_id campaign_id
            current_user_id now
  ∧ attempts lead_id (World.db (fst r)) = attempts lead_id (World.db w) + 1.
Proof.
  intros Hlid Hlid0 Hcid Hcid0 Hcampaign Hmode Hlead Hlc Hphone Hrole Hfree Hrun Hsub.
  cbn zeta. unfold Routes.manual_call.
  rewrite bool_decide_eq_false_2 by (intros ->; by rewrite lookup_empty in Hlid).
  rewrite Hlid, Hcid. cbn [truthy_int default orb].
  rewrite (proj2 (Z.eqb_neq lead_id 0) Hlid0), (proj2 (Z.eqb_neq campaign_id 0) Hcid0).
  cbn [negb orb]. change (id campaign_id) with campaign_id.
  change (id lead_id) with lead_id. rewrite Hcampaign, Hmode.
  rewrite bool_decide_eq_true_2 by done. cbn [negb].
  destruct (Routes.lead_in_campaign lead_id campaign_id (World.db w)) as [l0|] eqn:Hin.
  2: { exfalso. unfold Routes.lead_in_campaign in Hin. unfold Db.lead_get in Hlead.
       pose proof (find_some _ _ Hlead) as [Hmem Hid].
       pose proof (find_none _ _ Hin lead Hmem) as Hno. cbn beta in Hno.
       rewrite Hid in Hno. by rewrite bool_decide_eq_true_2 in Hno. }
  assert (Haccess : bool_decide (role = "agent")
                    && negb (Routes.is_assigned campaign_id current_user_id (World.db w))
                    = false).
  { destruct (bool_decide (role = "agent")) eqn:Hr; [|done].
    apply bool_decide_eq_true in Hr. by rewrite (Hrole Hr). }
  rewrite Haccess. unfold DialerService.get_agent_status.
  assert (Hbusy : match World.agent_statuses w !! current_user_id with
                  | Some a => negb (bool_decide (AgentStatus.status a = "available"))
                  | None => false
                  end = false).
  { destruct (World.agent_statuses w !! current_user_id) as [a|] eqn:Ha; [|done].
    by rewrite (Hfree a eq_refl). }
  rewrite Hbusy, Hrun.
  destruct (initiate_call_places_call now send_ok campaign_id lead_id current_user_id w
              lead phone Hlead Hphone Hsub) as [Hret Hrows].
  destruct (World.initiate_call now send_ok campaign_id lead_id current_user_id w)
    as [w' r].
  cbn [fst snd] in Hret, Hrows. subst r. cbn [truthy_int default].
  rewrite (proj2 (Z.eqb_neq _ 0)) by (pose proof (next_call_id_positive (World.db w)); lia).
  cbn [negb fst snd]. split; [done|].
  rewrite (attempts_one_more lead_id (World.db w) (World.db w') _ Hrows).
  cbn [Call.lead_id]. by rewrite bool_decide_eq_true_2.
Qed.

(** Lead 1 is marked [do_not_call] and has used its three attempts, the
    last one at the very instant of the request; agent 7 still gets a
    fourth call to it. *)
Lemma manual_call_skips_lead_filters_witness :
  attempts 1 exhausted_lead_db = 3
  ∧ DialerService.get_next_lead 300000000 1 exhausted_lead_db = Ok None
  ∧ (let r := Routes.manual_call 300000000 true "agent" 7 (Some call_lead_1)
                running_manual (Engine.initial exhausted_lead_db ready_sip) in
     snd r = Routes.Created 4 1 1 7 300000000
     ∧ attempts 1 (World.db (fst r)) = 3 + 1).
Proof.
  split; [vm_compute; reflexivity|]. split; [vm_compute; reflexivity|].
  apply (manual_call_skips_lead_filters 300000000 true "agent" 7 call_lead_1
           running_manual (Engine.initial exhausted_lead_db ready_sip) 1 1
           (Campaign.mk 1 "active" "manual" 3 60 None None)
           (Lead.mk 1 1 (Some "5550001") "do_not_call" 1 (Some 300000000) None)
           "5550001").
  - vm_compute; reflexivity.
  - lia.
  - vm_compute; reflexivity.
  - lia.
  - vm_compute; reflexivity.
  - reflexivity.
  - vm_compute; reflexivity.
  - reflexivity.
  - reflexivity.
  - intros _. vm_compute; reflexivity.
  - intros a Ha. vm_compute in Ha. discriminate Ha.
  - vm_compute; reflexivity.
  - vm_compute; reflexivity.
Defined.

(** X20.  A manual-call request that is refused before the call is tried
    changes nothing.  Every refusal other than [CALL_INITIATION_FAILED]
    leaves the store, the agent registry and the switch connection exactly
    as they were. *)
Theorem manual_call_refusal_changes_nothing
    (now : datetime) (send_ok : bool) (role : string) (current_user_id : Z)
    (data : option (gmap string Z)) (active_campaigns : gmap Z DialerService.dialer)
    (w : World.t) (code : string) (http_status : Z) :
  snd (Routes.manual_call now send_ok role current_user_id data active_campaigns w)
  = Routes.Refused code http_status →
  code ≠ "CALL_INITIATION_FAILED" →
  fst (Routes.manual_call now send_ok role current_user_id data active_campaigns w) = w.
Proof.
  unfold Routes.manual_call. intros Hrefused Hcode.
  destruct data as [d|]; [|done].
  destruct (bool_decide (d = ∅) || negb (truthy_int (d !! "lead_id"))
            || negb (truthy_int (d !! "campaign_id"))); [done|].
  destruct (Db.campaign_get _ (World.db w)) as [campaign|]; [|done].
  destruct (negb (bool_decide (Campaign.dialer_mode campaign = "manual"))); [done|].
  destruct (Routes.lead_in_campaign _ _ (World.db w)) as [l0|]; [|done].
  destruct (bool_decide (role = "agent") && negb (Routes.is_assigned _ _ _)); [done|].
  destruct (match DialerService.get_agent_status current_user_id (World.agent_statuses w)
            with Some a => _ | None => _ end); [done|].
  destruct (active_campaigns !! _) as [[| |]|]; try done.
  destruct (World.initiate_call _ _ _ _ _ w) as [w' r].
  destruct (truthy_int r); cbn [snd] in Hrefused; [done|].
  injection Hrefused as <- _. done.
Qed.

(** A supervisor asks for a call in a campaign whose dialer is not
    running. *)
Lemma manual_call_refusal_changes_nothing_witness :
  fst (Routes.manual_call 300000000 true "supervisor" 9 (Some call_lead_1) ∅
         (Engine.initial exhausted_lead_db ready_sip))
  = Engine.initial exhausted_lead_db ready_sip.
Proof.
  apply (manual_call_refusal_changes_nothing 300000000 true "supervisor" 9
           (Some call_lead_1) ∅ (Engine.initial exhausted_lead_db ready_sip)
           "DIALER_NOT_RUNNING" 400).
  - vm_compute; reflexivity.
  - discriminate.
Defined.

(** ** The wire format *)

Section Wire.

Lemma string_app_assoc (s1 s2 s3 : string) :
  (s1 +:+ s2) +:+ s3 = s1 +:+ s2 +:+ s3.
Proof.
  induction s1 as [|c s1 IH]; [done|].
  change (String c ((s1 +:+ s2) +:+ s3) = String c (s1 +:+ s2 +:+ s3)). by f_equal.
Qed.

Lemma string_app_nil_r (s : string) : s +:+ "" = s.
Proof.
  induction s as [|c s IH]; [done|]. change (String c (s +:+ "") = String c s).
  by f_equal.
Qed.

Lemma contains_char_app (c : Ascii.ascii) (s1 s2 : string) :
  contains_char c (s1 +:+ s2) = contains_char c s1 || contains_char c s2.
Proof.
  induction s1 as [|c1 s1 IH]; [done|].
  change (contains_char c (String c1 (s1 +:+ s2))
          = contains_char c (String c1 s1) || contains_char c s2).
  cbn [contains_char]. rewrite IH. by rewrite orb_assoc.
Qed.

Lemma all_chars_app (P : Ascii.ascii → bool) (s1 s2 : string) :
  all_chars P (s1 +:+ s2) = all_chars P s1 && all_chars P s2.
Proof.
  induction s1 as [|c1 s1 IH]; [done|].
  change (all_chars P (String c1 (s1 +:+ s2))
          = all_chars P (String c1 s1) && all_chars P s2).
  cbn [all_chars]. rewrite IH. by rewrite andb_assoc.
Qed.

Lemma rstrip_no_space (s : string) :
  all_chars not_space s = true → AsteriskAMIClient.rstrip s = s.
Proof.
  induction s as [|c s IH]; [done|]. cbn [all_chars AsteriskAMIClient.rstrip].
  intros [Hc Hs]%andb_true_iff. rewrite (IH Hs).
  destruct s; [|done]. unfold not_space in Hc. apply negb_true_iff in Hc.
  by rewrite Hc.
Qed.

Lemma all_chars_plain (s : string) :
  all_chars plain_char s = true →
  all_chars is_ascii s = true ∧ all_chars not_space s = true.
Proof.
  induction s as [|c s IH]; [done|]. cbn [all_chars]. unfold plain_char at 1.
  intros [[Ha Hn]%andb_true_iff Hs]%andb_true_iff.
  destruct (IH Hs) as [-> ->]. by rewrite Ha, Hn.
Qed.

(** An ASCII text without white space is a wire value. *)
Lemma plain_wire_value (s : string) :
  all_chars plain_char s = true → wire_value s.
Proof.
  intros [Hascii Hs]%all_chars_plain. split; [done|]. split.
  - unfold AsteriskAMIClient.strip.
    assert (AsteriskAMIClient.lstrip s = s) as ->.
    { destruct s as [|c s]; [done|]. cbn [all_chars] in Hs.
      apply andb_true_iff in Hs as [Hc _]. unfold not_space in Hc.
      apply negb_true_iff in Hc. cbn [AsteriskAMIClient.lstrip]. by rewrite Hc. }
    by apply rstrip_no_space.
  - clear Hascii. induction s as [|c s IH]; [done|].
    cbn [all_chars contains_char] in *.
    apply andb_true_iff in Hs as [Hc Hs]. rewrite (IH Hs), orb_false_r.
    destruct (Ascii.eqb c carriage_return) eqn:Heq; [|done].
    apply Ascii.eqb_eq in Heq. subst c. done.
Qed.

Lemma pretty_N_char_plain (x : N) : plain_char (pretty_N_char x) = true.
Proof. unfold pretty_N_char. by repeat case_match. Qed.

Lemma pretty_N_go_plain (x : N) (s : string) :
  all_chars plain_char s = true → all_chars plain_char (pretty_N_go x s) = true.
Proof.
  revert s. induction (N.lt_wf_0 x) as [x _ IH]; intros s Hs.
  assert (x = 0 ∨ 0 < x)%N as [->|Hpos] by lia.
  - by rewrite pretty_N_go_0.
  - rewrite pretty_N_go_step by done. apply IH.
    + by apply N.div_lt.
    + cbn [all_chars]. by rewrite pretty_N_char_plain, Hs.
Qed.

Lemma pretty_N_plain (x : N) : all_chars plain_char (pretty x) = true.
Proof.
  unfold pretty, pretty_N. case_decide; [done|]. by apply pretty_N_go_plain.
Qed.

(** A rendered integer is ASCII text without white space. *)
Lemma pretty_Z_plain (z : Z) : all_chars plain_char (pretty z) = true.
Proof.
  destruct z as [|p|p]; [done| |].
  - apply (pretty_N_plain (N.pos p)).
  - change (pretty (Z.neg p)) with ("-" +:+ pretty (N.pos p)).
    rewrite all_chars_app. apply (pretty_N_plain (N.pos p)).
Qed.

(** Every action id is a wire value. *)
Lemma action_id_wire_value {H : Type} (now : datetime) (c : AsteriskAMIClient.t H) :
  wire_value (snd (AsteriskAMIClient._get_action_id now c)).
Proof.
  apply plain_wire_value. unfold AsteriskAMIClient._get_action_id. cbn [snd].
  rewrite !all_chars_app, !pretty_Z_plain. done.
Qed.

Lemma split_crlf_go_step (c c' : Ascii.ascii) (rest cur : string) :
  AsteriskAMIClient.split_crlf_go (String c (String c' rest)) cur
  = if Ascii.eqb c (Ascii.ascii_of_nat 13) && Ascii.eqb c' (Ascii.ascii_of_nat 10)
    then cur :: AsteriskAMIClient.split_crlf_go rest ""
    else AsteriskAMIClient.split_crlf_go (String c' rest) (cur +:+ String c "").
Proof. done. Qed.

(** [split('\r\n')] cuts off a first line that has no carriage return. *)
Lemma split_crlf_go_line (line rest cur : string) :
  contains_char carriage_return line = false →
  AsteriskAMIClient.split_crlf_go (line +:+ CRLF +:+ rest) cur
  = (cur +:+ line) :: AsteriskAMIClient.split_crlf_go rest "".
Proof.
  revert cur. induction line as [|c line IH]; intros cur Hline.
  - rewrite string_app_nil_r. done.
  - cbn [contains_char] in Hline. apply orb_false_elim in Hline as [Hc Hline].
    change (String c line +:+ CRLF +:+ rest) with (String c (line +:+ CRLF +:+ rest)).
    destruct (line +:+ CRLF +:+ rest) as [|c' rest'] eqn:Htail.
    { by destruct line. }
    rewrite split_crlf_go_step.
    change (Ascii.ascii_of_nat 13) with carriage_return. rewrite Hc. cbn [andb].
    rewrite (IH _ Hline), string_app_assoc. done.
Qed.

(** [split(':', 1)] on a line whose key has no colon. *)
Lemma split_colon_line (key value : string) :
  contains_char colon key = false →
  AsteriskAMIClient.split_colon (key +:+ ":" +:+ value) = Some (key, value).
Proof.
  induction key as [|c key IH]; intros Hkey; [done|].
  cbn [contains_char] in Hkey. apply orb_false_elim in Hkey as [Hc Hkey].
  change (String c key +:+ ":" +:+ value) with (String c (key +:+ ":" +:+ value)).
  cbn [AsteriskAMIClient.split_colon].
  change (Ascii.ascii_of_nat 58) with colon. rewrite Hc.
  by rewrite (IH Hkey).
Qed.

(** The line [send_action] writes for an entry is read back as that
    entry. *)
Lemma parse_line_entry (msg : message) (key value : string) :
  wire_key key → wire_value value →
  parse_line msg (key +:+ ": " +:+ value) = <[key := value]> msg
  ∧ contains_char carriage_return (key +:+ ": " +:+ value) = false.
Proof.
  intros [(_ & Hk & Hkcr) Hcolon] (_ & Hv & Hvcr). split.
  - unfold parse_line.
    change (key +:+ ": " +:+ value)
      with (key +:+ ":" +:+ String (Ascii.ascii_of_nat 32) value).
    rewrite (split_colon_line _ _ Hcolon), Hk.
    change (AsteriskAMIClient.strip (String (Ascii.ascii_of_nat 32) value))
      with (AsteriskAMIClient.strip value).
    by rewrite Hv.
  - rewrite !contains_char_app, Hkcr, Hvcr. done.
Qed.

Lemma render_parameters_from (parameters : list (string * string)) (acc : string) :
  fold_left (fun acc kv => acc +:+ fst kv +:+ ": " +:+ snd kv +:+ CRLF) parameters acc
  = acc +:+ AsteriskAMIClient.render_parameters parameters.
Proof.
  unfold AsteriskAMIClient.render_parameters.
  revert acc. induction parameters as [|kv ps IH]; intros acc; cbn [fold_left].
  - by rewrite string_app_nil_r.
  - rewrite (IH (acc +:+ _)), (IH ("" +:+ _)).
    change ("" +:+ fst kv +:+ ": " +:+ snd kv +:+ CRLF)
      with (fst kv +:+ ": " +:+ snd kv +:+ CRLF).
    by rewrite !string_app_assoc.
Qed.

Lemma render_parameters_cons (kv : string * string) (ps : list (string * string)) :
  AsteriskAMIClient.render_parameters (kv :: ps)
  = (fst kv +:+ ": " +:+ snd kv) +:+ CRLF +:+ AsteriskAMIClient.render_parameters ps.
Proof.
  unfold AsteriskAMIClient.render_parameters at 1. cbn [fold_left].
  rewrite render_parameters_from.
  change ("" +:+ fst kv +:+ ": " +:+ snd kv +:+ CRLF)
    with (fst kv +:+ ": " +:+ snd kv +:+ CRLF).
  by rewrite !string_app_assoc.
Qed.

(** The parameter lines and the blank line that ends the message. *)
Lemma parse_parameters (parameters : list (string * string)) (msg : message) :
  Forall wire_entry parameters →
  fold_left parse_line
    (AsteriskAMIClient.split_crlf_go
       (AsteriskAMIClient.render_parameters parameters +:+ CRLF) "") msg
  = fold_left (fun msg kv => <[fst kv := snd kv]> msg) parameters msg.
Proof.
  intros Hwire. revert msg.
  induction Hwire as [|kv ps [Hk Hv] _ IH]; intros msg; [done|].
  rewrite render_parameters_cons.
  rewrite (string_app_assoc (fst kv +:+ ": " +:+ snd kv)), (string_app_assoc CRLF).
  destruct (parse_line_entry msg _ _ Hk Hv) as [Hparse Hcr].
  rewrite (split_crlf_go_line _ _ "" Hcr). cbn [fold_left].
  change ("" +:+ fst kv +:+ ": " +:+ snd kv) with (fst kv +:+ ": " +:+ snd kv).
  rewrite Hparse. apply IH.
Qed.

End Wire.

(** X21.  What [send_action] writes, [_parse_message] reads back.  When the
    action name is ASCII text free of surrounding white space and carriage
    returns, and so are the keys and values of the parameters, and no key
    contains a colon, the text written to the socket parses to the dict
    with [Action], [ActionID] (the id the call returns) and every parameter;
    the blank line that ends the message adds nothing. *)
Theorem sent_action_parses_back {H : Type}
    (now : datetime) (action : string) (parameters : list (string * string))
    (callback : option H) (c : AsteriskAMIClient.t H) :
  AsteriskAMIClient.authenticated c = true →
  wire_value action →
  Forall wire_entry parameters →
  let r := AsteriskAMIClient.send_action now true action parameters callback c in
  ∃ action_id text,
    snd r = Ok action_id
    ∧ AsteriskAMIClient.sent (fst r) = app (AsteriskAMIClient.sent c) [text]
    ∧ AsteriskAMIClient._parse_message text
      = as_message (("Action", action) :: ("ActionID", action_id) :: parameters).
Proof.
  intros Hauth Haction Hwire. cbn zeta.
  pose proof (action_id_wire_value now c) as Hid.
  unfold AsteriskAMIClient.send_action. rewrite Hauth. cbn [negb].
  unfold AsteriskAMIClient._get_action_id in *. cbn [snd] in Hid.
  match type of Hid with wire_value ?a => set (action_id := a) in * end.
  cbv beta iota. eexists action_id, _. split; [done|]. split.
  { cbn [fst]. by destruct callback. }
  unfold AsteriskAMIClient._parse_message, AsteriskAMIClient.split_crlf, as_message.
  change (fun (msg : message) (line : string) =>
            match AsteriskAMIClient.split_colon line with
            | Some (key, value) =>
                <[AsteriskAMIClient.strip key := AsteriskAMIClient.strip value]> msg
            | None => msg
            end) with parse_line.
  assert (Hkey : ∀ k, all_chars plain_char k = true → contains_char colon k = false →
                      wire_key k).
  { intros k Hk Hc. split; [by apply plain_wire_value|done]. }
  destruct (parse_line_entry ∅ "Action" action) as [Hp1 Hcr1];
    [by apply Hkey|done|].
  destruct (parse_line_entry (<["Action" := action]> ∅) "ActionID" action_id)
    as [Hp2 Hcr2]; [by apply Hkey|done|].
  change ("Action: " +:+ action +:+ CRLF +:+ "ActionID: " +:+ action_id +:+ CRLF
          +:+ AsteriskAMIClient.render_parameters parameters +:+ CRLF)
    with (("Action" +:+ ": " +:+ action) +:+ CRLF
          +:+ ("ActionID" +:+ ": " +:+ action_id) +:+ CRLF
          +:+ AsteriskAMIClient.render_parameters parameters +:+ CRLF).
  rewrite (split_crlf_go_line _ _ "" Hcr1). cbn [fold_left].
  change ("" +:+ ("Action" +:+ ": " +:+ action)) with ("Action" +:+ ": " +:+ action).
  rewrite Hp1, (split_crlf_go_line _ _ "" Hcr2). cbn [fold_left].
  change ("" +:+ ("ActionID" +:+ ": " +:+ action_id))
    with ("ActionID" +:+ ": " +:+ action_id).
  rewrite Hp2. by apply parse_parameters.
Qed.

(** The [Hangup] action for channel [SIP/trunk/5551234]. *)
Lemma sent_action_parses_back_witness :
  ∃ action_id text,
    snd (AsteriskAMIClient.send_action 1000000 true "Hangup"
           [("Channel", "SIP/trunk/5551234")] None ready_client) = Ok action_id
    ∧ AsteriskAMIClient.sent
        (fst (AsteriskAMIClient.send_action 1000000 true "Hangup"
                [("Channel", "SIP/trunk/5551234")] None ready_client))
      = app (AsteriskAMIClient.sent ready_client) [text]
    ∧ AsteriskAMIClient._parse_message text
      = as_message
          [("Action", "Hangup"); ("ActionID", action_id);
           ("Channel", "SIP/trunk/5551234")].
Proof.
  apply (sent_action_parses_back 1000000 "Hangup" [("Channel", "SIP/trunk/5551234")]
           None ready_client).
  - reflexivity.
  - split; [|split]; vm_compute; reflexivity.
  - constructor; [|constructor].
    split; [split; [split; [|split]|]|split; [|split]]; vm_compute; reflexivity.
Defined.

(** X22.  Asking the switch to hang up does not end the call.  When
    [hangup_call] submits the [Hangup] action for a call in flight and the
    switch's response to that action is read, the only trace is a
    [hangup_response] call event: the call rows are as they were, the call
    is still in flight and no subscriber is told anything.  (The call ends
    when the [Hangup] event for its channel arrives.) *)
Theorem hangup_request_only_logs
    (now later : datetime) (send_ok : bool) (call_id : Z) (db : Db.t)
    (s : SipService.t) (active_config : SipConfiguration.t)
    (ami_client : AsteriskAMIClient.t SipService.callback) (response : message) :
  Db.active_configuration db = Some active_config →
  SipService.ami_clients s !! SipConfiguration.id active_config = Some ami_client →
  snd (SipService.hangup_call now send_ok call_id db s) = true →
  response !! "Event" = None →
  response !! "ActionID" = Some (snd (AsteriskAMIClient._get_action_id now ami_client)) →
  let s1 := fst (SipService.hangup_call now send_ok call_id db s) in
  let r := SipService.on_message later (SipConfiguration.id active_config) response
             db s1 in
  fst r
  = Db.set_call_events
      (app (Db.call_events db)
         [CallEvent.set_event_data response
            (CallEvent.mk call_id "hangup_response" None later)]) db
  ∧ SipService.active_calls (snd r) = SipService.active_calls s
  ∧ SipService.delivered (snd r) = SipService.delivered s
  ∧ dict_get call_id (SipService.active_calls s) ≠ None.
Proof.
  intros Hcfg Hclient Hsent Hevent Haction. cbn zeta.
  assert (Hne : response ≠ ∅).
  { intros ->. by rewrite lookup_empty in Haction. }
  revert Hsent. unfold SipService.hangup_call.
  destruct (dict_get call_id (SipService.active_calls s)) as [info|]; [|done].
  rewrite Hcfg, Hclient.
  unfold AsteriskAMIClient.hangup_call, AsteriskAMIClient.send_action.
  destruct (AsteriskAMIClient.authenticated ami_client); [|done]. cbn [negb].
  destruct (AsteriskAMIClient._get_action_id now ami_client) as [c1 action_id] eqn:Hid.
  cbn [snd] in Haction.
  destruct send_ok; [|done]. cbn [fst snd]. intros _.
  unfold SipService.on_message. cbn [SipService.ami_clients SipService.set_ami_clients].
  rewrite lookup_insert_eq, bool_decide_eq_false_2 by done.
  unfold AsteriskAMIClient._handle_message. rewrite Hevent, Haction.
  cbn [AsteriskAMIClient.response_handlers AsteriskAMIClient.set_sent
       AsteriskAMIClient.set_response_handlers].
  rewrite lookup_insert_eq. cbn [fold_left AsteriskAMIClient.handler
    AsteriskAMIClient.argument fst snd SipService.run_callback].
  unfold SipService._handle_hangup_response. cbn [fst snd].
  by repeat split.
Qed.

(** Call 1 is in flight; its hang-up is requested at second 9 and
    acknowledged at second 10. *)
Lemma hangup_request_only_logs_witness :
  let db := World.db wired_in_flight_world in
  let s := World.sip wired_in_flight_world in
  let r := SipService.on_message 10000000 1 hangup_action_response db
             (fst (SipService.hangup_call 9000000 true 1 db s)) in
  fst r
  = Db.set_call_events
      (app (Db.call_events db)
         [CallEvent.set_event_data hangup_action_response
            (CallEvent.mk 1 "hangup_response" None 10000000)]) db
  ∧ SipService.active_calls (snd r) = SipService.active_calls s
  ∧ SipService.delivered (snd r) = SipService.delivered s
  ∧ dict_get 1 (SipService.active_calls s) ≠ None.
Proof.
  apply (hangup_request_only_logs 9000000 10000000 true 1
           (World.db wired_in_flight_world) (World.sip wired_in_flight_world)
           (SipConfiguration.mk 1 "trunk" true) in_flight_client
           hangup_action_response).
  - vm_compute; reflexivity.
  - vm_compute; reflexivity.
  - vm_compute; reflexivity.
  - vm_compute; reflexivity.
  - vm_compute; reflexivity.
Defined.

(** X23.  After [shutdown] nothing reaches the switch and nothing comes
    back from it: a message read for any client is dropped, every
    [initiate_call] returns [None], and every request to hang up a call is
    answered [False]. *)
Theorem shutdown_cuts_the_switch_off
    (now : datetime) (send_ok : bool) (campaign_id lead_id agent_id call_id : Z)
    (config_id : Z) (msg : message) (w : World.t) :
  let w' := World.mk (World.db w) (World.dialer w) (SipService.shutdown (World.sip w)) in
  World.on_message now config_id msg w' = w'
  ∧ snd (World.initiate_call now send_ok campaign_id lead_id agent_id w') = None
  ∧ World.sip (fst (World.initiate_call now send_ok campaign_id lead_id agent_id w'))
    = SipService.shutdown (World.sip w)
  ∧ snd (SipService.hangup_call now send_ok call_id (World.db w')
           (SipService.shutdown (World.sip w))) = false.
Proof.
  cbn zeta. split; [|split; [|split]].
  - unfold World.on_message, SipService.on_message, SipService.shutdown.
    cbn [World.sip World.db World.dialer SipService.ami_clients].
    by rewrite lookup_empty.
  - unfold World.initiate_call. cbn [World.db World.sip World.dialer].
    destruct (Db.lead_get lead_id (World.db w)) as [lead|]; [|done].
    destruct (Lead.phone_number lead) as [phone|]; [|done].
    unfold SipService.originate_call, SipService.shutdown.
    cbn [SipService.ami_clients].
    destruct (Db.active_configuration _) as [cfg|]; [|done].
    by rewrite lookup_empty.
  - unfold World.initiate_call. cbn [World.db World.sip World.dialer].
    destruct (Db.lead_get lead_id (World.db w)) as [lead|]; [|done].
    destruct (Lead.phone_number lead) as [phone|]; [|done].
    unfold SipService.originate_call, SipService.shutdown.
    cbn [SipService.ami_clients].
    destruct (Db.active_configuration _) as [cfg|]; [|done].
    by rewrite lookup_empty.
  - unfold SipService.hangup_call, SipService.shutdown.
    cbn [SipService.active_calls]. done.
Qed.

(** ** Metrics of the predictive dialer *)

Section Metrics.

Lemma recent_calls_length now campaign_id db :
  (length (PredictiveDialer.recent_calls now campaign_id db) ≤ 100)%nat.
Proof. unfold PredictiveDialer.recent_calls. rewrite length_take. lia. Qed.

Lemma performance_fold_other (f : Z → PredictiveDialer.performance)
    (agents : list Z) (perf : gmap Z PredictiveDialer.performance) (a : Z) :
  ¬ In a agents →
  fold_left (fun perf agent_id => <[agent_id := f agent_id]> perf) agents perf !! a
  = perf !! a.
Proof.
  revert perf. induction agents as [|a0 rest IH]; intros perf Hnot; [done|].
  cbn [fold_left]. rewrite IH by (intros Hin; apply Hnot; by right).
  apply lookup_insert_ne. intros ->. apply Hnot. by left.
Qed.

Lemma performance_fold_lookup (f : Z → PredictiveDialer.performance)
    (agents : list Z) (perf : gmap Z PredictiveDialer.performance) (a : Z) :
  In a agents →
  fold_left (fun perf agent_id => <[agent_id := f agent_id]> perf) agents perf !! a
  = Some (f a).
Proof.
  revert perf. induction agents as [|a0 rest IH]; intros perf Hin; [done|].
  cbn [fold_left]. destruct (in_dec Z.eq_dec a rest) as [Hrest|Hrest].
  - by apply IH.
  - destruct Hin as [->|Hin]; [|done].
    rewrite performance_fold_other by done. apply lookup_insert_eq.
Qed.

Lemma ratio_in_unit_interval (a n : nat) :
  (a ≤ n)%nat → (0 < n)%nat →
  (0 <= Qmake (Z.of_nat a) (Pos.of_nat n) <= 1)%Q.
Proof.
  intros Han Hn. destruct n as [|k]; [lia|].
  unfold Qle. cbn [Qnum Qden]. rewrite <- Pos.of_nat_succ, Zpos_P_of_succ_nat. lia.
Qed.

(** The figures computed from at most a hundred calls. *)
Lemma performance_of_bounds (recent : list Call.t) (agent_id : Z) :
  (length recent ≤ 100)%nat →
  let p := PredictiveDialer.performance_of recent agent_id in
  0 ≤ PredictiveDialer.answered_calls p ≤ PredictiveDialer.total_calls p
  ∧ PredictiveDialer.total_calls p ≤ 100
  ∧ (0 <= PredictiveDialer.answer_rate p <= 1)%Q.
Proof.
  intros Hlen. cbn zeta. unfold PredictiveDialer.performance_of.
  pose proof (filter_length_le
                (fun c => bool_decide (Call.agent_id c = Some agent_id)) recent) as Hagent.
  destruct (List.filter _ recent) as [|c cs] eqn:Hcalls.
  - cbn. repeat split; try lia; by vm_compute.
  - set (agent_calls := c :: cs) in *.
    pose proof (filter_length_le
                  (fun c => bool_decide (Call.call_status c = "answered")) agent_calls)
      as Hanswered.
    cbn [PredictiveDialer.answered_calls PredictiveDialer.total_calls
         PredictiveDialer.answer_rate].
    split; [lia|]. split; [lia|].
    apply ratio_in_unit_interval; [done|]. subst agent_calls. cbn [length]. lia.
Qed.

End Metrics.

(** X24.  [_update_metrics] leaves figures that make sense.  The call
    history has at most a hundred entries, and every agent the campaign has
    available gets a performance entry in which the answered calls are no
    more than the total, the total is at most a hundred, and the answer rate
    lies between 0 and 1. *)
Theorem update_metrics_figures_are_sound
    (now : datetime) (campaign_id : Z) (db : Db.t)
    (statuses : gmap Z AgentStatus.t)
    (agent_performance : gmap Z PredictiveDialer.performance) (agent_id : Z) :
  In agent_id (fst (DialerService.get_available_agents campaign_id db statuses)) →
  let r := PredictiveDialer._update_metrics now campaign_id db statuses
             agent_performance in
  (length (fst (fst r)) ≤ 100)%nat
  ∧ ∃ p, snd (fst r) !! agent_id = Some p
         ∧ 0 ≤ PredictiveDialer.answered_calls p ≤ PredictiveDialer.total_calls p
         ∧ PredictiveDialer.total_calls p ≤ 100
         ∧ (0 <= PredictiveDialer.answer_rate p <= 1)%Q.
Proof.
  intros Hin. cbn zeta. unfold PredictiveDialer._update_metrics.
  destruct (DialerService.get_available_agents campaign_id db statuses)
    as [agents statuses'].
  cbn [fst snd] in *. split.
  - rewrite length_map. apply recent_calls_length.
  - eexists. split.
    + by apply (performance_fold_lookup
                  (PredictiveDialer.performance_of
                     (PredictiveDialer.recent_calls now campaign_id db))).
    + apply performance_of_bounds, recent_calls_length.
Qed.

(** Agent 7 with three unanswered calls in the last day. *)
Lemma update_metrics_figures_are_sound_witness :
  let r := PredictiveDialer._update_metrics 300000000 1 exhausted_lead_db ∅ ∅ in
  (length (fst (fst r)) ≤ 100)%nat
  ∧ ∃ p, snd (fst r) !! 7 = Some p
         ∧ 0 ≤ PredictiveDialer.answered_calls p ≤ PredictiveDialer.total_calls p
         ∧ PredictiveDialer.total_calls p ≤ 100
         ∧ (0 <= PredictiveDialer.answer_rate p <= 1)%Q.
Proof.
  apply (update_metrics_figures_are_sound 300000000 1 exhausted_lead_db ∅ ∅ 7).
  vm_compute. left. reflexivity.
Defined.
